(** * RetailCRM integration adapter: a shallow embedding and its properties

    The development follows the Python sources:
    - [src/schemas/customers.py], [orders.py], [payments.py]: the DTOs and
      the phone validator;
    - [src/services/integrations/base_crm.py]: the abstract service and the
      shared request pipeline [_make_request];
    - [src/services/integrations/retail_crm/api_service.py]: the RetailCRM
      adapter (request preparation, response validation, filter flattening
      and the operations [get_customers], [create_customer],
      [get_customer_orders], [create_order] and [create_payment]);
    - [src/api/customers.py], [orders.py], [payments.py]: the routes.

    Python values are modelled by the inductive [value]; a Python [dict] is
    an association list in insertion order with unique keys.  The adapter's
    effects (outbound HTTP calls, logging, dict objects shared by reference,
    exceptions) are threaded through a state-and-exception monad [M]. *)

From Stdlib Require Import String Ascii List ZArith Bool Lia PrimFloat.
From Stdlib Require Import DecimalString.
From Stdlib Require DecimalZ.
Import ListNotations.

Local Open Scope list_scope.
Local Open Scope string_scope.

Set Warnings "-register-all".

(* ================================================================== *)
(** * Python values *)
(* ================================================================== *)

Module Py.

(** The fragment of Python's [Any] that travels through the adapter: what
    [response.json()] and [model_dump] produce.  [VDatetime] is a
    [datetime] object, named by its ISO text; [VDict] keeps insertion
    order, as Python dicts do. *)
Inductive value : Type :=
| VNone
| VBool (b : bool)
| VInt (n : Z)
| VFloat (f : float)
| VStr (s : string)
| VDatetime (iso : string)
| VList (l : list value)
| VDict (d : list (string * value)).

Definition dict : Type := list (string * value).

(** [bool(v)] *)
Definition truthy (v : value) : bool :=
  match v with
  | VNone => false
  | VBool b => b
  | VInt n => negb (Z.eqb n 0)
  | VFloat f => negb (PrimFloat.eqb f 0%float)
  | VStr s => negb (String.eqb s "")
  | VDatetime _ => true
  | VList l => match l with [] => false | _ :: _ => true end
  | VDict d => match d with [] => false | _ :: _ => true end
  end.

(** [v is None] *)
Definition is_none (v : value) : bool :=
  match v with VNone => true | _ => false end.

(** [type(v).__name__] *)
Definition type_name (v : value) : string :=
  match v with
  | VNone => "NoneType"
  | VBool _ => "bool"
  | VInt _ => "int"
  | VFloat _ => "float"
  | VStr _ => "str"
  | VDatetime _ => "datetime"
  | VList _ => "list"
  | VDict _ => "dict"
  end.

(** [d.get(k)] on a dict: [None] stands for a missing key. *)
Fixpoint dict_get (d : dict) (k : string) : option value :=
  match d with
  | [] => None
  | (k', v) :: d' => if String.eqb k' k then Some v else dict_get d' k
  end.

(** [d[k] = v]: an existing key keeps its position, a new key is appended. *)
Fixpoint dict_set (k : string) (v : value) (d : dict) : dict :=
  match d with
  | [] => [(k, v)]
  | (k', v') :: d' =>
      if String.eqb k' k then (k, v) :: d' else (k', v') :: dict_set k v d'
  end.

Definition keys (d : dict) : list string := map fst d.

(** The invariant of a Python dict: no key occurs twice. *)
Definition wf_dict (d : dict) : Prop := NoDup (keys d).

(** [d.get(k, default)] *)
Definition dict_get_default (d : dict) (k : string) (default : value) : value :=
  match dict_get d k with Some v => v | None => default end.

(** [bool(d.get(k))]: a missing key yields [None], which is falsy. *)
Definition truthy_opt (o : option value) : bool :=
  match o with Some v => truthy v | None => false end.

(** [str(n)] for an [int]. *)
Definition str_of_int (n : Z) : string := NilZero.string_of_int (Z.to_int n).

(** [s.startswith(p)] *)
Fixpoint startswith (p s : string) : bool :=
  match p, s with
  | EmptyString, _ => true
  | String _ _, EmptyString => false
  | String c p', String c' s' => Ascii.eqb c c' && startswith p' s'
  end.

(** [sub in s], as a proposition. *)
Definition includes (sub s : string) : Prop :=
  exists pre post, s = pre ++ sub ++ post.

(** No closing bracket occurs in [s]. *)
Fixpoint bracket_free (s : string) : bool :=
  match s with
  | EmptyString => true
  | String c s' => negb (Ascii.eqb c "]") && bracket_free s'
  end.

End Py.
Import Py.

(* ================================================================== *)
(** * Schemas ([src/schemas]) *)
(* ================================================================== *)

(** Python exceptions.  [HTTPStatusError] is httpx's, raised by
    [raise_for_status] and carrying the status code and text of the
    response; [Exception msg] is the bare [Exception(msg)] the adapter
    raises; [PyError cls msg] is any other exception of class [cls] whose
    [str] is [msg]. *)
Inductive exn : Type :=
| HTTPStatusError (status_code : Z) (text : string)
| Exception (msg : string)
| PyError (cls : string) (msg : string).

(** The Python class name of an exception. *)
Definition exn_class (e : exn) : string :=
  match e with
  | HTTPStatusError _ _ => "HTTPStatusError"
  | Exception _ => "Exception"
  | PyError cls _ => cls
  end.

(** The built-in exception classes that derive from [BaseException] and
    not from [Exception] ([asyncio.CancelledError] among them). *)
Definition base_only_classes : list string :=
  ["BaseException"; "BaseExceptionGroup"; "CancelledError"; "GeneratorExit";
   "KeyboardInterrupt"; "SystemExit"].

(** [isinstance(e, Exception)]: what an [except Exception] clause
    catches. *)
Definition is_Exception (e : exn) : bool :=
  negb (existsb (String.eqb (exn_class e)) base_only_classes).

Inductive result (A : Type) : Type :=
| Ok (a : A)
| Raised (e : exn).
Arguments Ok {A} a.
Arguments Raised {A} e.

(** [x.get(k)] where [x] is any value: only a dict has the method. *)
Definition py_get (x : value) (k : string) : result (option value) :=
  match x with
  | VDict d => Ok (dict_get d k)
  | _ => Raised (PyError "AttributeError"
                   ("'" ++ type_name x ++ "' object has no attribute 'get'"))
  end.

Module Customers.

(** [[item.get("number") for item in v if item.get("number")]] *)
Fixpoint phone_numbers (v : list value) : result (list value) :=
  match v with
  | [] => Ok []
  | item :: rest =>
      match py_get item "number" with
      | Raised e => Raised e
      | Ok number =>
          match phone_numbers rest with
          | Raised e => Raised e
          | Ok numbers =>
              if truthy_opt number
              then Ok (match number with
                       | Some n => n :: numbers
                       | None => numbers
                       end)
              else Ok numbers
          end
      end
  end.

(** [CustomerGetSchema.parse_phones], the "before" validator of [phones]. *)
Definition parse_phones (v : value) : result value :=
  match v with
  | VNone => Ok VNone
  | VList l =>
      match l with
      | [] => Ok (VList [])
      | VDict _ :: _ =>
          match phone_numbers l with
          | Ok numbers => Ok (VList numbers)
          | Raised e => Raised e
          end
      | VStr _ :: _ => Ok v
      | _ => Ok v
      end
  | _ => Ok v
  end.

(** [CustomerAddSchema] *)
Record CustomerAddSchema : Type := {
  first_name : string;
  last_name : option string;
  email : option string;
  phones : option (list string);
  birthday : option string (* a [datetime], by its ISO text *)
}.

(** [CustomerResponseWithIdOnlySchema] *)
Record CustomerResponseWithIdOnlySchema : Type := { customer_id : Z }.

(** [CustomerFiltersSchema] *)
Record CustomerFiltersSchema : Type := {
  filter_name : option string;
  filter_email : option string;
  created_at_from : option string;
  created_at_to : option string;
  filter_limit : Z;
  filter_page : Z
}.

(** [CustomerGetOrdersSchema] *)
Record CustomerGetOrdersSchema : Type := {
  orders_customer_id : Z;
  orders_limit : Z;
  orders_page : Z
}.

End Customers.
Import Customers.

(** One optional field of [model_dump(exclude_none=True)]. *)
Definition dump_opt (k : string) (o : option value) : dict :=
  match o with Some v => [(k, v)] | None => [] end.

Definition opt_str (o : option string) : option value := option_map VStr o.

(** [CustomerFiltersSchema.model_dump(exclude_none=True, by_alias=True)] *)
Definition dump_CustomerFiltersSchema (f : CustomerFiltersSchema) : dict :=
  (dump_opt "name" (opt_str (filter_name f))
   ++ dump_opt "email" (opt_str (filter_email f))
   ++ dump_opt "created_at_from" (opt_str (created_at_from f))
   ++ dump_opt "created_at_to" (opt_str (created_at_to f))
   ++ [("limit", VInt (filter_limit f)); ("page", VInt (filter_page f))])%list.

(** [CustomerGetOrdersSchema.model_dump(exclude_none=True, by_alias=True)] *)
Definition dump_CustomerGetOrdersSchema (c : CustomerGetOrdersSchema) : dict :=
  [("customerId", VInt (orders_customer_id c));
   ("limit", VInt (orders_limit c));
   ("page", VInt (orders_page c))].

(** [CustomerAddSchema.model_dump(exclude_none=True, by_alias=True)] *)
Definition dump_CustomerAddSchema (c : CustomerAddSchema) : dict :=
  ([("firstName", VStr (first_name c))]
   ++ dump_opt "lastName" (opt_str (last_name c))
   ++ dump_opt "email" (opt_str (email c))
   ++ dump_opt "phones" (option_map (fun l => VList (map VStr l)) (phones c))
   ++ dump_opt "birthday" (option_map VDatetime (birthday c)))%list.

(* ================================================================== *)
(** * Filter flattening ([_convert_filter_data_to_retail_crm_style]) *)
(* ================================================================== *)

(** The argument [filter_dto: BaseModel | dict]: the two models the adapter
    passes, or a plain dict. *)
Inductive filter_dto : Type :=
| FilterDict (d : dict)
| FilterCustomers (f : CustomerFiltersSchema)
| FilterCustomerOrders (c : CustomerGetOrdersSchema).

(** The inner function [flatten(prefix, value)]; [params] is the enclosing
    function's dict, which [flatten] updates. *)
Fixpoint flatten (prefix : string) (v : value) (params : dict) : dict :=
  match v with
  | VDict d =>
      fold_left (fun params kv =>
                   flatten (prefix ++ "[" ++ fst kv ++ "]") (snd kv) params)
                d params
  | VList l =>
      fold_left (fun params item => flatten (prefix ++ "[]") item params)
                l params
  | _ => dict_set prefix v params
  end.

(** [key in ("limit", "page")] *)
Definition is_pagination_key (key : string) : bool :=
  String.eqb key "limit" || String.eqb key "page".

(** The first loop: pagination keys go to [params], the rest to
    [filter_dict]. *)
Definition split_filters (filters : dict) : dict * dict :=
  fold_left (fun acc kv =>
               if is_pagination_key (fst kv)
               then (dict_set (fst kv) (snd kv) (fst acc), snd acc)
               else (fst acc, dict_set (fst kv) (snd kv) (snd acc)))
            filters ([], []).

Definition _convert_filter_data_to_retail_crm_style (filter_dto : filter_dto)
  : dict :=
  let filters :=
    match filter_dto with
    | FilterDict d => filter (fun kv => negb (is_none (snd kv))) d
    | FilterCustomers f => dump_CustomerFiltersSchema f
    | FilterCustomerOrders c => dump_CustomerGetOrdersSchema c
    end in
  let (params, filter_dict) := split_filters filters in
  fold_left (fun params kv =>
               flatten ("filter[" ++ fst kv ++ "]") (snd kv) params)
            filter_dict params.


(* ================================================================== *)
(** * Order and payment schemas *)
(* ================================================================== *)

Module Orders.

Inductive OrderTypeEnum : Type := main.

Inductive OrderMethodEnum : Type :=
| phone | shopping_cart | one_click | price_decrease_request | landing_page
| offline | app | live_chat | terminal | missed_call | messenger.

Definition OrderTypeEnum_value (t : OrderTypeEnum) : string :=
  match t with main => "main" end.

Definition OrderMethodEnum_value (m : OrderMethodEnum) : string :=
  match m with
  | phone => "phone"
  | shopping_cart => "shopping-cart"
  | one_click => "one-click"
  | price_decrease_request => "price-decrease-request"
  | landing_page => "landing-page"
  | offline => "offline"
  | app => "app"
  | live_chat => "live-chat"
  | terminal => "terminal"
  | missed_call => "missed-call"
  | messenger => "messenger"
  end.

(** [OfferSchema] *)
Record OfferSchema : Type := { offer_name : string; offer_id : Z }.

(** [OrderItemSchema] *)
Record OrderItemSchema : Type := {
  quantity : float;
  initial_price : float;
  purchase_price : float;
  product_name : string
}.

(** [OrderItemGetSchema] *)
Record OrderItemGetSchema : Type := {
  item : OrderItemSchema;
  item_id : Z;
  offer : OfferSchema
}.

(** [OrderCreateSchema]: [items] is any list of items, the empty one
    included; the class puts no length constraint on the field. *)
Record OrderCreateSchema : Type := {
  customer : CustomerResponseWithIdOnlySchema;
  items : list OrderItemSchema;
  number : string;
  order_type : OrderTypeEnum;
  order_method : OrderMethodEnum
}.

(** [CustomerGetSchema] *)
Record CustomerGetSchema : Type := {
  customer_data : CustomerAddSchema;
  id_of_customer : Z
}.

(** [OrderResponseSchema] *)
Record OrderResponseSchema : Type := {
  order_id : Z;
  order_number : string;
  order_customer : CustomerGetSchema;
  order_items : list OrderItemGetSchema;
  total_amount : float;
  created_at : string
}.

Definition dump_OrderItemSchema (i : OrderItemSchema) : value :=
  VDict [("quantity", VFloat (quantity i));
         ("initialPrice", VFloat (initial_price i));
         ("purchasePrice", VFloat (purchase_price i));
         ("productName", VStr (product_name i))].

(** [OrderCreateSchema.model_dump(exclude_none=True, by_alias=True)] *)
Definition dump_OrderCreateSchema (o : OrderCreateSchema) : dict :=
  [("customer", VDict [("id", VInt (customer_id (customer o)))]);
   ("items", VList (map dump_OrderItemSchema (items o)));
   ("number", VStr (number o));
   ("orderType", VStr (OrderTypeEnum_value (order_type o)));
   ("orderMethod", VStr (OrderMethodEnum_value (order_method o)))].

End Orders.
Import Orders.

Module Payments.

Inductive PaymentTypeEnum : Type :=
| cash | bank_card | e_money | bank_transfer | credit.

Inductive PaymentStatusEnum : Type :=
| not_paid | invoice | wait_approved | payment_start | canceled | fail
| paid | returned.

Definition PaymentTypeEnum_value (t : PaymentTypeEnum) : string :=
  match t with
  | cash => "cash"
  | bank_card => "bank-card"
  | e_money => "e-money"
  | bank_transfer => "bank-transfer"
  | credit => "credit"
  end.

Definition PaymentStatusEnum_value (s : PaymentStatusEnum) : string :=
  match s with
  | not_paid => "not-paid"
  | invoice => "invoice"
  | wait_approved => "wait-approved"
  | payment_start => "payment-start"
  | canceled => "canceled"
  | fail => "fail"
  | paid => "paid"
  | returned => "returned"
  end.

(** [PaymentCreateSchema] *)
Record PaymentCreateSchema : Type := {
  payment_order_id : Z;
  amount : float;
  payment_type : PaymentTypeEnum;
  status : PaymentStatusEnum;
  paid_at : option string;
  comment : option string
}.

(** [PaymentResponseSchema] *)
Record PaymentResponseSchema : Type := { payment_id : Z }.

(** [PaymentCreateSchema.model_dump(exclude_none=True, exclude={"order_id"})]:
    field names, not aliases. *)
Definition dump_PaymentCreateSchema (p : PaymentCreateSchema) : dict :=
  ([("amount", VFloat (amount p));
    ("type", VStr (PaymentTypeEnum_value (payment_type p)));
    ("status", VStr (PaymentStatusEnum_value (status p)))]
   ++ dump_opt "paid_at" (opt_str (paid_at p))
   ++ dump_opt "comment" (opt_str (comment p)))%list.

End Payments.
Import Payments.

Module Lists.

(** [CustomersListResponseSchema] *)
Record CustomersListResponseSchema : Type := {
  customers : list CustomerGetSchema;
  customers_pagination : option dict
}.

(** [OrdersListResponse] *)
Record OrdersListResponse : Type := {
  orders : list OrderResponseSchema;
  orders_pagination : option dict
}.

End Lists.
Import Lists.

(* ================================================================== *)
(** * Library functions the adapter calls *)
(* ================================================================== *)

(** Python and pydantic built-ins that are not code of the repository:
    [repr], [json.dumps] and pydantic's coercion of one value to a field
    type.  They are parameters of the development. *)
Class PyBuiltins : Type := {
  py_repr : value -> string;
  json_dumps : value -> result string;
  pydantic_int : value -> option Z;
  pydantic_float : value -> option float;
  pydantic_str : value -> option string;
  pydantic_email : value -> option string;
  pydantic_datetime : value -> option string
}.

Section Validation.
Context `{PyBuiltins}.

(** [str(v)], as an f-string formats a value: a [str] is itself, every other
    value of the fragment prints as its [repr]. *)
Definition py_str (v : value) : string :=
  match v with
  | VStr s => s
  | _ => py_repr v
  end.

(** [Model( **x )]: [x] has to be a mapping, or the call is a
    [TypeError], whose text names the callable [callee] by its module and
    qualified name. *)
Definition kwargs (callee : string) (x : value) : result dict :=
  match x with
  | VDict d => Ok d
  | _ => Raised (PyError "TypeError"
                   (callee ++ "() argument after ** must be a mapping, not "
                    ++ type_name x))
  end.

(** pydantic's [ValidationError] for the model [model]; the report
    pydantic prints for it is abbreviated to the model's name. *)
Definition ValidationError (model : string) : exn :=
  PyError "ValidationError" ("validation error for " ++ model).

(** A field looked up by alias first and, under [populate_by_name], by its
    name. *)
Definition get_field (d : dict) (alias name : string) : option value :=
  match dict_get d alias with
  | Some v => Some v
  | None => dict_get d name
  end.

(** A required field coerced by [coerce]. *)
Definition required {A} (coerce : value -> option A) (o : option value)
  : option A :=
  match o with Some v => coerce v | None => None end.

(** An optional field ([T | None = None]): missing or [None] is [None]. *)
Definition optional {A} (coerce : value -> option A) (o : option value)
  : option (option A) :=
  match o with
  | None | Some VNone => Some None
  | Some v => option_map Some (coerce v)
  end.

Fixpoint all_some {A} (l : list (option A)) : option (list A) :=
  match l with
  | [] => Some []
  | None :: _ => None
  | Some a :: l' => option_map (cons a) (all_some l')
  end.

(** A [list[T]] field. *)
Definition pydantic_list {A} (coerce : value -> option A) (v : value)
  : option (list A) :=
  match v with
  | VList l => all_some (map coerce l)
  | _ => None
  end.

Definition validated {A} (model : string) (o : option A) : result A :=
  match o with Some a => Ok a | None => Raised (ValidationError model) end.

(** [CustomerResponseWithIdOnlySchema( **d )]: the one field [id: int] is
    required. *)
Definition new_CustomerResponseWithIdOnlySchema (d : dict)
  : result CustomerResponseWithIdOnlySchema :=
  validated "CustomerResponseWithIdOnlySchema"
    (option_map Build_CustomerResponseWithIdOnlySchema
       (required pydantic_int (dict_get d "id"))).

(** [PaymentResponseSchema( **d )] *)
Definition new_PaymentResponseSchema (d : dict) : result PaymentResponseSchema :=
  validated "PaymentResponseSchema"
    (option_map Build_PaymentResponseSchema
       (required pydantic_int (dict_get d "id"))).

(** The fields [CustomerGetSchema] inherits from [CustomerAddSchema], the
    [phones] value being what the "before" validator returned. *)
Definition coerce_CustomerAddSchema (d : dict) (phones_value : option value)
  : option CustomerAddSchema :=
  match required pydantic_str (get_field d "firstName" "first_name"),
        optional pydantic_str (get_field d "lastName" "last_name"),
        optional pydantic_email (dict_get d "email"),
        optional (pydantic_list pydantic_str) phones_value,
        optional pydantic_datetime (dict_get d "birthday") with
  | Some fn, Some ln, Some em, Some ph, Some bd =>
      Some {| first_name := fn; last_name := ln; email := em;
              phones := ph; birthday := bd |}
  | _, _, _, _, _ => None
  end.

(** [CustomerGetSchema] as a nested field: [parse_phones] runs on the
    [phones] entry when there is one; an exception it raises is not a
    validation error and propagates as it is. *)
Definition coerce_CustomerGetSchema (v : value)
  : result (option CustomerGetSchema) :=
  match v with
  | VDict d =>
      match match dict_get d "phones" with
            | Some p => match parse_phones p with
                        | Ok p' => Ok (Some p')
                        | Raised e => Raised e
                        end
            | None => Ok None
            end with
      | Raised e => Raised e
      | Ok phones_value =>
          Ok match coerce_CustomerAddSchema d phones_value,
                   required pydantic_int (dict_get d "id") with
             | Some c, Some i =>
                 Some {| customer_data := c; id_of_customer := i |}
             | _, _ => None
             end
      end
  | _ => Ok None
  end.

Definition coerce_OfferSchema (v : value) : option OfferSchema :=
  match v with
  | VDict d =>
      match required pydantic_str (dict_get d "name"),
            required pydantic_int (dict_get d "id") with
      | Some n, Some i => Some {| offer_name := n; offer_id := i |}
      | _, _ => None
      end
  | _ => None
  end.

Definition coerce_OrderItemGetSchema (v : value) : option OrderItemGetSchema :=
  match v with
  | VDict d =>
      match required pydantic_float (dict_get d "quantity"),
            required pydantic_float (get_field d "initialPrice" "initial_price"),
            required pydantic_float (get_field d "purchasePrice" "purchase_price"),
            required pydantic_str (get_field d "productName" "product_name"),
            required pydantic_int (dict_get d "id"),
            required coerce_OfferSchema (dict_get d "offer") with
      | Some q, Some ip, Some pp, Some pn, Some i, Some o =>
          Some {| item := {| quantity := q; initial_price := ip;
                             purchase_price := pp; product_name := pn |};
                  item_id := i; offer := o |}
      | _, _, _, _, _, _ => None
      end
  | _ => None
  end.

(** [OrderResponseSchema( **d )] *)
Definition new_OrderResponseSchema (d : dict) : result OrderResponseSchema :=
  match match dict_get d "customer" with
        | Some c => coerce_CustomerGetSchema c
        | None => Ok None
        end with
  | Raised e => Raised e
  | Ok cust =>
      validated "OrderResponseSchema"
        match required pydantic_int (dict_get d "id"),
              required pydantic_str (dict_get d "number"),
              cust,
              required (pydantic_list coerce_OrderItemGetSchema)
                       (dict_get d "items"),
              required pydantic_float (get_field d "totalSumm" "total_amount"),
              required pydantic_str (get_field d "createdAt" "created_at") with
        | Some i, Some n, Some c, Some its, Some t, Some ca =>
            Some {| order_id := i; order_number := n; order_customer := c;
                    order_items := its; total_amount := t; created_at := ca |}
        | _, _, _, _, _, _ => None
        end
  end.

(** [CustomerGetSchema( **d )] *)
Definition new_CustomerGetSchema (d : dict) : result CustomerGetSchema :=
  match coerce_CustomerGetSchema (VDict d) with
  | Raised e => Raised e
  | Ok o => validated "CustomerGetSchema" o
  end.

(** A field [pagination: dict | None] given the value [v]. *)
Definition coerce_pagination (v : value) : option (option dict) :=
  match v with
  | VNone => Some None
  | VDict d => Some (Some d)
  | _ => None
  end.

(** [x.get(k)] as Python returns it: [None] for a missing key. *)
Definition or_none (o : option value) : value :=
  match o with Some v => v | None => VNone end.

(** [CustomersListResponseSchema(customers=..., pagination=...)]: the
    customers are instances already. *)
Definition new_CustomersListResponseSchema (cs : list CustomerGetSchema)
    (pagination : value) : result CustomersListResponseSchema :=
  validated "CustomersListResponseSchema"
    (option_map (Build_CustomersListResponseSchema cs)
       (coerce_pagination pagination)).

(** [OrdersListResponse(orders=..., pagination=...)] *)
Definition new_OrdersListResponse (os : list OrderResponseSchema)
    (pagination : value) : result OrdersListResponse :=
  validated "OrdersListResponse"
    (option_map (Build_OrdersListResponse os) (coerce_pagination pagination)).

(** [for item in x]: the items a loop over [x] visits. *)
Definition py_iter (x : value) : result (list value) :=
  match x with
  | VList l => Ok l
  | VDict d => Ok (map (fun kv => VStr (fst kv)) d)
  | VStr s => Ok (map (fun c => VStr (String c "")) (list_ascii_of_string s))
  | _ => Raised (PyError "TypeError"
                   ("'" ++ type_name x ++ "' object is not iterable"))
  end.

(** [[Model( **item ) for item in items]], [callee] being the name of
    [Model]. *)
Fixpoint build_all {A} (callee : string) (new : dict -> result A)
    (items : list value) : result (list A) :=
  match items with
  | [] => Ok []
  | item :: rest =>
      match kwargs callee item with
      | Raised e => Raised e
      | Ok d =>
          match new d with
          | Raised e => Raised e
          | Ok a =>
              match build_all callee new rest with
              | Raised e => Raised e
              | Ok others => Ok (a :: others)
              end
          end
      end
  end.

(** [CustomerFiltersSchema(name=..., email=..., ...)] as the customers
    route builds it: the email, when given, has to validate as an
    [EmailStr]. *)
Definition new_CustomerFiltersSchema (name email_given from_date to_date : option string)
    (limit page : Z) : result CustomerFiltersSchema :=
  match email_given with
  | None =>
      Ok {| filter_name := name; filter_email := None;
            created_at_from := from_date; created_at_to := to_date;
            filter_limit := limit; filter_page := page |}
  | Some s =>
      validated "CustomerFiltersSchema"
        (option_map
           (fun e => {| filter_name := name; filter_email := Some e;
                        created_at_from := from_date; created_at_to := to_date;
                        filter_limit := limit; filter_page := page |})
           (pydantic_email (VStr s)))
  end.

End Validation.

(* ================================================================== *)
(** * Effects: HTTP calls, logging, dict objects, exceptions *)
(* ================================================================== *)

(** Modelled from the spec: [src/services/integrations/constants_base.py]
    (the [HTTPMethod] string enumeration) is not among the sources; the
    spec names the two methods the adapter uses, HTTP GET for reads and
    HTTP POST for writes. *)
Module HTTPMethod.
Definition GET : string := "GET".
Definition POST : string := "POST".
End HTTPMethod.

(** One outbound call as [httpx.AsyncClient.request] receives it. *)
Record request : Type := {
  req_method : string;
  req_url : string;
  req_params : dict;
  req_data : option dict;
  req_headers : option dict
}.

(** What [response.json()] does: the decoded body, or a decoding error. *)
Inductive json_body : Type :=
| JsonValue (v : value)
| JsonInvalid (msg : string).

Record response : Type := {
  status_code : Z;
  text : string;
  json : json_body
}.

(** The outcome of [await client.request(...)]: a response, or an
    exception of class [cls] raised at the await (a connection failure, a
    timeout, the cancellation of the task). *)
Inductive client_outcome : Type :=
| Responded (r : response)
| Failed (cls : string) (msg : string).

(** The remote backend: its answer to a call may depend on the calls made
    before. *)
Definition http_client : Type := list request -> request -> client_outcome.

(** [response.is_success] *)
Definition is_success (status : Z) : bool :=
  (200 <=? status)%Z && (status <=? 299)%Z.

Inductive level : Type := DEBUG | INFO | WARNING | ERROR.

(** The address of a dict object. *)
Definition ref : Type := nat.

(** The state the adapter runs in: the dict objects passed by reference,
    the outbound calls issued so far (oldest first) and the log records. *)
Record world : Type := {
  heap : list dict;
  calls : list request;
  logs : list (level * string)
}.

Definition M (A : Type) : Type := world -> result A * world.

Definition ret {A} (a : A) : M A := fun w => (Ok a, w).

Definition bind {A B} (m : M A) (k : A -> M B) : M B :=
  fun w =>
    match m w with
    | (Ok a, w') => k a w'
    | (Raised e, w') => (Raised e, w')
    end.

Notation "x <- m ;; k" := (bind m (fun x => k))
  (at level 61, m at next level, right associativity).
Notation "m ;; k" := (bind m (fun _ => k))
  (at level 61, right associativity).

(** [raise e] *)
Definition raise {A} (e : exn) : M A := fun w => (Raised e, w).

(** A pure computation that may raise. *)
Definition lift {A} (r : result A) : M A := fun w => (r, w).

(** [try: body except ... as e: handler(e)] *)
Definition try_except {A} (body : M A) (handler : exn -> M A) : M A :=
  fun w =>
    match body w with
    | (Ok a, w') => (Ok a, w')
    | (Raised e, w') => handler e w'
    end.

(** [logger.<level>(msg)] *)
Definition log (l : level) (msg : string) : M unit :=
  fun w => (Ok tt, {| heap := heap w; calls := calls w;
                      logs := (logs w ++ [(l, msg)])%list |}).

(** A new dict object with the entries [d]. *)
Definition alloc (d : dict) : M ref :=
  fun w => (Ok (length (heap w)),
            {| heap := (heap w ++ [d])%list; calls := calls w;
               logs := logs w |}).

(** The entries of the dict object at [r]. *)
Definition deref (w : world) (r : ref) : dict := nth r (heap w) [].

Definition load (r : ref) : M dict := fun w => (Ok (deref w r), w).

Fixpoint update {A} (n : nat) (a : A) (l : list A) : list A :=
  match l, n with
  | [], _ => []
  | _ :: l', O => a :: l'
  | x :: l', S n' => x :: update n' a l'
  end.

(** [r[k] = v], in place. *)
Definition store (r : ref) (k : string) (v : value) : M unit :=
  fun w => (Ok tt, {| heap := update r (dict_set k v (deref w r)) (heap w);
                      calls := calls w; logs := logs w |}).

Definition load_opt (r : option ref) : M (option dict) :=
  match r with
  | Some r => d <- load r ;; ret (Some d)
  | None => ret None
  end.

(** [await client.request(...)]: the call is recorded, then answered. *)
Definition client_request (client : http_client) (rq : request) : M response :=
  fun w =>
    let w' := {| heap := heap w; calls := (calls w ++ [rq])%list;
                 logs := logs w |} in
    match client (calls w) rq with
    | Responded r => (Ok r, w')
    | Failed cls msg => (Raised (PyError cls msg), w')
    end.

(** [response.raise_for_status()] *)
Definition raise_for_status (r : response) : M unit :=
  if is_success (status_code r) then ret tt
  else raise (HTTPStatusError (status_code r) (text r)).

(** [response.json()] *)
Definition response_json (r : response) : M value :=
  match json r with
  | JsonValue v => ret v
  | JsonInvalid msg => raise (PyError "JSONDecodeError" msg)
  end.

(* ================================================================== *)
(** * The abstract service ([base_crm.py]) *)
(* ================================================================== *)

Module Base.

(** [BaseCRMService]: the state of [__init__] and the four abstract
    preparation and validation methods. *)
Class BaseCRMService (S : Type) : Type := {
  api_url : S -> string;
  client : S -> http_client;
  _prepare_request_params : S -> option ref -> M ref;
  _prepare_request_body : S -> option dict -> M (option dict);
  _prepare_request_headers : S -> option ref -> M (option ref);
  _validate_response : S -> value -> string -> M unit
}.

Section MakeRequest.
Context {S : Type} `{BaseCRMService S}.

(** The two [except] clauses of [_make_request]; an exception that is
    neither an [HTTPStatusError] nor an [Exception] is caught by none and
    propagates as it is. *)
Definition on_error (e : exn) : M value :=
  match e with
  | HTTPStatusError code body =>
      let error_detail := "HTTP " ++ str_of_int code ++ ": " ++ body in
      log ERROR ("HTTP error in CRM API request: " ++ error_detail) ;;
      raise (Exception ("CRM API error: " ++ error_detail))
  | Exception msg | PyError _ msg =>
      if is_Exception e then
        log ERROR ("Request error: " ++ msg) ;;
        raise (Exception ("Request error: " ++ msg))
      else raise e
  end.

Definition _make_request (self : S) (method endpoint : string)
    (params : option ref) (json_data : option dict) (headers : option ref)
  : M value :=
  request_params <- _prepare_request_params self params ;;
  request_body <- _prepare_request_body self json_data ;;
  headers <- _prepare_request_headers self headers ;;
  let url := api_url self ++ endpoint in
  log DEBUG ("Making " ++ method ++ " request to CRM API") ;;
  try_except
    (params_sent <- load request_params ;;
     headers_sent <- load_opt headers ;;
     response <- client_request (client self)
                   {| req_method := method; req_url := url;
                      req_params := params_sent; req_data := request_body;
                      req_headers := headers_sent |} ;;
     raise_for_status response ;;
     result <- response_json response ;;
     _validate_response self result endpoint ;;
     log DEBUG ("Successfully completed " ++ method ++ " request to "
                ++ endpoint) ;;
     ret result)
    on_error.

End MakeRequest.
End Base.

(* ================================================================== *)
(** * The RetailCRM adapter ([retail_crm/api_service.py]) *)
(* ================================================================== *)

(** [RetailCRMEndpoint] ([retail_crm/constants.py]) *)
Module E.
Definition CUSTOMERS_LIST : string := "/customers".
Definition CUSTOMERS_CREATE : string := "/customers/create".
Definition ORDERS_LIST : string := "/orders".
Definition ORDER_CREATE : string := "/orders/create".
Definition PAYMENTS_CREATE : string := "/orders/payments/create".
(** [ORDER_GET.build(order_id=...)] on the template "/orders/{order_id}" *)
Definition ORDER_GET_build (order_id : Z) : string :=
  "/orders/" ++ str_of_int order_id.
End E.

Module RetailCRMService.

(** The attributes [__init__] sets. *)
Record t : Type := {
  api_key : string;
  api_url : string;
  client : http_client
}.

(** [RetailCRMService()], from the three settings and the backend. *)
Definition init (URL PREFIX API_KEY : string) (backend : http_client) : t :=
  {| api_key := API_KEY; api_url := URL ++ PREFIX; client := backend |}.

Section Methods.
Context `{PyBuiltins}.

Definition _prepare_request_params (self : t) (params : option ref) : M ref :=
  request_params <-
    match params with
    | Some p =>
        d <- load p ;;
        if truthy (VDict d) then alloc d (* params.copy() *) else alloc []
    | None => alloc []
    end ;;
  store request_params "apiKey" (VStr (api_key self)) ;;
  ret request_params.

Definition _prepare_request_body (self : t) (json_data : option dict)
  : M (option dict) :=
  ret json_data.

Definition _prepare_request_headers (self : t) (headers : option ref)
    (method : string) : M (option ref) :=
  headers <- match headers with
             | None => alloc []
             | Some h => ret h
             end ;;
  (if String.eqb method HTTPMethod.POST
   then store headers "Content-Type"
          (VStr "application/x-www-form-urlencoded")
   else ret tt) ;;
  ret (Some headers).

(** [response.get(k, default)] on whatever [response.json()] returned. *)
Definition get_or (response : value) (k : string) (default : value)
  : M value :=
  o <- lift (py_get response k) ;;
  ret (match o with Some v => v | None => default end).

Definition _validate_response (self : t) (response : value)
    (endpoint : string) : M unit :=
  success <- get_or response "success" (VBool false) ;;
  if negb (truthy success) then
    error_msg <- get_or response "errorMsg" (VStr "Unknown error") ;;
    log ERROR ("RetailCRM API returned error: " ++ py_str error_msg) ;;
    raise (Exception ("RetailCRM API error: " ++ py_str error_msg))
  else ret tt.

(** The adapter as an implementation of the abstract service.  The base
    class calls [_prepare_request_headers(headers)], so [method] takes its
    default, [HTTPMethod.POST]. *)
#[global] Instance service : Base.BaseCRMService t := {|
  Base.api_url := api_url;
  Base.client := client;
  Base._prepare_request_params := _prepare_request_params;
  Base._prepare_request_body := _prepare_request_body;
  Base._prepare_request_headers :=
    fun self headers => _prepare_request_headers self headers HTTPMethod.POST;
  Base._validate_response := _validate_response
|}.

Definition _make_request : t -> string -> string -> option ref ->
                           option dict -> option ref -> M value :=
  Base._make_request.

(** [x.get(k) or x] *)
Definition get_or_self (x : value) (k : string) : M value :=
  o <- lift (py_get x k) ;;
  ret (match o with
       | Some v => if truthy v then v else x
       | None => x
       end).

Definition create_customer (self : t) (customer_dto : CustomerAddSchema)
  : M CustomerResponseWithIdOnlySchema :=
  log INFO "Creating new customer" ;;
  let customer_data := dump_CustomerAddSchema customer_dto in
  body <- lift (json_dumps (VDict customer_data)) ;;
  result <- _make_request self HTTPMethod.POST E.CUSTOMERS_CREATE None
              (Some [("customer", VStr body)]) None ;;
  customer_data_response <- get_or_self result "customer" ;;
  fields <- lift (kwargs "src.schemas.customers.CustomerResponseWithIdOnlySchema"
                    customer_data_response) ;;
  customer_response <- lift (new_CustomerResponseWithIdOnlySchema fields) ;;
  (if negb (Z.eqb (customer_id customer_response) 0)
   then log INFO ("Customer created successfully with ID: "
                  ++ str_of_int (customer_id customer_response))
   else log WARNING "Customer creation response doesn't contain ID") ;;
  ret customer_response.

Definition create_order (self : t) (order_dto : OrderCreateSchema)
  : M OrderResponseSchema :=
  let order_number := number order_dto in
  let customer_id := customer_id (customer order_dto) in
  let items_count := length (items order_dto) in
  log INFO "Creating new order" ;;
  let order_data := dump_OrderCreateSchema order_dto in
  body <- lift (json_dumps (VDict order_data)) ;;
  result <- _make_request self HTTPMethod.POST E.ORDER_CREATE None
              (Some [("order", VStr body)]) None ;;
  order_data_response <- get_or_self result "order" ;;
  fields <- lift (kwargs "src.schemas.orders.OrderResponseSchema"
                    order_data_response) ;;
  order_response <- lift (new_OrderResponseSchema fields) ;;
  (if negb (Z.eqb (order_id order_response) 0)
   then log INFO ("Order created successfully with ID: "
                  ++ str_of_int (order_id order_response)
                  ++ ", number: " ++ order_number)
   else log WARNING "Order creation response doesn't contain ID") ;;
  ret order_response.

Definition create_payment (self : t) (payment_dto : PaymentCreateSchema)
  : M PaymentResponseSchema :=
  let order_id := payment_order_id payment_dto in
  log INFO ("Creating payment for order ID: " ++ str_of_int order_id) ;;
  log DEBUG ("Checking if order " ++ str_of_int order_id ++ " exists") ;;
  by_id <- alloc [("by", VStr "id")] ;;
  order_response <- _make_request self HTTPMethod.GET
                      (E.ORDER_GET_build order_id) (Some by_id) None None ;;
  success <- lift (py_get order_response "success") ;;
  order <- (if truthy_opt success
            then lift (py_get order_response "order")
            else ret None) ;;
  if negb (truthy_opt success) || negb (truthy_opt order) then
    log ERROR ("Order with id " ++ str_of_int order_id ++ " not found") ;;
    raise (Exception ("Order with id " ++ str_of_int order_id ++ " not found"))
  else
    log DEBUG ("Order " ++ str_of_int order_id
               ++ " found, proceeding with payment creation") ;;
    let payment_data := dump_PaymentCreateSchema payment_dto in
    let payment_data :=
      dict_set "order" (VDict [("id", VInt order_id)]) payment_data in
    body <- lift (json_dumps (VDict payment_data)) ;;
    result <- _make_request self HTTPMethod.POST E.PAYMENTS_CREATE None
                (Some [("payment", VStr body)]) None ;;
    payment_data_response <- get_or_self result "payment" ;;
    fields <- lift (kwargs "src.schemas.payments.PaymentResponseSchema"
                      payment_data_response) ;;
    payment_response <- lift (new_PaymentResponseSchema fields) ;;
    (if negb (Z.eqb (payment_id payment_response) 0)
     then log INFO ("Payment created successfully with ID: "
                    ++ str_of_int (payment_id payment_response)
                    ++ " for order " ++ str_of_int order_id)
     else log WARNING "Payment creation response doesn't contain ID") ;;
    ret payment_response.

(** [params.update(other)] *)
Definition dict_update (params other : dict) : dict :=
  fold_left (fun acc kv => dict_set (fst kv) (snd kv) acc) other params.

Definition get_customers (self : t) (filter_dto : CustomerFiltersSchema)
  : M CustomersListResponseSchema :=
  log INFO "Getting customers list" ;;
  let params := [("limit", VInt (filter_limit filter_dto));
                 ("page", VInt (filter_page filter_dto))] in
  let filters :=
    _convert_filter_data_to_retail_crm_style (FilterCustomers filter_dto) in
  params <- alloc (dict_update params filters) ;;
  result <- _make_request self HTTPMethod.GET E.CUSTOMERS_LIST (Some params)
              None None ;;
  listed <- get_or result "customers" (VList []) ;;
  items <- lift (py_iter listed) ;;
  customers <- lift (build_all "src.schemas.customers.CustomerGetSchema"
                       new_CustomerGetSchema items) ;;
  let customers_count := length customers in
  log INFO ("Retrieved " ++ str_of_int (Z.of_nat customers_count)
            ++ " customers") ;;
  pagination <- lift (py_get result "pagination") ;;
  lift (new_CustomersListResponseSchema customers (or_none pagination)).

Definition get_customer_orders (self : t)
    (customer_data : CustomerGetOrdersSchema) : M OrdersListResponse :=
  let params := [("limit", VInt (orders_limit customer_data));
                 ("page", VInt (orders_page customer_data))] in
  let filters :=
    _convert_filter_data_to_retail_crm_style
      (FilterCustomerOrders customer_data) in
  let params := dict_update params filters in
  log INFO ("Getting orders for customer ID: "
            ++ str_of_int (orders_customer_id customer_data)) ;;
  params <- alloc params ;;
  result <- _make_request self HTTPMethod.GET E.ORDERS_LIST (Some params)
              None None ;;
  listed <- get_or result "orders" (VList []) ;;
  items <- lift (py_iter listed) ;;
  orders <- lift (build_all "src.schemas.orders.OrderResponseSchema"
                    new_OrderResponseSchema items) ;;
  let orders_count := length orders in
  log INFO ("Retrieved " ++ str_of_int (Z.of_nat orders_count)
            ++ " orders for customer "
            ++ str_of_int (orders_customer_id customer_data)) ;;
  pagination <- lift (py_get result "pagination") ;;
  lift (new_OrdersListResponse orders (or_none pagination)).

End Methods.
End RetailCRMService.

(* ================================================================== *)
(** * The routes ([src/api]) *)
(* ================================================================== *)

Module Api.

(** How a route handler ends: it returns its result, raises FastAPI's
    [HTTPException(status_code, detail)], or lets an exception through:
    one that is already an [HTTPException], or one that is not an
    [Exception] and that no clause of the route catches. *)
Inductive reply (A : Type) : Type :=
| Returned (a : A)
| HTTPException (status_code : Z) (detail : string)
| Reraised (e : exn).
Arguments Returned {A} a.
Arguments HTTPException {A} status_code detail.
Arguments Reraised {A} e.

Definition Handler (A : Type) : Type := world -> reply A * world.

Section Routes.
Context `{PyBuiltins}.

(** The text httpx gives an [HTTPStatusError]; it is built from parts of
    the response the model does not keep. *)
Variable httpx_status_text : Z -> string -> string.

(** [str(e)] *)
Definition exn_str (e : exn) : string :=
  match e with
  | Exception msg => msg
  | PyError _ msg => msg
  | HTTPStatusError code body => httpx_status_text code body
  end.

(** The [try] statement every route is made of: [except HTTPException]
    logs [http_log], when the route has one, and re-raises;
    [except Exception as e] logs and raises
    [HTTPException(status_code=500, detail=str(e))]. *)
Definition guarded {A} (http_log : option string) (error_log : string)
    (body : M A) : Handler A :=
  fun w =>
    match body w with
    | (Ok a, w') => (Returned a, w')
    | (Raised e, w') =>
        if String.eqb (exn_class e) "HTTPException" then
          (Reraised e,
           match http_log with
           | Some msg => snd (log ERROR msg w')
           | None => w'
           end)
        else if is_Exception e then
          (HTTPException 500 (exn_str e),
           snd (log ERROR (error_log ++ exn_str e) w'))
        else (Reraised e, w')
    end.

(** [GET /customers/] *)
Definition get_customers (name email from_date to_date : option string)
    (limit page : Z) (service : RetailCRMService.t)
  : Handler CustomersListResponseSchema :=
  guarded (Some "HTTPException in GET /customers/: HTTPException raised")
    "Error in GET /customers/: "
    (filter_dto <- lift (new_CustomerFiltersSchema name email from_date
                           to_date limit page) ;;
     log INFO "GET /customers/ request received" ;;
     result <- RetailCRMService.get_customers service filter_dto ;;
     log INFO "GET /customers/ completed successfully." ;;
     ret result).

(** [POST /customers/] *)
Definition create_customer (customer : CustomerAddSchema)
    (service : RetailCRMService.t) : Handler CustomerResponseWithIdOnlySchema :=
  guarded (Some "HTTPException in POST /customers/: HTTPException raised")
    "Error in POST /customers/: "
    (log INFO "POST /customers/ request received" ;;
     result <- RetailCRMService.create_customer service customer ;;
     log INFO ("POST /customers/ completed successfully, created customer ID: "
               ++ str_of_int (customer_id result)) ;;
     ret result).

(** [GET /orders/customer/{customer_id}] *)
Definition get_customer_orders (customer_id limit page : Z)
    (service : RetailCRMService.t) : Handler OrdersListResponse :=
  guarded (Some ("HTTPException in GET /orders/customer/"
                 ++ str_of_int customer_id))
    ("Error in GET /orders/customer/" ++ str_of_int customer_id ++ ": ")
    (log INFO ("GET /orders/customer/" ++ str_of_int customer_id
               ++ " request received") ;;
     let customer_data := {| orders_customer_id := customer_id;
                             orders_limit := limit; orders_page := page |} in
     result <- RetailCRMService.get_customer_orders service customer_data ;;
     let orders_count := length (orders result) in
     log INFO ("GET /orders/customer/" ++ str_of_int customer_id
               ++ " completed successfully, returned "
               ++ str_of_int (Z.of_nat orders_count) ++ " orders") ;;
     ret result).

(** [POST /orders/] *)
Definition create_order (order : OrderCreateSchema)
    (service : RetailCRMService.t) : Handler OrderResponseSchema :=
  guarded (Some "HTTPException in POST /orders/:") "Error in POST /orders/: "
    (let order_number := number order in
     log INFO "POST /orders/ request received" ;;
     result <- RetailCRMService.create_order service order ;;
     log INFO ("POST /orders/ completed successfully, created order ID: "
               ++ str_of_int (order_id result) ++ ", number: "
               ++ order_number) ;;
     ret result).

(** [POST /payments/] *)
Definition create_payment (payment : PaymentCreateSchema)
    (service : RetailCRMService.t) : Handler PaymentResponseSchema :=
  guarded None "Error in POST /payments/: "
    (log INFO "POST /payments/ request received" ;;
     result <- RetailCRMService.create_payment service payment ;;
     log INFO ("POST /payments/ completed successfully, created payment ID: "
               ++ str_of_int (payment_id result) ++ " for order "
               ++ str_of_int (payment_order_id payment)) ;;
     ret result).

End Routes.
End Api.

(* ================================================================== *)
(** * Auxiliary definitions used in the statements *)
(* ================================================================== *)

(** A value [flatten] stores under its prefix without recursing. *)
Definition is_scalar (v : value) : bool :=
  match v with
  | VDict _ | VList _ => false
  | _ => true
  end.

(** The assignments [params[key] = v] that [flatten(prefix, v)] performs,
    in order. *)
Fixpoint flatten_writes (prefix : string) (v : value) : list (string * value) :=
  match v with
  | VDict d =>
      flat_map (fun kv => flatten_writes (prefix ++ "[" ++ fst kv ++ "]") (snd kv)) d
  | VList l => flat_map (fun item => flatten_writes (prefix ++ "[]") item) l
  | _ => [(prefix, v)]
  end.

(** A sequence of assignments carried out on a dict. *)
Definition apply_writes (ws : list (string * value)) (p : dict) : dict :=
  fold_left (fun p kv => dict_set (fst kv) (snd kv) p) ws p.

(** The assignments made for the entries of one mapping under [pre]. *)
Definition entries_writes (pre : string) (entries : dict)
  : list (string * value) :=
  flat_map (fun kv => flatten_writes (pre ++ "[" ++ fst kv ++ "]") (snd kv))
           entries.

Definition is_pagination_entry (kv : string * value) : bool :=
  is_pagination_key (fst kv).

Definition not_none_entry (kv : string * value) : bool :=
  negb (is_none (snd kv)).

(** Every key of [d] is free of closing brackets. *)
Definition plain_keys (d : dict) : Prop :=
  forall k, In k (keys d) -> bracket_free k = true.

(** What the specification says phone normalization keeps of a list of
    structured entries: the "number" of each entry that has a usable
    one. *)
Definition projected_numbers (entries : list dict) : list value :=
  flat_map (fun d => match dict_get d "number" with
                     | Some n => if truthy n then [n] else []
                     | None => []
                     end) entries.

(** A computation that issues no outbound call. *)
Definition quiet {A} (m : M A) : Prop :=
  forall w, calls (snd (m w)) = calls w.

(** The two halves of [_make_request]: everything up to the outbound
    call, which yields the request to send, and the guarded block that
    sends it. *)
Section Pipeline.
Context {S : Type} `{Base.BaseCRMService S}.

Definition prepare_request (self : S) (method endpoint : string)
    (params : option ref) (json_data : option dict) (headers : option ref)
  : M request :=
  request_params <- Base._prepare_request_params self params ;;
  request_body <- Base._prepare_request_body self json_data ;;
  headers <- Base._prepare_request_headers self headers ;;
  log DEBUG ("Making " ++ method ++ " request to CRM API") ;;
  params_sent <- load request_params ;;
  headers_sent <- load_opt headers ;;
  ret {| req_method := method; req_url := Base.api_url self ++ endpoint;
         req_params := params_sent; req_data := request_body;
         req_headers := headers_sent |}.

Definition execute (self : S) (method endpoint : string) (rq : request)
  : M value :=
  try_except
    (response <- client_request (Base.client self) rq ;;
     raise_for_status response ;;
     result <- response_json response ;;
     Base._validate_response self result endpoint ;;
     log DEBUG ("Successfully completed " ++ method ++ " request to "
                ++ endpoint) ;;
     ret result)
    Base.on_error.

End Pipeline.

Section Outcomes.
Context `{PyBuiltins}.

(** The message of the error raised for a response with status [code] and
    body [body]. *)
Definition transport_message (code : Z) (body : string) : string :=
  "CRM API error: HTTP " ++ str_of_int code ++ ": " ++ body.

(** The text the backend supplies with a failure. *)
Definition backend_message (d : dict) : string :=
  py_str (dict_get_default d "errorMsg" (VStr "Unknown error")).

(** The message of the error raised for a payload the backend marks as
    failed. *)
Definition semantic_message (d : dict) : string :=
  "Request error: RetailCRM API error: " ++ backend_message d.

(** The success indicator of a payload, missing read as [False]. *)
Definition success_indicator (d : dict) : bool :=
  truthy (dict_get_default d "success" (VBool false)).

(** What the RetailCRM pipeline makes of the backend's answer to one call:
    its result and the records it logs after the call. *)
Definition outcome (method endpoint : string) (o : client_outcome)
  : result value * list (level * string) :=
  match o with
  | Failed cls msg =>
      if is_Exception (PyError cls msg) then
        (Raised (Exception ("Request error: " ++ msg)),
         [(ERROR, "Request error: " ++ msg)])
      else (Raised (PyError cls msg), [])
  | Responded r =>
      if is_success (status_code r) then
        match json r with
        | JsonInvalid msg =>
            (Raised (Exception ("Request error: " ++ msg)),
             [(ERROR, "Request error: " ++ msg)])
        | JsonValue (VDict d) =>
            if success_indicator d then
              (Ok (VDict d),
               [(DEBUG, "Successfully completed " ++ method
                        ++ " request to " ++ endpoint)])
            else
              (Raised (Exception (semantic_message d)),
               [(ERROR, "RetailCRM API returned error: " ++ backend_message d);
                (ERROR, semantic_message d)])
        | JsonValue v =>
            let msg := "'" ++ type_name v ++ "' object has no attribute 'get'" in
            (Raised (Exception ("Request error: " ++ msg)),
             [(ERROR, "Request error: " ++ msg)])
        end
      else
        (Raised (Exception (transport_message (status_code r) (text r))),
         [(ERROR, "HTTP error in CRM API request: HTTP "
                  ++ str_of_int (status_code r) ++ ": " ++ text r)])
  end.

(** The query parameters [_prepare_request_params] builds from the
    caller's dict, if any. *)
Definition prepared_params (self : RetailCRMService.t) (params : option dict)
  : dict :=
  dict_set "apiKey" (VStr (RetailCRMService.api_key self))
    match params with
    | Some d => if truthy (VDict d) then d else []
    | None => []
    end.

(** The headers the pipeline sends when the caller passes none. *)
Definition default_headers : dict :=
  [("Content-Type", VStr "application/x-www-form-urlencoded")].

(** The request an operation sends when it passes no headers. *)
Definition request_for (self : RetailCRMService.t) (method endpoint : string)
    (params : option dict) (json_data : option dict) : request :=
  {| req_method := method;
     req_url := RetailCRMService.api_url self ++ endpoint;
     req_params := prepared_params self params;
     req_data := json_data;
     req_headers := Some default_headers |}.

(** The existence read of [create_payment]. *)
Definition order_read (self : RetailCRMService.t) (order_id : Z) : request :=
  request_for self HTTPMethod.GET (E.ORDER_GET_build order_id)
    (Some [("by", VStr "id")]) None.

(** The existence read confirmed the order: a 2xx answer whose payload is
    a mapping with a truthy success indicator and a truthy order
    record. *)
Definition order_confirmed (o : client_outcome) : bool :=
  match o with
  | Responded r =>
      is_success (status_code r)
      && match json r with
         | JsonValue (VDict d) =>
             success_indicator d && truthy_opt (dict_get d "order")
         | _ => false
         end
  | Failed _ _ => false
  end.

(** The error of the one place where [create_payment] reports a missing
    order. *)
Definition order_not_found (order_id : Z) : exn :=
  Exception ("Order with id " ++ str_of_int order_id ++ " not found").

(** A request is the payment-creation call. *)
Definition is_payment_create (self : RetailCRMService.t) (rq : request) : bool :=
  String.eqb (req_method rq) HTTPMethod.POST
  && String.eqb (req_url rq)
       (RetailCRMService.api_url self ++ E.PAYMENTS_CREATE).

(** The record an operation validates: the wrapped resource when it is
    there and truthy, the whole payload otherwise. *)
Definition normalized (payload : dict) (resource : string) : value :=
  match dict_get payload resource with
  | Some v => if truthy v then v else VDict payload
  | None => VDict payload
  end.

Definition has_warning (l : list (level * string)) : bool :=
  existsb (fun r => match fst r with WARNING => true | _ => false end) l.

End Outcomes.

Section Requests.
Context `{PyBuiltins}.

(** The one call of [get_customers]. *)
Definition customers_request (self : RetailCRMService.t)
    (f : CustomerFiltersSchema) : request :=
  {| req_method := "GET";
     req_url := RetailCRMService.api_url self ++ "/customers";
     req_params :=
       ([("limit", VInt (filter_limit f)); ("page", VInt (filter_page f))]
        ++ dump_opt "filter[name]" (opt_str (filter_name f))
        ++ dump_opt "filter[email]" (opt_str (filter_email f))
        ++ dump_opt "filter[created_at_from]" (opt_str (created_at_from f))
        ++ dump_opt "filter[created_at_to]" (opt_str (created_at_to f))
        ++ [("apiKey", VStr (RetailCRMService.api_key self))])%list;
     req_data := None;
     req_headers := Some default_headers |}.

(** The one call of [get_customer_orders]. *)
Definition customer_orders_request (self : RetailCRMService.t)
    (c : CustomerGetOrdersSchema) : request :=
  {| req_method := "GET";
     req_url := RetailCRMService.api_url self ++ "/orders";
     req_params :=
       [("limit", VInt (orders_limit c)); ("page", VInt (orders_page c));
        ("filter[customerId]", VInt (orders_customer_id c));
        ("apiKey", VStr (RetailCRMService.api_key self))];
     req_data := None;
     req_headers := Some default_headers |}.

(** The payload [create_payment] serializes. *)
Definition payment_data (payment_dto : PaymentCreateSchema) : dict :=
  dict_set "order" (VDict [("id", VInt (payment_order_id payment_dto))])
    (dump_PaymentCreateSchema payment_dto).

(** The write of [create_payment], for the serialized payload [body]. *)
Definition payment_write (self : RetailCRMService.t) (body : string)
  : request :=
  request_for self HTTPMethod.POST E.PAYMENTS_CREATE None
    (Some [("payment", VStr body)]).

(** The backend accepted a call: 2xx, a JSON mapping [d], a truthy
    success indicator. *)
Definition accepted (o : client_outcome) (d : dict) : Prop :=
  exists r, o = Responded r /\ is_success (status_code r) = true
            /\ json r = JsonValue (VDict d) /\ success_indicator d = true.

(** What a list operation makes of the payload [d] it was handed:
    [[Model( **x ) for x in d.get(resource, [])]] and then the response
    model around it. *)
Definition listing {A B} (callee : string) (new : dict -> result A)
    (wrap : list A -> value -> result B) (resource : string) (d : dict)
  : result B :=
  match py_iter (dict_get_default d resource (VList [])) with
  | Raised e => Raised e
  | Ok items =>
      match build_all callee new items with
      | Raised e => Raised e
      | Ok built => wrap built (or_none (dict_get d "pagination"))
      end
  end.

End Requests.

(* ================================================================== *)
(** * Concrete backends and inputs used in examples *)
(* ================================================================== *)

Module Fixtures.

(** One choice of the library functions: integers and strings coerce to
    themselves, [json.dumps] always succeeds. *)
Definition builtins : PyBuiltins := {|
  py_repr := fun v => "<" ++ type_name v ++ ">";
  json_dumps := fun _ => Ok "{...}";
  pydantic_int := fun v => match v with VInt n => Some n | _ => None end;
  pydantic_float := fun v => match v with VFloat f => Some f | _ => None end;
  pydantic_str := fun v => match v with VStr s => Some s | _ => None end;
  pydantic_email := fun v => match v with VStr s => Some s | _ => None end;
  pydantic_datetime := fun v => match v with VStr s => Some s | _ => None end
|}.

(** As [builtins], with an email validator that wants an "@". *)
Definition strict_builtins : PyBuiltins := {|
  py_repr := fun v => "<" ++ type_name v ++ ">";
  json_dumps := fun _ => Ok "{...}";
  pydantic_int := fun v => match v with VInt n => Some n | _ => None end;
  pydantic_float := fun v => match v with VFloat f => Some f | _ => None end;
  pydantic_str := fun v => match v with VStr s => Some s | _ => None end;
  pydantic_email :=
    fun v => match v with
             | VStr s => if existsb (Ascii.eqb "@") (list_ascii_of_string s)
                         then Some s else None
             | _ => None
             end;
  pydantic_datetime := fun v => match v with VStr s => Some s | _ => None end
|}.

(** As [builtins], with a [json.dumps] that rejects a mapping holding a
    datetime, as the standard encoder does. *)
Definition standard_json_builtins : PyBuiltins := {|
  py_repr := fun v => "<" ++ type_name v ++ ">";
  json_dumps :=
    fun v =>
      match v with
      | VDict d =>
          if existsb (fun kv => match snd kv with
                                | VDatetime _ => true
                                | _ => false
                                end) d
          then Raised (PyError "TypeError"
                         "Object of type datetime is not JSON serializable")
          else Ok "{...}"
      | _ => Ok "{...}"
      end;
  pydantic_int := fun v => match v with VInt n => Some n | _ => None end;
  pydantic_float := fun v => match v with VFloat f => Some f | _ => None end;
  pydantic_str := fun v => match v with VStr s => Some s | _ => None end;
  pydantic_email := fun v => match v with VStr s => Some s | _ => None end;
  pydantic_datetime := fun v => match v with VStr s => Some s | _ => None end
|}.

(** A backend that answers every call with status [status] and body
    [body], which does not decode as JSON. *)
Definition backend_status (status : Z) (body : string) : http_client :=
  fun _ _ => Responded {| status_code := status; text := body;
                          json := JsonInvalid "Expecting value" |}.

(** A backend that answers every call with status 200 and the JSON
    payload [payload]. *)
Definition backend_json (payload : value) : http_client :=
  fun _ _ => Responded {| status_code := 200; text := "<json>";
                          json := JsonValue payload |}.

(** A transport that raises an exception of class [cls] on every call. *)
Definition backend_raising (cls msg : string) : http_client :=
  fun _ _ => Failed cls msg.

(** The service of the test suite: key "abc123". *)
Definition svc (backend : http_client) : RetailCRMService.t :=
  RetailCRMService.init "https://example.retailcrm.ru" "/api/v5" "abc123"
    backend.

Definition empty_world : world := {| heap := []; calls := []; logs := [] |}.

Definition john_filters : CustomerFiltersSchema :=
  {| filter_name := Some "John"; filter_email := None;
     created_at_from := None; created_at_to := None;
     filter_limit := 10; filter_page := 2 |}.


Definition phones_filter : dict :=
  [("phones", VList [VDict [("number", VStr "1")];
                     VDict [("number", VStr "2")]])].

Definition customer : CustomerAddSchema :=
  {| first_name := "John"; last_name := None; email := None;
     phones := None; birthday := None |}.

Definition customer_with_birthday : CustomerAddSchema :=
  {| first_name := "John"; last_name := None; email := None;
     phones := None; birthday := Some "1990-01-01T00:00:00" |}.

Definition empty_order : OrderCreateSchema :=
  {| Orders.customer := {| customer_id := 1 |}; items := [];
     number := "A-1"; order_type := main; order_method := phone |}.

Definition payment : PaymentCreateSchema :=
  {| payment_order_id := 7; amount := 10%float; payment_type := cash;
     status := not_paid; paid_at := None; comment := None |}.

End Fixtures.

(* ================================================================== *)
(** * Lemmas on strings and dicts *)
(* ================================================================== *)

Section StringFacts.

Local Opaque Ascii.eqb.

Lemma append_assoc (a b c : string) : (a ++ b) ++ c = a ++ (b ++ c).
Proof. induction a as [|ch a IH]; simpl; [reflexivity | now rewrite IH]. Qed.

Lemma append_inv_head (a b c : string) : a ++ b = a ++ c -> b = c.
Proof.
  induction a as [|ch a IH]; simpl; intros E; [exact E|].
  injection E as E. auto.
Qed.

Lemma includes_intro (pre sub post : string) : includes sub (pre ++ sub ++ post).
Proof. now exists pre, post. Qed.

(** Two strings cut at their first closing bracket agree on the part
    before it as soon as one starts with the other. *)
Lemma bracket_prefix (a b s : string) :
  bracket_free a = true -> bracket_free b = true ->
  startswith (a ++ "]") (b ++ "]" ++ s) = true -> a = b.
Proof.
  revert b. induction a as [|c a IH]; intros [|c' b] Ha Hb; cbn in *.
  - reflexivity.
  - apply andb_prop in Hb as [Hb _]. intros P.
    apply andb_prop in P as [P _]. rewrite Ascii.eqb_sym, P in Hb.
    discriminate.
  - apply andb_prop in Ha as [Ha _]. intros P.
    apply andb_prop in P as [P _]. rewrite P in Ha. discriminate.
  - apply andb_prop in Ha as [_ Ha]. apply andb_prop in Hb as [_ Hb].
    intros P. apply andb_prop in P as [E P].
    apply Ascii.eqb_eq in E. subst c'. f_equal. now apply IH.
Qed.

Lemma startswith_app (p s : string) : startswith p (p ++ s) = true.
Proof.
  induction p as [|c p IH]; cbn; [reflexivity|].
  now rewrite Ascii.eqb_refl, IH.
Qed.

Lemma startswith_app_inv (p a b : string) :
  startswith (p ++ a) (p ++ b) = startswith a b.
Proof.
  induction p as [|c p IH]; cbn; [reflexivity|].
  now rewrite Ascii.eqb_refl, IH.
Qed.

Lemma bracket_split (a b s t : string) :
  bracket_free a = true -> bracket_free b = true ->
  a ++ "]" ++ s = b ++ "]" ++ t -> a = b.
Proof.
  intros Ha Hb E. apply (bracket_prefix a b t Ha Hb).
  rewrite <- E. rewrite <- append_assoc. apply startswith_app.
Qed.

Local Transparent Ascii.eqb.

End StringFacts.

(** Reassociate string concatenations to the right. *)
Ltac norm_append :=
  repeat first [rewrite append_assoc | progress simpl].

Section DictFacts.

Lemma dict_get_set_same (k : string) (v : value) (d : dict) :
  dict_get (dict_set k v d) k = Some v.
Proof.
  induction d as [|[k' v'] d IH]; simpl.
  - now rewrite String.eqb_refl.
  - destruct (String.eqb k' k) eqn:E; simpl.
    + now rewrite String.eqb_refl.
    + now rewrite E.
Qed.

Lemma dict_get_set_other (k k' : string) (v : value) (d : dict) :
  k <> k' -> dict_get (dict_set k v d) k' = dict_get d k'.
Proof.
  intros N. induction d as [|[k0 v0] d IH]; simpl.
  - apply String.eqb_neq in N. now rewrite N.
  - destruct (String.eqb k0 k) eqn:E; simpl.
    + apply String.eqb_eq in E. subst k0.
      apply String.eqb_neq in N. now rewrite N.
    + now rewrite IH.
Qed.

Lemma keys_set (k k' : string) (v : value) (d : dict) :
  In k' (keys (dict_set k v d)) <-> k' = k \/ In k' (keys d).
Proof.
  induction d as [|[k0 v0] d IH]; simpl.
  - intuition.
  - destruct (String.eqb k0 k) eqn:E; simpl.
    + apply String.eqb_eq in E. subst k0. intuition.
    + rewrite IH. intuition.
Qed.

Lemma dict_set_fresh (k : string) (v : value) (d : dict) :
  ~ In k (keys d) -> dict_set k v d = (d ++ [(k, v)])%list.
Proof.
  induction d as [|[k0 v0] d IH]; simpl; intros N; [reflexivity|].
  destruct (String.eqb k0 k) eqn:E.
  - apply String.eqb_eq in E. tauto.
  - f_equal. apply IH. tauto.
Qed.

Lemma dict_get_In (d : dict) (k : string) (v : value) :
  dict_get d k = Some v -> In (k, v) d.
Proof.
  induction d as [|[k0 v0] d IH]; simpl; [discriminate|].
  destruct (String.eqb k0 k) eqn:E.
  - apply String.eqb_eq in E. intros [= ->]. left. now subst.
  - auto.
Qed.


Lemma In_keys (d : dict) (k : string) (v : value) :
  In (k, v) d -> In k (keys d).
Proof. intros I. apply (in_map fst) in I. exact I. Qed.


Lemma wf_filter (f : string * value -> bool) (d : dict) :
  wf_dict d -> wf_dict (filter f d).
Proof.
  unfold wf_dict, keys. induction d as [|kv d IH]; simpl; intros W.
  - constructor.
  - inversion W as [|? ? N W']; subst.
    destruct (f kv); simpl; [constructor|]; auto.
    intros I. apply N. apply in_map_iff in I as (x & E & I).
    apply filter_In in I as [I _]. apply in_map_iff. now exists x.
Qed.

Lemma keys_filter (f : string * value -> bool) (d : dict) (k : string) :
  In k (keys (filter f d)) -> In k (keys d).
Proof.
  unfold keys. intros I. apply in_map_iff in I as (x & E & I).
  apply filter_In in I as [I _]. apply in_map_iff. now exists x.
Qed.

Lemma apply_writes_app (a b : list (string * value)) (p : dict) :
  apply_writes (a ++ b) p = apply_writes b (apply_writes a p).
Proof. apply fold_left_app. Qed.

Lemma get_apply_notin (ws : list (string * value)) (p : dict) (key : string) :
  (forall kv, In kv ws -> fst kv <> key) ->
  dict_get (apply_writes ws p) key = dict_get p key.
Proof.
  revert p. induction ws as [|[k v] ws IH]; intros p N; simpl; [reflexivity|].
  rewrite IH by (intros; apply N; now right).
  apply dict_get_set_other. apply (N (k, v)). now left.
Qed.

Lemma get_apply_last (w1 w2 : list (string * value)) (p : dict)
    (key : string) (v : value) :
  (forall kv, In kv w2 -> fst kv <> key) ->
  dict_get (apply_writes (w1 ++ (key, v) :: w2) p) key = Some v.
Proof.
  intros N. rewrite apply_writes_app. simpl.
  rewrite (get_apply_notin w2) by exact N. apply dict_get_set_same.
Qed.

Lemma keys_apply (ws : list (string * value)) (p : dict) (key : string) :
  In key (keys (apply_writes ws p)) -> In key (keys p) \/ In key (keys ws).
Proof.
  revert p. induction ws as [|[k v] ws IH]; intros p I; simpl in *; [now left|].
  apply IH in I as [I|I]; [|now right; right].
  apply keys_set in I as [->|I]; [right; now left | now left].
Qed.

End DictFacts.

Section FlattenFacts.

(** Induction on values, through the lists and dicts they contain. *)
Lemma value_induction (P : value -> Prop) :
  P VNone -> (forall b, P (VBool b)) -> (forall n, P (VInt n)) ->
  (forall f, P (VFloat f)) -> (forall s, P (VStr s)) ->
  (forall s, P (VDatetime s)) ->
  (forall l, Forall P l -> P (VList l)) ->
  (forall d, Forall (fun kv => P (snd kv)) d -> P (VDict d)) ->
  forall v, P v.
Proof.
  intros HN HB HI HF HS HT HL HD. fix IH 1.
  intros [ |b|n|f|s|s|l|d];
    [exact HN | apply HB | apply HI | apply HF | apply HS | apply HT | | ].
  - apply HL. induction l as [|x l IHl]; constructor; [apply IH | exact IHl].
  - apply HD. induction d as [|[k x] d IHd]; constructor;
      [apply IH | exact IHd].
Qed.

Lemma flatten_eq (v : value) :
  forall prefix params,
    flatten prefix v params = apply_writes (flatten_writes prefix v) params.
Proof.
  induction v as [ | | | | | |l IH|d IH] using value_induction;
    intros prefix params; try reflexivity.
  - simpl. revert params.
    induction IH as [|x l Hx _ IHl]; intros params; simpl; [reflexivity|].
    rewrite apply_writes_app, IHl. now rewrite Hx.
  - simpl. revert params.
    induction IH as [|[k x] d Hx _ IHd]; intros params; simpl; [reflexivity|].
    rewrite apply_writes_app, IHd. simpl in Hx. now rewrite Hx.
Qed.

Lemma fold_flatten_eq (pre : string) (entries : dict) (params : dict) :
  fold_left (fun params kv =>
               flatten (pre ++ "[" ++ fst kv ++ "]") (snd kv) params)
            entries params
  = apply_writes (entries_writes pre entries) params.
Proof.
  unfold entries_writes. revert params.
  induction entries as [|kv entries IH]; intros params; simpl; [reflexivity|].
  now rewrite apply_writes_app, IH, flatten_eq.
Qed.

(** Every key [flatten] writes extends its prefix. *)
Lemma writes_extend_prefix (v : value) :
  forall prefix key,
    In key (keys (flatten_writes prefix v)) -> exists sfx, key = prefix ++ sfx.
Proof.
  induction v as [ | | | | | |l IH|d IH] using value_induction;
    intros prefix key; simpl;
    try (intros [<-|[]]; exists ""; clear; induction prefix; simpl; congruence).
  - unfold keys. rewrite flat_map_concat_map, concat_map, map_map.
    intros I. apply in_concat in I as (ks & I1 & I2).
    apply in_map_iff in I1 as (x & <- & Ix).
    rewrite Forall_forall in IH. destruct (IH x Ix _ _ I2) as (sfx & ->).
    exists ("[]" ++ sfx). norm_append. reflexivity.
  - unfold keys. rewrite flat_map_concat_map, concat_map, map_map.
    intros I. apply in_concat in I as (ks & I1 & I2).
    apply in_map_iff in I1 as (x & <- & Ix).
    rewrite Forall_forall in IH. destruct (IH x Ix _ _ I2) as (sfx & ->).
    exists ("[" ++ fst x ++ "]" ++ sfx). norm_append. reflexivity.
Qed.

End FlattenFacts.

Section ConvertFacts.


Lemma is_pagination_key_cases (k : string) :
  is_pagination_key k = true -> k = "limit" \/ k = "page".
Proof.
  unfold is_pagination_key. intros E. apply orb_prop in E as [E|E];
    apply String.eqb_eq in E; auto.
Qed.

Lemma split_filters_acc (l a b : dict) :
  NoDup (keys l) ->
  (forall k, In k (keys l) -> ~ In k (keys a) /\ ~ In k (keys b)) ->
  fold_left (fun acc kv =>
               if is_pagination_key (fst kv)
               then (dict_set (fst kv) (snd kv) (fst acc), snd acc)
               else (fst acc, dict_set (fst kv) (snd kv) (snd acc)))
            l (a, b)
  = ((a ++ filter is_pagination_entry l)%list,
     (b ++ filter (fun kv => negb (is_pagination_entry kv)) l)%list).
Proof.
  revert a b. induction l as [|[k v] l IH]; intros a b ND F.
  - simpl. now rewrite !app_nil_r.
  - inversion ND as [|? ? Nk ND']; subst.
    destruct (F k (or_introl eq_refl)) as [Fa Fb].
    cbn [fold_left filter fst snd].
    change (is_pagination_entry (k, v)) with (is_pagination_key k).
    destruct (is_pagination_key k) eqn:P; cbn [negb].
    + rewrite (dict_set_fresh _ _ _ Fa), IH; auto.
      * now rewrite <- app_assoc.
      * intros k' I. destruct (F k' (or_intror I)) as [Fa' Fb'].
        split; [|exact Fb']. unfold keys. rewrite map_app, in_app_iff.
        simpl. intros [I'|[<-|[]]]; [now apply Fa' | now apply Nk].
    + rewrite (dict_set_fresh _ _ _ Fb), IH; auto.
      * now rewrite <- app_assoc.
      * intros k' I. destruct (F k' (or_intror I)) as [Fa' Fb'].
        split; [exact Fa'|]. unfold keys. rewrite map_app, in_app_iff.
        simpl. intros [I'|[<-|[]]]; [now apply Fb' | now apply Nk].
Qed.

(** The result of the conversion on a dict: the non-pagination entries
    that are not [None] are flattened, in order, onto the pagination
    entries. *)
Lemma convert_dict_eq (d : dict) :
  wf_dict d ->
  _convert_filter_data_to_retail_crm_style (FilterDict d)
  = apply_writes
      (entries_writes "filter"
         (filter (fun kv => negb (is_pagination_entry kv))
                 (filter not_none_entry d)))
      (filter is_pagination_entry (filter not_none_entry d)).
Proof.
  intros W. unfold _convert_filter_data_to_retail_crm_style, split_filters.
  change (fun kv : string * value => negb (is_none (snd kv)))
    with not_none_entry.
  rewrite split_filters_acc.
  - simpl. exact (fold_flatten_eq "filter" _ _).
  - apply (wf_filter not_none_entry d W).
  - intros k _. split; intros [].
Qed.

(** No assignment made for a mapping's entries extends the bracketed name
    of a key the mapping does not have. *)
Lemma entries_writes_miss (pre target : string) (entries : dict)
    (kv : string * value) :
  plain_keys entries -> bracket_free target = true ->
  ~ In target (keys entries) ->
  In kv (entries_writes pre entries) ->
  startswith (pre ++ "[" ++ target ++ "]") (fst kv) = false.
Proof.
  intros PK BT NI I. unfold entries_writes in I.
  apply in_flat_map in I as (e & Ie & Ikv).
  destruct (writes_extend_prefix (snd e) (pre ++ "[" ++ fst e ++ "]") (fst kv))
    as (sfx & E); [now apply in_map|].
  rewrite E. destruct (startswith _ _) eqn:S; [exfalso|reflexivity].
  rewrite append_assoc, startswith_app_inv in S. simpl in S.
  rewrite append_assoc in S.
  apply bracket_prefix in S; auto.
  - apply NI. subst target. now apply in_map.
  - apply PK. now apply in_map.
Qed.

Lemma entries_writes_neq (pre target rest : string) (entries : dict)
    (kv : string * value) :
  plain_keys entries -> bracket_free target = true ->
  ~ In target (keys entries) ->
  In kv (entries_writes pre entries) ->
  fst kv <> pre ++ "[" ++ target ++ "]" ++ rest.
Proof.
  intros PK BT NI I E.
  pose proof (entries_writes_miss pre target entries kv PK BT NI I) as S.
  rewrite E in S.
  replace (pre ++ "[" ++ target ++ "]" ++ rest)
    with ((pre ++ "[" ++ target ++ "]") ++ rest) in S
    by (norm_append; reflexivity).
  now rewrite startswith_app in S.
Qed.

Lemma plain_keys_filter (f : string * value -> bool) (d : dict) :
  plain_keys d -> plain_keys (filter f d).
Proof. intros P k I. apply P. now apply keys_filter in I. Qed.

Lemma plain_keys_app (a b : dict) :
  plain_keys (a ++ b)%list -> plain_keys a /\ plain_keys b.
Proof.
  unfold plain_keys, keys. intros P. split; intros k I; apply P;
    rewrite map_app, in_app_iff; auto.
Qed.

Lemma entries_writes_app (pre : string) (a b : dict) :
  entries_writes pre (a ++ b)%list
  = (entries_writes pre a ++ entries_writes pre b)%list.
Proof. unfold entries_writes. apply flat_map_app. Qed.

Lemma entries_writes_cons (pre : string) (kv : string * value) (d : dict) :
  entries_writes pre (kv :: d)
  = (flatten_writes (pre ++ "[" ++ fst kv ++ "]") (snd kv)
     ++ entries_writes pre d)%list.
Proof. reflexivity. Qed.

(** In a well-formed dict an entry's key occurs nowhere else. *)
Lemma wf_split (l1 l2 : dict) (k : string) (v : value) :
  wf_dict (l1 ++ (k, v) :: l2)%list ->
  ~ In k (keys l1) /\ ~ In k (keys l2).
Proof.
  unfold wf_dict, keys. rewrite map_app. simpl. intros W.
  apply NoDup_remove_2 in W. rewrite in_app_iff in W. tauto.
Qed.

(** The value a non-pagination entry's assignments leave under a key that
    only this entry can write last. *)
Lemma get_after_entry (fd params : dict) (l1 l2 : dict) (k : string)
    (x : value) (w1 w2 : list (string * value)) (key : string) (v : value) :
  fd = (l1 ++ (k, x) :: l2)%list ->
  flatten_writes ("filter" ++ "[" ++ k ++ "]") x = (w1 ++ (key, v) :: w2)%list ->
  (forall kv, In kv w2 -> fst kv <> key) ->
  (forall kv, In kv (entries_writes "filter" l2) -> fst kv <> key) ->
  dict_get (apply_writes (entries_writes "filter" fd) params) key = Some v.
Proof.
  intros -> E N2 NL.
  rewrite entries_writes_app, entries_writes_cons. cbn [fst snd]. rewrite E.
  replace (entries_writes "filter" l1
           ++ (w1 ++ (key, v) :: w2) ++ entries_writes "filter" l2)%list
    with ((entries_writes "filter" l1 ++ w1)
          ++ (key, v) :: (w2 ++ entries_writes "filter" l2))%list
    by (rewrite <- !app_assoc; reflexivity).
  apply get_apply_last. intros kv I. apply in_app_iff in I as [I|I]; auto.
Qed.

End ConvertFacts.

Section ConvertDict.

Variable d : dict.
Hypothesis W : wf_dict d.
Hypothesis PK : plain_keys d.

Let fs := filter not_none_entry d.
Let pg := filter is_pagination_entry fs.
Let fd := filter (fun kv => negb (is_pagination_entry kv)) fs.
Let out := _convert_filter_data_to_retail_crm_style (FilterDict d).

Lemma out_eq : out = apply_writes (entries_writes "filter" fd) pg.
Proof. apply convert_dict_eq, W. Qed.

Lemma wf_fd : wf_dict fd.
Proof. apply wf_filter, wf_filter, W. Qed.

Lemma plain_fd : plain_keys fd.
Proof. apply plain_keys_filter, plain_keys_filter, PK. Qed.

Lemma not_none_In (k : string) (v : value) :
  In (k, v) d -> v <> VNone -> In (k, v) fs.
Proof.
  intros I N. apply filter_In. split; [exact I|].
  unfold not_none_entry. simpl. now destruct v.
Qed.


Lemma pg_pagination (k : string) :
  In k (keys pg) -> is_pagination_key k = true.
Proof.
  intros I. apply in_map_iff in I as ([k' x] & <- & I).
  now apply filter_In in I as [_ I].
Qed.






Lemma fd_In (k : string) (v : value) :
  is_pagination_key k = false -> In (k, v) d -> v <> VNone -> In (k, v) fd.
Proof.
  intros P I N. apply filter_In. split; [now apply not_none_In|].
  unfold is_pagination_entry. simpl. now rewrite P.
Qed.




End ConvertDict.

(* ================================================================== *)
(** * Filter flattening: the properties *)
(* ================================================================== *)






(** C3: at {phones: [{number: "1"}, {number: "2"}]} the code leaves one
    key under filter[phones], holding "2"; the assignment for the first
    element is overwritten by the one for the second, so "1" is lost. *)
Theorem flatten_list_keeps_last_element :
  let out := _convert_filter_data_to_retail_crm_style
               (FilterDict Fixtures.phones_filter) in
  out = [("filter[phones][][number]", VStr "2")]
  /\ flatten_writes "filter[phones]"
       (VList [VDict [("number", VStr "1")]; VDict [("number", VStr "2")]])
     = [("filter[phones][][number]", VStr "1");
        ("filter[phones][][number]", VStr "2")]
  /\ length (filter (fun kv => startswith "filter[phones]" (fst kv)) out) = 1
  /\ map snd out = [VStr "2"].
Proof.
  cbv zeta. repeat split.
Qed.

(* ================================================================== *)
(** * Phone normalization *)
(* ================================================================== *)

Lemma phone_numbers_dicts (entries : list dict) :
  phone_numbers (map VDict entries) = Ok (projected_numbers entries).
Proof.
  induction entries as [|d entries IH]; [reflexivity|].
  cbn [map phone_numbers py_get projected_numbers flat_map].
  rewrite IH. fold (projected_numbers entries).
  destruct (dict_get d "number") as [n|]; simpl; [|reflexivity].
  now destruct (truthy n).
Qed.

(** C7: [parse_phones] maps [None], [[]], [["1","2"]] and
    [[{"number":"1"},{"number":"2"}]] to [None], [[]], [["1","2"]] and
    [["1","2"]]; on any list of structured entries it returns the usable
    numbers, an entry without one contributing nothing. *)
Theorem parse_phones_normalization :
  parse_phones VNone = Ok VNone
  /\ parse_phones (VList []) = Ok (VList [])
  /\ parse_phones (VList [VStr "1"; VStr "2"]) = Ok (VList [VStr "1"; VStr "2"])
  /\ parse_phones (VList [VDict [("number", VStr "1")];
                          VDict [("number", VStr "2")]])
     = Ok (VList [VStr "1"; VStr "2"])
  /\ (forall entries : list dict,
        parse_phones (VList (map VDict entries))
        = Ok (VList (projected_numbers entries)))
  /\ (forall (before after : list dict) (entry : dict),
        parse_phones (VList (map VDict (before ++ entry :: after)))
        = if truthy_opt (dict_get entry "number")
          then parse_phones (VList (map VDict (before ++ entry :: after)))
          else parse_phones (VList (map VDict (before ++ after)))).
Proof.
  assert (forall entries : list dict,
             parse_phones (VList (map VDict entries))
             = Ok (VList (projected_numbers entries))) as G.
  { intros [|d entries]; [reflexivity|].
    unfold parse_phones. cbn [map].
    change (VDict d :: map VDict entries) with (map VDict (d :: entries)).
    now rewrite phone_numbers_dicts. }
  repeat split; try reflexivity; [exact G|].
  intros before after entry.
  destruct (truthy_opt (dict_get entry "number")) eqn:T; [reflexivity|].
  rewrite !G. do 2 f_equal. unfold projected_numbers.
  rewrite !flat_map_app. f_equal. simpl.
  destruct (dict_get entry "number") as [n|]; [|reflexivity].
  simpl in T. now rewrite T.
Qed.

(* ================================================================== *)
(** * The request pipeline *)
(* ================================================================== *)

Section HeapFacts.

Lemma nth_length_app (h : list dict) (d : dict) :
  nth (length h) (h ++ [d])%list [] = d.
Proof. induction h as [|x h IH]; simpl; auto. Qed.

Lemma update_length_app (h : list dict) (d x : dict) :
  update (length h) x (h ++ [d])%list = (h ++ [x])%list.
Proof. induction h as [|y h IH]; simpl; [reflexivity | now rewrite IH]. Qed.

Lemma nth_app_old (h : list dict) (d : dict) (r : ref) :
  r < length h -> nth r (h ++ [d])%list [] = nth r h [].
Proof. intros L. now apply app_nth1. Qed.

Lemma update_length (h : list dict) (r : ref) (x : dict) :
  length (update r x h) = length h.
Proof.
  revert r. induction h as [|y h IH]; intros [|r]; simpl; auto.
Qed.

End HeapFacts.

Section MonadFacts.

Lemma bind_ok {A B} (m : M A) (k : A -> M B) (w w' : world) (a : A) :
  m w = (Ok a, w') -> bind m k w = k a w'.
Proof. unfold bind. now intros ->. Qed.

Lemma bind_raised {A B} (m : M A) (k : A -> M B) (w w' : world) (e : exn) :
  m w = (Raised e, w') -> bind m k w = (Raised e, w').
Proof. unfold bind. now intros ->. Qed.

Lemma bind_run {A B} (m : M A) (k : A -> M B) (w w' : world)
    (r : result A) :
  m w = (r, w') ->
  bind m k w = match r with Ok a => k a w' | Raised e => (Raised e, w') end.
Proof. unfold bind. now intros ->. Qed.

Lemma bind_ret {A B} (a : A) (k : A -> M B) (w : world) :
  bind (ret a) k w = k a w.
Proof. reflexivity. Qed.

Lemma bind_lift_ok {A B} (a : A) (k : A -> M B) (w : world) :
  bind (lift (Ok a)) k w = k a w.
Proof. reflexivity. Qed.

Lemma bind_lift_raised {A B} (e : exn) (k : A -> M B) (w : world) :
  bind (lift (Raised e)) k w = (Raised e, w).
Proof. reflexivity. Qed.

Lemma bind_log {B} (l : level) (msg : string) (k : unit -> M B) (w : world) :
  bind (log l msg) k w
  = k tt {| heap := heap w; calls := calls w;
            logs := (logs w ++ [(l, msg)])%list |}.
Proof. reflexivity. Qed.

Lemma bind_load {B} (r : ref) (k : dict -> M B) (w : world) :
  bind (load r) k w = k (deref w r) w.
Proof. reflexivity. Qed.

Lemma bind_alloc {B} (d : dict) (k : ref -> M B) (w : world) :
  bind (alloc d) k w
  = k (length (heap w)) {| heap := (heap w ++ [d])%list; calls := calls w;
                           logs := logs w |}.
Proof. reflexivity. Qed.

End MonadFacts.

Section PipelineFacts.
Context {S : Type} `{Base.BaseCRMService S}.

(** [_make_request] prepares the request, then executes it. *)
Lemma make_request_split (self : S) (method endpoint : string)
    (params : option ref) (json_data : option dict) (headers : option ref)
    (w : world) :
  Base._make_request self method endpoint params json_data headers w
  = (rq <- prepare_request self method endpoint params json_data headers ;;
     execute self method endpoint rq) w.
Proof.
  unfold Base._make_request, prepare_request, execute, bind.
  destruct (Base._prepare_request_params self params w) as [[rp|e] w1];
    [|reflexivity].
  destruct (Base._prepare_request_body self json_data w1) as [[rb|e] w2];
    [|reflexivity].
  destruct (Base._prepare_request_headers self headers w2) as [[hd|e] w3];
    [|reflexivity].
  unfold log, load, load_opt, ret, try_except, bind.
  destruct hd as [h|]; reflexivity.
Qed.

End PipelineFacts.

Section RetailFacts.
Context `{PyBuiltins}.

Import RetailCRMService.

(** What executing a request does, for the RetailCRM adapter: one call is
    recorded and its answer classified. *)
Lemma retail_execute (self : t) (method endpoint : string) (rq : request)
    (w : world) :
  execute self method endpoint rq w
  = (fst (outcome method endpoint (client self (calls w) rq)),
     {| heap := heap w; calls := (calls w ++ [rq])%list;
        logs := (logs w
                 ++ snd (outcome method endpoint (client self (calls w) rq)))%list |}).
Proof.
  unfold execute, try_except, bind, client_request. cbn [Base.client service].
  destruct (client self (calls w) rq) as [r|cls msg].
  2:{ unfold Base.on_error, outcome.
      destruct (is_Exception (PyError cls msg)); [reflexivity|].
      unfold raise. cbn [fst snd]. now rewrite app_nil_r. }
  unfold raise_for_status, response_json, outcome.
  destruct (is_success (status_code r)); [|reflexivity].
  destruct (json r) as [v|msg]; [|reflexivity].
  cbn [Base._validate_response service].
  unfold _validate_response, get_or, bind, lift, ret, raise, log,
    success_indicator, semantic_message, backend_message, dict_get_default.
  destruct v; try reflexivity.
  cbn [py_get]. destruct (dict_get d "success") as [s|]; cbn.
  - destruct (truthy s); cbn; [reflexivity|].
    destruct (dict_get d "errorMsg"); cbn; rewrite <- app_assoc; reflexivity.
  - destruct (dict_get d "errorMsg"); cbn; rewrite <- app_assoc; reflexivity.
Qed.

(** The preparation steps never fail and issue no call. *)
Lemma retail_prepare_total (self : t) (method endpoint : string)
    (params : option ref) (json_data : option dict) (headers : option ref)
    (w : world) :
  exists rq w1,
    prepare_request self method endpoint params json_data headers w
    = (Ok rq, w1)
    /\ calls w1 = calls w
    /\ req_method rq = method
    /\ req_url rq = api_url self ++ endpoint
    /\ req_data rq = json_data.
Proof.
  unfold prepare_request.
  cbn [Base._prepare_request_params Base._prepare_request_body
       Base._prepare_request_headers Base.api_url service].
  unfold _prepare_request_params, _prepare_request_body,
    _prepare_request_headers, bind, load, load_opt, alloc, store, log, ret.
  destruct params as [p|]; [destruct (truthy (VDict (deref w p)))|];
    destruct headers as [h|]; cbn; do 2 eexists; repeat split.
Qed.

Lemma retail_prepare_calls (self : t) (method endpoint : string)
    (params : option ref) (json_data : option dict) (headers : option ref)
    (w w1 : world) (rq : request) :
  prepare_request self method endpoint params json_data headers w
  = (Ok rq, w1) ->
  calls w1 = calls w /\ req_method rq = method
  /\ req_url rq = api_url self ++ endpoint.
Proof.
  intros E.
  destruct (retail_prepare_total self method endpoint params json_data
              headers w) as (rq' & w1' & E' & C & Mth & U & _).
  rewrite E in E'. injection E' as <- <-. auto.
Qed.

(** The pipeline on the request that was prepared. *)
Lemma retail_make_request (self : t) (method endpoint : string)
    (params : option ref) (json_data : option dict) (headers : option ref)
    (w w1 : world) (rq : request) :
  prepare_request self method endpoint params json_data headers w
  = (Ok rq, w1) ->
  _make_request self method endpoint params json_data headers w
  = (fst (outcome method endpoint (client self (calls w) rq)),
     {| heap := heap w1; calls := (calls w ++ [rq])%list;
        logs := (logs w1
                 ++ snd (outcome method endpoint
                           (client self (calls w) rq)))%list |}).
Proof.
  intros E. unfold _make_request. rewrite make_request_split.
  unfold bind at 1. rewrite E, retail_execute.
  destruct (retail_prepare_calls _ _ _ _ _ _ _ _ _ E) as (-> & _).
  reflexivity.
Qed.

Lemma retail_prepare_params_eq (self : t) (params : option ref) (w : world) :
  _prepare_request_params self params w
  = (Ok (length (heap w)),
     {| heap := (heap w
                 ++ [prepared_params self (option_map (deref w) params)])%list;
        calls := calls w; logs := logs w |}).
Proof.
  unfold _prepare_request_params, prepared_params, bind, load, alloc, store,
    ret, deref.
  destruct params as [p|]; cbn [option_map];
    [destruct (truthy (VDict (nth p (heap w) [])))|];
    cbn [heap calls logs];
    now rewrite nth_length_app, update_length_app.
Qed.

Lemma retail_prepare_headers_none (self : t) (w : world) :
  _prepare_request_headers self None HTTPMethod.POST w
  = (Ok (Some (length (heap w))),
     {| heap := (heap w ++ [default_headers])%list;
        calls := calls w; logs := logs w |}).
Proof.
  unfold _prepare_request_headers, bind, alloc, store, ret, deref.
  change (String.eqb HTTPMethod.POST HTTPMethod.POST) with true.
  cbn [heap calls logs].
  now rewrite nth_length_app, update_length_app.
Qed.

(** The request an operation prepares when it passes no headers. *)
Lemma retail_prepare_no_headers (self : t) (method endpoint : string)
    (params : option ref) (json_data : option dict) (w : world) :
  prepare_request self method endpoint params json_data None w
  = (Ok (request_for self method endpoint
           (option_map (deref w) params) json_data),
     {| heap := (heap w
                 ++ [prepared_params self (option_map (deref w) params);
                     default_headers])%list;
        calls := calls w;
        logs := (logs w ++ [(DEBUG, ("Making " ++ method
                                     ++ " request to CRM API")%string)])%list |}).
Proof.
  unfold prepare_request.
  cbn [Base._prepare_request_params Base._prepare_request_body
       Base._prepare_request_headers Base.api_url service].
  rewrite (bind_ok _ _ _ _ _ (retail_prepare_params_eq self params w)).
  unfold _prepare_request_body. rewrite bind_ret.
  rewrite (bind_ok _ _ _ _ _ (retail_prepare_headers_none self _)).
  rewrite bind_log, bind_load.
  unfold load_opt, bind, load, ret, request_for, deref.
  cbn [heap calls logs length].
  rewrite length_app. cbn [length]. rewrite Nat.add_1_r.
  rewrite <- app_assoc. cbn [Datatypes.app].
  f_equal. rewrite !app_nth2 by lia.
  rewrite Nat.sub_diag.
  replace (S (length (heap w)) - length (heap w)) with 1 by lia.
  reflexivity.
Qed.

(** The pipeline as an operation without headers of its own runs it. *)
Lemma retail_make_request_no_headers (self : t) (method endpoint : string)
    (params : option ref) (json_data : option dict) (w : world) :
  let rq := request_for self method endpoint
              (option_map (deref w) params) json_data in
  let o := client self (calls w) rq in
  _make_request self method endpoint params json_data None w
  = (fst (outcome method endpoint o),
     {| heap := (heap w
                 ++ [prepared_params self (option_map (deref w) params);
                     default_headers])%list;
        calls := (calls w ++ [rq])%list;
        logs := (logs w
                 ++ (DEBUG, ("Making " ++ method
                             ++ " request to CRM API")%string)
                    :: snd (outcome method endpoint o))%list |}).
Proof.
  intros rq o.
  rewrite (retail_make_request _ _ _ _ _ _ _ _ _
             (retail_prepare_no_headers self method endpoint params
                json_data w)).
  cbn [heap calls logs]. now rewrite <- app_assoc.
Qed.

(** Every payload the pipeline hands back is a mapping whose success
    indicator is truthy. *)
Lemma outcome_ok (method endpoint : string) (o : client_outcome) (v : value) :
  fst (outcome method endpoint o) = Ok v ->
  exists r d,
    o = Responded r /\ is_success (status_code r) = true
    /\ json r = JsonValue (VDict d) /\ v = VDict d
    /\ success_indicator d = true.
Proof.
  unfold outcome. destruct o as [r|cls msg];
    [|destruct (is_Exception (PyError cls msg)); discriminate].
  destruct (is_success (status_code r)) eqn:S; [|discriminate].
  destruct (json r) as [x|msg] eqn:J; [|discriminate].
  destruct x; try discriminate.
  destruct (success_indicator d) eqn:I; [|discriminate].
  intros [= <-]. now exists r, d.
Qed.

Lemma transport_message_includes (code : Z) (body : string) :
  includes (str_of_int code) (transport_message code body)
  /\ includes body (transport_message code body).
Proof.
  unfold transport_message. split.
  - exact (includes_intro "CRM API error: HTTP " _ (": " ++ body)).
  - exists ("CRM API error: HTTP " ++ str_of_int code ++ ": "), "".
    norm_append. f_equal. clear.
    repeat f_equal. induction body; simpl; congruence.
Qed.

End RetailFacts.

(* ================================================================== *)
(** * Request preparation *)
(* ================================================================== *)

(** C9 as stated fails when the caller's mapping has an "apiKey" entry of
    its own: the prepared parameters hold the service's key under it. *)
Lemma caller_api_key_is_overwritten :
  let w := {| heap := [[("apiKey", VStr "caller")]]; calls := []; logs := [] |} in
  let self := Fixtures.svc (Fixtures.backend_status 500 "internal") in
  let run := RetailCRMService._prepare_request_params self (Some 0) w in
  dict_get (deref w 0) "apiKey" = Some (VStr "caller")
  /\ fst run = Ok 1
  /\ dict_get (deref (snd run) 1) "apiKey" = Some (VStr "abc123")
  /\ dict_get (deref (snd run) 1) "apiKey" <> dict_get (deref w 0) "apiKey".
Proof.
  cbv zeta. repeat split. discriminate.
Qed.

(** C9, as the code has it: [_prepare_request_params] builds a new dict
    object and leaves every existing one, the caller's included, as it
    was; it issues no call and logs nothing; the new dict maps "apiKey"
    to the service's key, whatever the caller had under that name, and
    every other key to what the caller's mapping holds for it. *)
Theorem prepare_params_adds_api_key (self : RetailCRMService.t)
    (params : option ref) (w : world) :
  let given := match params with Some p => deref w p | None => [] end in
  exists r w',
    RetailCRMService._prepare_request_params self params w = (Ok r, w')
    /\ r = length (heap w)
    /\ (forall p, p < length (heap w) -> deref w' p = deref w p)
    /\ calls w' = calls w /\ logs w' = logs w
    /\ dict_get (deref w' r) "apiKey"
       = Some (VStr (RetailCRMService.api_key self))
    /\ (forall k, k <> "apiKey" ->
                  dict_get (deref w' r) k = dict_get given k).
Proof.
  intros given. do 2 eexists. split; [apply retail_prepare_params_eq|].
  split; [reflexivity|]. unfold deref. cbn [heap calls logs].
  split; [intros p L; now apply nth_app_old|].
  split; [reflexivity|]. split; [reflexivity|].
  rewrite nth_length_app. unfold prepared_params. split.
  - apply dict_get_set_same.
  - intros k N. rewrite dict_get_set_other by congruence.
    subst given. unfold deref. destruct params as [p|]; [|reflexivity].
    cbn [option_map]. unfold deref.
    now destruct (nth p (heap w) []).
Qed.

(** The theorem at the test suite's mapping {"a": 1}. *)
Lemma prepare_params_adds_api_key_witness :
  let w := {| heap := [[("a", VInt 1)]]; calls := []; logs := [] |} in
  let self := Fixtures.svc (Fixtures.backend_status 500 "internal") in
  exists r w',
    RetailCRMService._prepare_request_params self (Some 0) w = (Ok r, w')
    /\ deref w' 0 = [("a", VInt 1)]
    /\ dict_get (deref w' r) "apiKey" = Some (VStr "abc123")
    /\ dict_get (deref w' r) "a" = Some (VInt 1).
Proof.
  intros w self.
  destruct (prepare_params_adds_api_key self (Some 0) w)
    as (r & w' & E & _ & Old & _ & _ & K & Other).
  exists r, w'. split; [exact E|]. split; [|split].
  - apply (Old 0). simpl. lia.
  - exact K.
  - apply (Other "a"). discriminate.
Defined.

(* ================================================================== *)
(** * Computations that issue no call *)
(* ================================================================== *)

Section QuietFacts.

Lemma quiet_ret {A} (a : A) : quiet (ret a).
Proof. now intros w. Qed.

Lemma quiet_lift {A} (r : result A) : quiet (lift r).
Proof. now intros w. Qed.

Lemma quiet_raise {A} (e : exn) : quiet (@raise A e).
Proof. now intros w. Qed.

Lemma quiet_log (l : level) (msg : string) : quiet (log l msg).
Proof. now intros w. Qed.

Lemma quiet_bind {A B} (m : M A) (k : A -> M B) :
  quiet m -> (forall a, quiet (k a)) -> quiet (bind m k).
Proof.
  intros Qm Qk w. unfold bind. specialize (Qm w).
  destruct (m w) as [[a|e] w1]; simpl in *; [|exact Qm].
  now rewrite Qk.
Qed.

Lemma quiet_if {A} (b : bool) (m1 m2 : M A) :
  quiet m1 -> quiet m2 -> quiet (if b then m1 else m2).
Proof. now destruct b. Qed.

Lemma quiet_get_or_self `{PyBuiltins} (x : value) (k : string) :
  quiet (RetailCRMService.get_or_self x k).
Proof.
  unfold RetailCRMService.get_or_self.
  apply quiet_bind; [apply quiet_lift | intros; apply quiet_ret].
Qed.

(** The calls made by [m] followed by a quiet continuation are those of
    [m]. *)
Lemma calls_bind_quiet {A B} (m : M A) (k : A -> M B) (w : world) :
  (forall a, quiet (k a)) ->
  calls (snd (bind m k w)) = calls (snd (m w)).
Proof.
  intros Q. unfold bind. destruct (m w) as [[a|e] w1]; simpl; [|reflexivity].
  apply Q.
Qed.

End QuietFacts.

Ltac quiet :=
  repeat first
    [ apply quiet_ret | apply quiet_lift | apply quiet_raise | apply quiet_log
    | apply quiet_get_or_self
    | apply quiet_if
    | apply quiet_bind; [|intros] ].

(* ================================================================== *)
(** * Order creation *)
(* ================================================================== *)

(** C8 as stated fails: an order whose item list is empty is not
    rejected; [create_order] forwards it to the order-create endpoint. *)
Lemma empty_order_is_forwarded :
  items Fixtures.empty_order = []
  /\ map (fun rq => (req_method rq, req_url rq))
       (calls (snd (RetailCRMService.create_order (H := Fixtures.builtins)
                      (Fixtures.svc (Fixtures.backend_status 500 "internal"))
                      Fixtures.empty_order Fixtures.empty_world)))
     = [("POST", "https://example.retailcrm.ru/api/v5/orders/create")].
Proof.
  split; [reflexivity | vm_compute; reflexivity].
Qed.

(** C8, as the code has it: [create_order] takes an order carrying a
    customer id, an item list and a number, and makes no check on the item
    list: whatever the list, the empty one included, the order is
    serialized under the form field "order" and sent in exactly one POST
    to the order-create endpoint. *)
Theorem create_order_forwards_any_item_list `{PyBuiltins}
    (self : RetailCRMService.t) (order_dto : OrderCreateSchema) (w : world)
    (body : string) :
  json_dumps (VDict (dump_OrderCreateSchema order_dto)) = Ok body ->
  calls (snd (RetailCRMService.create_order self order_dto w))
  = (calls w
     ++ [request_for self HTTPMethod.POST E.ORDER_CREATE None
           (Some [("order", VStr body)])])%list
  /\ dict_get (dump_OrderCreateSchema order_dto) "items"
     = Some (VList (map dump_OrderItemSchema (items order_dto))).
Proof.
  intros J. split; [|reflexivity].
  unfold RetailCRMService.create_order. cbv zeta.
  rewrite bind_log, J, bind_lift_ok.
  rewrite calls_bind_quiet by (intros; quiet).
  rewrite retail_make_request_no_headers. reflexivity.
Qed.

(** The theorem at an order without items. *)
Lemma create_order_forwards_any_item_list_witness :
  calls (snd (RetailCRMService.create_order (H := Fixtures.builtins)
                (Fixtures.svc (Fixtures.backend_status 500 "internal"))
                Fixtures.empty_order Fixtures.empty_world))
  = [request_for (Fixtures.svc (Fixtures.backend_status 500 "internal"))
       "POST" "/orders/create" None (Some [("order", VStr "{...}")])].
Proof.
  exact (proj1 (create_order_forwards_any_item_list (H := Fixtures.builtins)
                  (Fixtures.svc (Fixtures.backend_status 500 "internal"))
                  Fixtures.empty_order Fixtures.empty_world "{...}" eq_refl)).
Defined.

(* ================================================================== *)
(** * Customer creation *)
(* ================================================================== *)

Lemma get_or_self_dict (payload : dict) (resource : string) (w : world) :
  RetailCRMService.get_or_self (VDict payload) resource w
  = (Ok (normalized payload resource), w).
Proof. reflexivity. Qed.

Lemma has_warning_app (a b : list (level * string)) :
  has_warning (a ++ b) = has_warning a || has_warning b.
Proof. apply existsb_app. Qed.

(** C4: when the record [create_customer] validates has no "id" entry,
    the code raises pydantic's validation error for
    [CustomerResponseWithIdOnlySchema], whose [id] is required; it logs no
    warning and returns nothing to the caller. *)
Theorem create_customer_without_id_raises `{PyBuiltins}
    (self : RetailCRMService.t) (customer_dto : CustomerAddSchema)
    (w : world) (body : string) (r : response) (payload fields : dict) :
  json_dumps (VDict (dump_CustomerAddSchema customer_dto)) = Ok body ->
  RetailCRMService.client self (calls w)
    (request_for self HTTPMethod.POST E.CUSTOMERS_CREATE None
       (Some [("customer", VStr body)])) = Responded r ->
  is_success (status_code r) = true ->
  json r = JsonValue (VDict payload) ->
  success_indicator payload = true ->
  normalized payload "customer" = VDict fields ->
  dict_get fields "id" = None ->
  exists w',
    RetailCRMService.create_customer self customer_dto w
    = (Raised (ValidationError "CustomerResponseWithIdOnlySchema"), w')
    /\ has_warning (logs w') = has_warning (logs w).
Proof.
  intros J C S P I N G.
  unfold RetailCRMService.create_customer. cbv zeta.
  rewrite bind_log, J, bind_lift_ok.
  erewrite bind_run by apply retail_make_request_no_headers.
  cbn [option_map calls heap logs]. rewrite C.
  unfold outcome. rewrite S, P, I. cbn [fst snd].
  erewrite bind_ok by apply get_or_self_dict. rewrite N.
  cbn [kwargs]. rewrite bind_lift_ok.
  unfold new_CustomerResponseWithIdOnlySchema. rewrite G.
  cbn [required option_map validated]. rewrite bind_lift_raised.
  eexists. split; [reflexivity|]. cbn [logs].
  rewrite !has_warning_app. cbn. now rewrite !orb_false_r.
Qed.

(** The theorem at the failing input: the backend answers the
    create-customer call with status 200 and the payload
    {"success": true}. *)
Lemma create_customer_without_id_raises_witness :
  exists w',
    RetailCRMService.create_customer (H := Fixtures.builtins)
      (Fixtures.svc (Fixtures.backend_json (VDict [("success", VBool true)])))
      Fixtures.customer Fixtures.empty_world
    = (Raised (PyError "ValidationError"
                 "validation error for CustomerResponseWithIdOnlySchema"), w')
    /\ has_warning (logs w') = false.
Proof.
  exact (create_customer_without_id_raises (H := Fixtures.builtins)
           (Fixtures.svc (Fixtures.backend_json
                            (VDict [("success", VBool true)])))
           Fixtures.customer Fixtures.empty_world "{...}" _
           [("success", VBool true)] [("success", VBool true)]
           eq_refl eq_refl eq_refl eq_refl eq_refl eq_refl eq_refl).
Defined.

(* ================================================================== *)
(** * Payment creation *)
(* ================================================================== *)

Section PaymentFacts.
Context `{PyBuiltins}.

Lemma success_indicator_opt (d : dict) :
  success_indicator d = truthy_opt (dict_get d "success").
Proof.
  unfold success_indicator, dict_get_default.
  now destruct (dict_get d "success").
Qed.

Lemma read_is_not_payment_create (self : RetailCRMService.t) (order_id : Z) :
  is_payment_create self (order_read self order_id) = false.
Proof. reflexivity. Qed.

Lemma filter_snoc {A} (f : A -> bool) (l : list A) (x : A) :
  f x = false -> filter f (l ++ [x]) = filter f l.
Proof.
  intros F. rewrite filter_app. simpl. rewrite F. apply app_nil_r.
Qed.

(** [create_payment] up to the answer to its existence read. *)
Lemma create_payment_after_read (self : RetailCRMService.t)
    (payment_dto : PaymentCreateSchema) (w : world) :
  let order_id := payment_order_id payment_dto in
  let read := order_read self order_id in
  let answer := RetailCRMService.client self (calls w) read in
  let o := outcome HTTPMethod.GET (E.ORDER_GET_build order_id) answer in
  let w1 :=
    {| heap := (heap w ++ [[("by", VStr "id")];
                           prepared_params self (Some [("by", VStr "id")]);
                           default_headers])%list;
       calls := (calls w ++ [read])%list;
       logs := (logs w
                ++ [(INFO, ("Creating payment for order ID: "
                            ++ str_of_int order_id)%string);
                    (DEBUG, ("Checking if order " ++ str_of_int order_id
                             ++ " exists")%string);
                    (DEBUG, "Making GET request to CRM API")]
                ++ snd o)%list |} in
  match fst o with
  | Raised e => RetailCRMService.create_payment self payment_dto w
                = (Raised e, w1)
  | Ok v =>
      exists d, v = VDict d /\ success_indicator d = true
      /\ order_confirmed answer = truthy_opt (dict_get d "order")
      /\ if truthy_opt (dict_get d "order") then
           calls (snd (RetailCRMService.create_payment self payment_dto w))
           = match json_dumps
                     (VDict (dict_set "order" (VDict [("id", VInt order_id)])
                               (dump_PaymentCreateSchema payment_dto))) with
             | Ok body =>
                 (calls w1
                  ++ [request_for self HTTPMethod.POST E.PAYMENTS_CREATE None
                        (Some [("payment", VStr body)])])%list
             | Raised _ => calls w1
             end
         else
           RetailCRMService.create_payment self payment_dto w
           = (Raised (order_not_found order_id),
              {| heap := heap w1; calls := calls w1;
                 logs := (logs w1
                          ++ [(ERROR, ("Order with id " ++ str_of_int order_id
                                       ++ " not found")%string)])%list |})
  end.
Proof.
  intros order_id read answer o w1.
  assert (RetailCRMService._make_request self HTTPMethod.GET
            (E.ORDER_GET_build order_id) (Some (length (heap w))) None None
            {| heap := (heap w ++ [[("by", VStr "id")]])%list;
               calls := calls w;
               logs := ((logs w
                         ++ [(INFO, ("Creating payment for order ID: "
                                     ++ str_of_int order_id)%string)])
                        ++ [(DEBUG, ("Checking if order "
                                     ++ str_of_int order_id
                                     ++ " exists")%string)])%list |}
          = (fst o, w1)) as R.
  { rewrite retail_make_request_no_headers.
    cbn [option_map calls heap logs]. unfold deref. cbn [heap].
    rewrite nth_length_app. subst w1 o answer read. unfold order_read.
    f_equal. f_equal; rewrite <- ?app_assoc; reflexivity. }
  unfold RetailCRMService.create_payment. cbv zeta.
  rewrite !bind_log, bind_alloc. cbn [heap calls logs].
  erewrite bind_run by exact R.
  destruct (fst o) as [v|e] eqn:O; [|reflexivity].
  destruct (outcome_ok _ _ _ _ O) as (r & d & A & S & J & -> & I).
  exists d. split; [reflexivity|]. split; [exact I|].
  split.
  { unfold order_confirmed. rewrite A, S, J, I. reflexivity. }
  cbn [py_get]. rewrite bind_lift_ok.
  rewrite <- success_indicator_opt, I. rewrite bind_lift_ok.
  destruct (truthy_opt (dict_get d "order")) eqn:T; cbn [negb orb].
  - rewrite bind_log.
    destruct (json_dumps _) as [body|e].
    + rewrite bind_lift_ok.
      rewrite calls_bind_quiet by (intros; quiet).
      rewrite retail_make_request_no_headers. reflexivity.
    + rewrite bind_lift_raised. reflexivity.
  - rewrite bind_log. reflexivity.
Qed.

End PaymentFacts.

(** C1 as stated fails in the kind of the error: when the existence read
    itself fails, here with status 500, [create_payment] lets the error of
    the read through; it is not the error with which the code reports a
    missing order. *)
Lemma failed_read_is_not_reported_as_not_found :
  let failing := Fixtures.svc (Fixtures.backend_status 500 "internal") in
  let run :=
    RetailCRMService.create_payment (H := Fixtures.builtins) failing
      Fixtures.payment Fixtures.empty_world in
  order_confirmed
    (RetailCRMService.client failing [] (order_read failing 7)) = false
  /\ fst run = Raised (Exception "CRM API error: HTTP 500: internal")
  /\ fst run <> Raised (order_not_found 7).
Proof.
  cbv zeta. repeat split; try (vm_compute; reflexivity);
    vm_compute; discriminate.
Qed.

(** C1, in what the code does by design: the first call [create_payment]
    issues is the GET for the referenced order.  Whenever that read fails,
    or returns a payload whose success indicator is false or which holds
    no order record, the operation raises, the read is the only call it
    has issued and no POST to the payment-create endpoint is made.  The
    error is [Exception("Order with id N not found")] when the read was
    accepted (a 2xx status, a mapping with a truthy success indicator) but
    held no order record.  When the read itself fails, the error is the
    read's own and not that one: "CRM API error: HTTP <status>: <body>"
    for a status outside 200..299; "Request error: <text>" for an
    [Exception] of the transport, for a body that does not decode and for
    a body that is not a mapping; the exception itself when the transport
    raises what is not an [Exception].  Which error a false success
    indicator gives is left out of the statement. *)
Theorem create_payment_reads_before_writing `{PyBuiltins}
    (self : RetailCRMService.t) (payment_dto : PaymentCreateSchema)
    (w : world) :
  let order_id := payment_order_id payment_dto in
  let read := order_read self order_id in
  let answer := RetailCRMService.client self (calls w) read in
  let run := RetailCRMService.create_payment self payment_dto w in
  let not_found :=
    Exception ("Order with id " ++ str_of_int order_id ++ " not found") in
  (exists rest, calls (snd run) = (calls w ++ read :: rest)%list)
  /\ (order_confirmed answer = false ->
      (exists e, fst run = Raised e)
      /\ calls (snd run) = (calls w ++ [read])%list
      /\ filter (is_payment_create self) (calls (snd run))
         = filter (is_payment_create self) (calls w))
  /\ (forall r d,
        answer = Responded r -> is_success (status_code r) = true ->
        json r = JsonValue (VDict d) -> success_indicator d = true ->
        truthy_opt (dict_get d "order") = false ->
        fst run = Raised not_found)
  /\ (forall r,
        answer = Responded r -> is_success (status_code r) = false ->
        fst run = Raised (Exception ("CRM API error: HTTP "
                                     ++ str_of_int (status_code r) ++ ": "
                                     ++ text r))
        /\ fst run <> Raised not_found)
  /\ (forall cls msg,
        answer = Failed cls msg ->
        fst run = (if is_Exception (PyError cls msg)
                   then Raised (Exception ("Request error: " ++ msg))
                   else Raised (PyError cls msg))
        /\ fst run <> Raised not_found)
  /\ (forall r msg,
        answer = Responded r -> is_success (status_code r) = true ->
        json r = JsonInvalid msg ->
        fst run = Raised (Exception ("Request error: " ++ msg))
        /\ fst run <> Raised not_found)
  /\ (forall r v,
        answer = Responded r -> is_success (status_code r) = true ->
        json r = JsonValue v -> (forall d, v <> VDict d) ->
        fst run = Raised (Exception ("Request error: '" ++ type_name v
                                     ++ "' object has no attribute 'get'"))
        /\ fst run <> Raised not_found).
Proof.
  intros order_id read answer run not_found.
  pose proof (create_payment_after_read self payment_dto w) as L.
  cbv zeta in L. fold order_id read answer run in L.
  assert (forall e, fst (outcome HTTPMethod.GET (E.ORDER_GET_build order_id)
                           answer) = Raised e -> fst run = Raised e) as Fails.
  { intros e O. rewrite O in L. now rewrite L. }
  split; [|split; [|split; [|split; [|split; [|split]]]]].
  - destruct (fst (outcome HTTPMethod.GET (E.ORDER_GET_build order_id)
                     answer)) as [v|e].
    + destruct L as (d & _ & _ & _ & L).
      destruct (truthy_opt (dict_get d "order")).
      * rewrite L. destruct (json_dumps _); [|now exists []].
        eexists. cbn [calls]. rewrite <- app_assoc. reflexivity.
      * rewrite L. now exists [].
    + rewrite L. now exists [].
  - intros N.
    assert (exists e, fst run = Raised e
                      /\ calls (snd run) = (calls w ++ [read])%list)
      as (e & F & C).
    { destruct (fst (outcome HTTPMethod.GET (E.ORDER_GET_build order_id)
                       answer)) as [v|e].
      - destruct L as (d & _ & _ & OC & L).
        destruct (truthy_opt (dict_get d "order")); [congruence|].
        rewrite L. eexists. split; reflexivity.
      - rewrite L. eexists. split; reflexivity. }
    split; [now exists e|]. split; [exact C|].
    rewrite C. apply filter_snoc, read_is_not_payment_create.
  - intros r d A S J I T. rewrite A in L.
    unfold outcome in L. rewrite S, J, I in L. cbn [fst snd] in L.
    destruct L as (d0 & [= <-] & _ & _ & L). rewrite T in L.
    now rewrite L.
  - intros r A S. rewrite A in Fails. unfold outcome in Fails.
    rewrite S in Fails. rewrite (Fails _ eq_refl).
    split; [reflexivity | discriminate].
  - intros cls msg A. rewrite A in Fails. unfold outcome in Fails.
    destruct (is_Exception (PyError cls msg));
      rewrite (Fails _ eq_refl); (split; [reflexivity | discriminate]).
  - intros r msg A S J. rewrite A in Fails. unfold outcome in Fails.
    rewrite S, J in Fails. rewrite (Fails _ eq_refl).
    split; [reflexivity | discriminate].
  - intros r v A S J N. rewrite A in Fails. unfold outcome in Fails.
    rewrite S, J in Fails.
    destruct v; try (rewrite (Fails _ eq_refl);
                     split; [reflexivity | discriminate]).
    now destruct (N d).
Qed.

(** The theorem for an order the backend does not know: the read answers
    with {"success": true} and no order record. *)
Lemma create_payment_reads_before_writing_witness :
  let self := Fixtures.svc (Fixtures.backend_json
                              (VDict [("success", VBool true)])) in
  let run := RetailCRMService.create_payment (H := Fixtures.builtins) self
               Fixtures.payment Fixtures.empty_world in
  fst run = Raised (Exception "Order with id 7 not found")
  /\ calls (snd run) = [order_read self 7].
Proof.
  intros self run.
  destruct (create_payment_reads_before_writing
              (H := Fixtures.builtins) self Fixtures.payment
              Fixtures.empty_world) as (_ & Unconfirmed & Missing & _).
  split.
  - exact (Missing _ [("success", VBool true)] eq_refl eq_refl eq_refl
             eq_refl eq_refl).
  - exact (proj1 (proj2 (Unconfirmed eq_refl))).
Defined.

(* ================================================================== *)
(** * Error classification in the pipeline *)
(* ================================================================== *)

Section Propagation.
Context `{PyBuiltins}.

Lemma outcome_non_2xx (method endpoint : string) (r : response) :
  is_success (status_code r) = false ->
  fst (outcome method endpoint (Responded r))
  = Raised (Exception (transport_message (status_code r) (text r))).
Proof. intros S. unfold outcome. now rewrite S. Qed.

Lemma outcome_false_success (method endpoint : string) (r : response)
    (d : dict) :
  is_success (status_code r) = true -> json r = JsonValue (VDict d) ->
  success_indicator d = false ->
  fst (outcome method endpoint (Responded r))
  = Raised (Exception (semantic_message d)).
Proof. intros S J I. unfold outcome. now rewrite S, J, I. Qed.

(** An error of the pipeline is the error of the operation, which has
    issued that one call. *)
Lemma create_customer_propagates (self : RetailCRMService.t)
    (customer_dto : CustomerAddSchema) (w : world) (body : string) (e : exn) :
  json_dumps (VDict (dump_CustomerAddSchema customer_dto)) = Ok body ->
  let rq := request_for self HTTPMethod.POST E.CUSTOMERS_CREATE None
              (Some [("customer", VStr body)]) in
  fst (outcome HTTPMethod.POST E.CUSTOMERS_CREATE
         (RetailCRMService.client self (calls w) rq)) = Raised e ->
  let run := RetailCRMService.create_customer self customer_dto w in
  fst run = Raised e /\ calls (snd run) = (calls w ++ [rq])%list.
Proof.
  intros J rq O run. subst run.
  unfold RetailCRMService.create_customer. cbv zeta.
  rewrite bind_log, J, bind_lift_ok.
  erewrite bind_run by apply retail_make_request_no_headers.
  cbn [option_map calls heap logs]. fold rq. rewrite O.
  split; reflexivity.
Qed.

Lemma create_order_propagates (self : RetailCRMService.t)
    (order_dto : OrderCreateSchema) (w : world) (body : string) (e : exn) :
  json_dumps (VDict (dump_OrderCreateSchema order_dto)) = Ok body ->
  let rq := request_for self HTTPMethod.POST E.ORDER_CREATE None
              (Some [("order", VStr body)]) in
  fst (outcome HTTPMethod.POST E.ORDER_CREATE
         (RetailCRMService.client self (calls w) rq)) = Raised e ->
  let run := RetailCRMService.create_order self order_dto w in
  fst run = Raised e /\ calls (snd run) = (calls w ++ [rq])%list.
Proof.
  intros J rq O run. subst run.
  unfold RetailCRMService.create_order. cbv zeta.
  rewrite bind_log, J, bind_lift_ok.
  erewrite bind_run by apply retail_make_request_no_headers.
  cbn [option_map calls heap logs]. fold rq. rewrite O.
  split; reflexivity.
Qed.

Lemma create_payment_propagates (self : RetailCRMService.t)
    (payment_dto : PaymentCreateSchema) (w : world) (e : exn) :
  let rq := order_read self (payment_order_id payment_dto) in
  fst (outcome HTTPMethod.GET
         (E.ORDER_GET_build (payment_order_id payment_dto))
         (RetailCRMService.client self (calls w) rq)) = Raised e ->
  let run := RetailCRMService.create_payment self payment_dto w in
  fst run = Raised e /\ calls (snd run) = (calls w ++ [rq])%list.
Proof.
  intros rq O run. subst run.
  pose proof (create_payment_after_read self payment_dto w) as L.
  cbv zeta in L. fold rq in L. rewrite O in L. rewrite L.
  split; reflexivity.
Qed.

End Propagation.

(** C10 as stated fails in its last part: a payload whose success entry
    is the string "no" passes validation and is handed back, though it
    does not contain success = true. *)
Lemma truthy_indicator_passes_validation :
  let payload := [("success", VStr "no")] in
  fst (RetailCRMService._make_request (H := Fixtures.builtins)
         (Fixtures.svc (Fixtures.backend_json (VDict payload)))
         "GET" "/customers" None None None Fixtures.empty_world)
  = Ok (VDict payload)
  /\ dict_get payload "success" <> Some (VBool true).
Proof.
  cbv zeta. split; [vm_compute; reflexivity | discriminate].
Qed.

(** C10, as the code has it: a payload without a "success" key fails
    validation with an [Exception] whose message carries the backend's
    "errorMsg", or "Unknown error" when there is none; and every payload
    [_make_request] returns is a mapping with a "success" entry whose
    value is truthy (not necessarily the boolean true). *)
Theorem missing_success_is_failure `{PyBuiltins} :
  (forall (self : RetailCRMService.t) (d : dict) (endpoint : string)
          (w : world),
      dict_get d "success" = None ->
      RetailCRMService._validate_response self (VDict d) endpoint w
      = (Raised (Exception ("RetailCRM API error: " ++ backend_message d)),
         {| heap := heap w; calls := calls w;
            logs := (logs w ++ [(ERROR, ("RetailCRM API returned error: "
                                         ++ backend_message d)%string)])%list |})
      /\ (dict_get d "errorMsg" = None ->
          backend_message d = "Unknown error")
      /\ (forall s, dict_get d "errorMsg" = Some (VStr s) ->
                    backend_message d = s))
  /\ (forall (self : RetailCRMService.t) (method endpoint : string)
             (params : option ref) (json_data : option dict)
             (headers : option ref) (w w' : world) (result : value),
        RetailCRMService._make_request self method endpoint params json_data
          headers w = (Ok result, w') ->
        exists d v,
          result = VDict d /\ dict_get d "success" = Some v
          /\ truthy v = true).
Proof.
  split.
  - intros self d endpoint w N. split; [|split].
    + unfold RetailCRMService._validate_response, RetailCRMService.get_or,
        bind, lift, ret, raise, log, backend_message, dict_get_default.
      cbn [py_get]. rewrite N. cbn.
      destruct (dict_get d "errorMsg"); reflexivity.
    + intros E. unfold backend_message, dict_get_default. now rewrite E.
    + intros s E. unfold backend_message, dict_get_default. now rewrite E.
  - intros self method endpoint params json_data headers w w' result E.
    destruct (retail_prepare_total self method endpoint params json_data
                headers w) as (rq & w1 & P & _).
    rewrite (retail_make_request _ _ _ _ _ _ _ _ _ P) in E.
    injection E as E _. apply outcome_ok in E as (r & d & _ & _ & _ & -> & I).
    unfold success_indicator, dict_get_default in I.
    destruct (dict_get d "success") as [v|] eqn:G; [|discriminate I].
    now exists d, v.
Qed.

(** The theorem at the payload {"errorMsg": "bad"}, without "success",
    and at a returned payload. *)
Lemma missing_success_is_failure_witness :
  (exists w',
      RetailCRMService._validate_response (H := Fixtures.builtins)
        (Fixtures.svc (Fixtures.backend_json VNone))
        (VDict [("errorMsg", VStr "bad")]) "/customers" Fixtures.empty_world
      = (Raised (Exception "RetailCRM API error: bad"), w'))
  /\ exists d v,
       VDict [("success", VBool true); ("customers", VList [])] = VDict d
       /\ dict_get d "success" = Some v /\ truthy v = true.
Proof.
  destruct (missing_success_is_failure (H := Fixtures.builtins)) as [V R].
  split.
  - destruct (V (Fixtures.svc (Fixtures.backend_json VNone))
                [("errorMsg", VStr "bad")] "/customers" Fixtures.empty_world
                eq_refl) as (E & _).
    eexists. exact E.
  - exact (R (Fixtures.svc (Fixtures.backend_json
                              (VDict [("success", VBool true);
                                      ("customers", VList [])])))
             "GET" "/customers" None None None Fixtures.empty_world _ _
             eq_refl).
Defined.

(* ================================================================== *)
(** * Further properties of the filter conversion *)
(* ================================================================== *)

Section ConvertMore.

Lemma wf_dict_set (k : string) (v : value) (d : dict) :
  wf_dict d -> wf_dict (dict_set k v d).
Proof.
  unfold wf_dict, keys. induction d as [|[k0 v0] d IH]; simpl; intros W.
  - repeat constructor. intros [].
  - inversion W as [|? ? N W']; subst.
    destruct (String.eqb k0 k) eqn:E; simpl.
    + apply String.eqb_eq in E. subst k0. now constructor.
    + constructor; [|now apply IH].
      intros I. apply (keys_set k k0 v d) in I as [->|I]; [|tauto].
      now rewrite String.eqb_refl in E.
Qed.

Lemma wf_apply_writes (ws : list (string * value)) (p : dict) :
  wf_dict p -> wf_dict (apply_writes ws p).
Proof.
  revert p. induction ws as [|[k v] ws IH]; intros p W; simpl; [exact W|].
  apply IH. now apply wf_dict_set.
Qed.

(** What the first loop leaves in its two dicts, for any list of
    entries. *)
Lemma split_filters_acc_inv (l a b : dict) :
  wf_dict a -> wf_dict b ->
  (forall k, In k (keys a) -> is_pagination_key k = true) ->
  let r := fold_left
             (fun acc kv =>
                if is_pagination_key (fst kv)
                then (dict_set (fst kv) (snd kv) (fst acc), snd acc)
                else (fst acc, dict_set (fst kv) (snd kv) (snd acc)))
             l (a, b) in
  wf_dict (fst r) /\ wf_dict (snd r)
  /\ (forall k, In k (keys (fst r)) -> is_pagination_key k = true).
Proof.
  revert a b. induction l as [|[k v] l IH]; intros a b Wa Wb Pa; simpl.
  - auto.
  - destruct (is_pagination_key k) eqn:P; simpl; apply IH; auto.
    + now apply wf_dict_set.
    + intros k' I. apply keys_set in I as [->|I]; auto.
    + now apply wf_dict_set.
Qed.

Lemma convert_as_writes (filter_dto : filter_dto) :
  exists params fd,
    _convert_filter_data_to_retail_crm_style filter_dto
    = apply_writes (entries_writes "filter" fd) params
    /\ wf_dict params
    /\ (forall k, In k (keys params) -> is_pagination_key k = true).
Proof.
  unfold _convert_filter_data_to_retail_crm_style.
  set (filters := match filter_dto with
                  | FilterDict d => _
                  | FilterCustomers f => _
                  | FilterCustomerOrders c => _
                  end).
  clearbody filters. unfold split_filters.
  match goal with
  | |- context [fold_left ?f filters ([], [])] =>
      set (r := fold_left f filters ([], []))
  end.
  assert (wf_dict (fst r)
          /\ (forall k, In k (keys (fst r)) -> is_pagination_key k = true))
    as [W1 P].
  { assert (wf_dict []) as Wnil by (unfold wf_dict; simpl; constructor).
    destruct (split_filters_acc_inv filters [] [] Wnil Wnil) as (W1 & _ & P);
      [intros k []|].
    split; [exact W1 | exact P]. }
  destruct r as [params fd]. simpl in W1, P.
  exists params, fd. split; [exact (fold_flatten_eq "filter" _ _)|].
  split; [exact W1 | exact P].
Qed.

End ConvertMore.

(** X1: whatever the filter (a dict of any shape or one of the models),
    every key of the converted parameters is "limit", "page" or starts
    with "filter[". *)
Theorem convert_keys_are_pagination_or_filter (filter_dto : filter_dto)
    (key : string) :
  In key (keys (_convert_filter_data_to_retail_crm_style filter_dto)) ->
  key = "limit" \/ key = "page" \/ startswith "filter[" key = true.
Proof.
  destruct (convert_as_writes filter_dto) as (params & fd & -> & _ & P).
  intros I. apply keys_apply in I as [I|I].
  - apply P, is_pagination_key_cases in I. tauto.
  - right. right. apply in_map_iff in I as (kv & <- & I).
    apply in_flat_map in I as (x & _ & I).
    destruct (writes_extend_prefix (snd x) _ (fst kv) (in_map fst _ _ I))
      as (sfx & ->).
    reflexivity.
Qed.

(** The theorem at the key filter[name] of the John filter. *)
Lemma convert_keys_are_pagination_or_filter_witness :
  "filter[name]" = "limit" \/ "filter[name]" = "page"
  \/ startswith "filter[" "filter[name]" = true.
Proof.
  apply (convert_keys_are_pagination_or_filter
           (FilterCustomers Fixtures.john_filters) "filter[name]").
  simpl. auto.
Defined.

Section ConvertEntries.

Variable d : dict.
Hypothesis W : wf_dict d.
Hypothesis PK : plain_keys d.

Let fs := filter not_none_entry d.
Let pg := filter is_pagination_entry fs.
Let fd := filter (fun kv => negb (is_pagination_entry kv)) fs.
Let out := _convert_filter_data_to_retail_crm_style (FilterDict d).

Lemma keys_app (a b : dict) (k : string) :
  In k (keys (a ++ b)%list) <-> In k (keys a) \/ In k (keys b).
Proof. unfold keys. now rewrite map_app, in_app_iff. Qed.

(** The keys of the result under filter[k] are written for the entry [k]
    and for no other. *)
Lemma keys_under_entry (k : string) (x : value) (key : string) :
  is_pagination_key k = false -> In (k, x) d -> x <> VNone ->
  In key (keys out) -> startswith ("filter[" ++ k ++ "]") key = true ->
  In key (keys (flatten_writes ("filter" ++ "[" ++ k ++ "]") x)).
Proof.
  intros P I N K S. unfold out in K. rewrite (out_eq d W) in K.
  assert (bracket_free k = true) as B by (apply PK; now apply In_keys in I).
  apply keys_apply in K as [K|K].
  - apply (pg_pagination d), is_pagination_key_cases in K as [->| ->];
      discriminate S.
  - destruct (in_split _ _ (fd_In d k x P I N)) as (l1 & l2 & E).
    pose proof (wf_fd d W) as Wf. pose proof (plain_fd d PK) as Pf.
    rewrite E in Wf, Pf, K. apply wf_split in Wf as [N1 N2].
    apply plain_keys_app in Pf as [P1 P2].
    rewrite entries_writes_app, entries_writes_cons in K. cbn [fst snd] in K.
    apply keys_app in K as [K|K]; [|apply keys_app in K as [K|K]].
    + apply in_map_iff in K as (kv & <- & K).
      assert (startswith ("filter[" ++ k ++ "]") (fst kv) = false) as M
        by exact (entries_writes_miss "filter" k l1 kv P1 B N1 K).
      congruence.
    + exact K.
    + apply in_map_iff in K as (kv & <- & K).
      assert (plain_keys l2) as P2' by (intros k' K'; apply P2; now right).
      assert (startswith ("filter[" ++ k ++ "]") (fst kv) = false) as M
        by exact (entries_writes_miss "filter" k l2 kv P2' B N2 K).
      congruence.
Qed.

Lemma empty_container_vanishes (k : string) (x : value) (key : string) :
  is_pagination_key k = false -> In (k, x) d ->
  x = VList [] \/ x = VDict [] ->
  In key (keys out) -> startswith ("filter[" ++ k ++ "]") key = false.
Proof.
  intros P I E K.
  destruct (startswith ("filter[" ++ k ++ "]") key) eqn:S; [exfalso|reflexivity].
  assert (x <> VNone) as N by (destruct E; subst x; discriminate).
  pose proof (keys_under_entry k x key P I N K S) as U.
  destruct E; subst x; exact U.
Qed.

Lemma scalar_list_writes (prefix : string) (items : list value) :
  Forall (fun v => is_scalar v = true) items ->
  flatten_writes prefix (VList items)
  = map (fun v => (prefix ++ "[]", v)) items.
Proof.
  intros F. cbn [flatten_writes].
  induction F as [|v items S _ IH]; [reflexivity|].
  cbn [flat_map map]. rewrite IH. now destruct v.
Qed.

Lemma scalar_list_keeps_last (k : string) (items : list value)
    (last_item : value) :
  is_pagination_key k = false ->
  In (k, VList (items ++ [last_item])%list) d ->
  Forall (fun v => is_scalar v = true) (items ++ [last_item])%list ->
  dict_get out ("filter[" ++ k ++ "][]") = Some last_item
  /\ forall key, In key (keys out) ->
       startswith ("filter[" ++ k ++ "]") key = true ->
       key = "filter[" ++ k ++ "][]".
Proof.
  intros P I F.
  assert (("filter" ++ "[" ++ k ++ "]") ++ "[]" = "filter[" ++ k ++ "][]")
    as K by (norm_append; reflexivity).
  split.
  - unfold out. rewrite (out_eq d W).
    assert (In (k, VList (items ++ [last_item])%list)
              (filter (fun kv => negb (is_pagination_entry kv))
                      (filter not_none_entry d))) as If
      by (apply fd_In; [| |discriminate]; auto).
    destruct (in_split _ _ If) as (l1 & l2 & E).
    pose proof (wf_fd d W) as Wf. pose proof (plain_fd d PK) as Pf.
    rewrite E in Wf, Pf. apply wf_split in Wf as [_ N2].
    apply plain_keys_app in Pf as [_ Pf].
    apply (get_after_entry _ _ l1 l2 k (VList (items ++ [last_item])%list)
             (map (fun v => (("filter" ++ "[" ++ k ++ "]") ++ "[]", v)) items)
             []); [exact E | | intros kv [] | ].
    + rewrite (scalar_list_writes _ _ F), map_app, K. reflexivity.
    + intros kv J.
      apply (entries_writes_neq "filter" k "[]" l2 kv);
        [ | | exact N2 | exact J].
      * intros k' K'. apply Pf. now right.
      * apply PK. now apply In_keys in I.
  - intros key Ko S.
    assert (VList (items ++ [last_item])%list <> VNone) as N by discriminate.
    pose proof (keys_under_entry k _ key P I N Ko S) as U.
    rewrite (scalar_list_writes _ _ F) in U. unfold keys in U.
    rewrite map_map in U. cbn [fst] in U.
    apply in_map_iff in U as (v & <- & _). exact K.
Qed.

End ConvertEntries.

(** X2: in a filter dict with distinct keys free of closing brackets, an
    entry whose value is the empty list or the empty dict sends nothing:
    no key of the converted parameters lies under filter[k]. *)
Theorem convert_drops_empty_containers (d : dict) (k : string) (x : value)
    (key : string) :
  wf_dict d -> plain_keys d ->
  is_pagination_key k = false -> In (k, x) d ->
  x = VList [] \/ x = VDict [] ->
  In key (keys (_convert_filter_data_to_retail_crm_style (FilterDict d))) ->
  startswith ("filter[" ++ k ++ "]") key = false.
Proof. intros W PK. now apply empty_container_vanishes. Qed.

Lemma ids_dict_wf : wf_dict [("ids", VList []); ("name", VStr "X")].
Proof.
  unfold wf_dict. simpl. repeat constructor; simpl; intuition discriminate.
Defined.

Lemma ids_dict_plain : plain_keys [("ids", VList []); ("name", VStr "X")].
Proof. intros k. simpl. intros [<-|[<-|[]]]; reflexivity. Defined.

(** The theorem at {ids: [], name: "X"}, for the one key of the result. *)
Lemma convert_drops_empty_containers_witness :
  _convert_filter_data_to_retail_crm_style
    (FilterDict [("ids", VList []); ("name", VStr "X")])
  = [("filter[name]", VStr "X")]
  /\ startswith ("filter[" ++ "ids" ++ "]") "filter[name]" = false.
Proof.
  split; [reflexivity|].
  apply (convert_drops_empty_containers
           [("ids", VList []); ("name", VStr "X")] "ids" (VList [])
           "filter[name]" ids_dict_wf ids_dict_plain);
    [reflexivity | simpl; auto | auto | simpl; auto].
Defined.

(** X3: in a filter dict with distinct keys free of closing brackets, a
    list of scalars under the key [k] leaves exactly one parameter,
    filter[k][], and it holds the last element of the list: the earlier
    elements are overwritten. *)
Theorem convert_scalar_list_keeps_last (d : dict) (k : string)
    (items : list value) (last_item : value) :
  wf_dict d -> plain_keys d ->
  is_pagination_key k = false ->
  In (k, VList (items ++ [last_item])%list) d ->
  Forall (fun v => is_scalar v = true) (items ++ [last_item])%list ->
  let out := _convert_filter_data_to_retail_crm_style (FilterDict d) in
  dict_get out ("filter[" ++ k ++ "][]") = Some last_item
  /\ forall key, In key (keys out) ->
       startswith ("filter[" ++ k ++ "]") key = true ->
       key = "filter[" ++ k ++ "][]".
Proof. intros W PK. now apply scalar_list_keeps_last. Qed.

Lemma id_list_wf : wf_dict [("ids", VList [VInt 1; VInt 2; VInt 3])].
Proof.
  unfold wf_dict. simpl. repeat constructor; simpl; intuition discriminate.
Defined.

Lemma id_list_plain : plain_keys [("ids", VList [VInt 1; VInt 2; VInt 3])].
Proof. intros k. simpl. intros [<-|[]]; reflexivity. Defined.

(** The theorem at {ids: [1, 2, 3]}. *)
Lemma convert_scalar_list_keeps_last_witness :
  dict_get (_convert_filter_data_to_retail_crm_style
              (FilterDict [("ids", VList [VInt 1; VInt 2; VInt 3])]))
    "filter[ids][]" = Some (VInt 3).
Proof.
  apply (convert_scalar_list_keeps_last
           [("ids", VList [VInt 1; VInt 2; VInt 3])] "ids"
           [VInt 1; VInt 2] (VInt 3) id_list_wf id_list_plain);
    [reflexivity | simpl; auto | repeat constructor].
Defined.

(* ================================================================== *)
(** * Further properties of phone normalization *)
(* ================================================================== *)

Lemma phone_numbers_sound (items : list value) (numbers : list value) :
  phone_numbers items = Ok numbers ->
  Forall (fun n => truthy n = true) numbers
  /\ length numbers <= length items
  /\ (forall n, In n numbers ->
        exists e, In (VDict e) items /\ dict_get e "number" = Some n)
  /\ (forall x, In x items -> exists e, x = VDict e).
Proof.
  revert numbers. induction items as [|x items IH]; intros numbers E.
  - injection E as <-. repeat split; auto; intros ? [].
  - cbn [phone_numbers] in E.
    destruct (py_get x "number") as [number|e] eqn:G; [|discriminate].
    destruct (phone_numbers items) as [others|e]; [|discriminate].
    destruct (IH others eq_refl) as (T & L & S & D).
    assert (exists e, x = VDict e) as [e ->]
      by (destruct x; try discriminate G; eauto).
    cbn [py_get] in G. injection G as <-.
    assert (forall y, In y (VDict e :: items) -> exists e', y = VDict e') as D'
      by (intros y [<-|I]; eauto).
    destruct (truthy_opt (dict_get e "number")) eqn:U.
    + destruct (dict_get e "number") as [n|] eqn:N; [|discriminate U].
      injection E as <-. split; [|split; [|split]].
      * constructor; auto.
      * simpl. lia.
      * intros n' [<-|I]; [exists e; split; [now left|exact N]|].
        destruct (S n' I) as (e' & I' & N'). exists e'. split; [now right|auto].
      * exact D'.
    + injection E as <-. split; [|split; [|split]].
      * exact T.
      * simpl. lia.
      * intros n' I. destruct (S n' I) as (e' & I' & N').
        exists e'. split; [now right|auto].
      * exact D'.
Qed.

(** X4: when [parse_phones] projects a list that begins with a structured
    entry, every phone it returns is a usable (truthy) value, it is the
    "number" of one of the entries, the result is no longer than the
    input, and every item of the input was a mapping. *)
Theorem parse_phones_returns_usable_numbers (first : dict)
    (rest : list value) (r : value) :
  parse_phones (VList (VDict first :: rest)) = Ok r ->
  exists numbers,
    r = VList numbers
    /\ Forall (fun n => truthy n = true) numbers
    /\ length numbers <= S (length rest)
    /\ (forall n, In n numbers ->
          exists e, In (VDict e) (VDict first :: rest)
                    /\ dict_get e "number" = Some n)
    /\ (forall x, In x rest -> exists e, x = VDict e).
Proof.
  unfold parse_phones.
  destruct (phone_numbers (VDict first :: rest)) as [numbers|e] eqn:E;
    [|discriminate].
  intros [= <-]. exists numbers.
  destruct (phone_numbers_sound _ _ E) as (T & L & S & D).
  repeat split; auto. intros x I. apply D. now right.
Qed.

(** The theorem at [{"number": "1"}, {"number": ""}, {}]. *)
Lemma parse_phones_returns_usable_numbers_witness :
  exists numbers,
    VList [VStr "1"] = VList numbers
    /\ Forall (fun n => truthy n = true) numbers
    /\ length numbers <= 3.
Proof.
  destruct (parse_phones_returns_usable_numbers
              [("number", VStr "1")] [VDict [("number", VStr "")]; VDict []]
              (VList [VStr "1"]) eq_refl) as (numbers & E & T & L & _).
  exists numbers. auto.
Defined.

Lemma phone_numbers_non_mapping (entries : list dict) (x : value)
    (rest : list value) :
  (forall e, x <> VDict e) ->
  phone_numbers (map VDict entries ++ x :: rest)
  = Raised (PyError "AttributeError"
              ("'" ++ type_name x ++ "' object has no attribute 'get'")).
Proof.
  intros N. induction entries as [|e entries IH].
  - cbn [map Datatypes.app phone_numbers].
    destruct x; try reflexivity. now destruct (N d).
  - cbn [map Datatypes.app phone_numbers py_get]. now rewrite IH.
Qed.

(** X5: the first element decides.  A list that begins with a structured
    entry and holds an item that is not a mapping makes [parse_phones]
    raise [AttributeError]; the item is not dropped.  A list that begins
    with a string is returned as it is, structured entries included. *)
Theorem parse_phones_mixed_lists (first : dict) (entries : list dict)
    (x : value) (rest : list value) (s : string) :
  (forall e, x <> VDict e) ->
  parse_phones (VList (VDict first :: map VDict entries ++ x :: rest))
  = Raised (PyError "AttributeError"
              ("'" ++ type_name x ++ "' object has no attribute 'get'"))
  /\ parse_phones (VList (VStr s :: map VDict entries ++ x :: rest))
     = Ok (VList (VStr s :: map VDict entries ++ x :: rest)).
Proof.
  intros N. split; [|reflexivity].
  unfold parse_phones.
  change (VDict first :: map VDict entries ++ x :: rest)%list
    with (map VDict (first :: entries) ++ x :: rest)%list.
  now rewrite phone_numbers_non_mapping.
Qed.

(** The theorem at [{"number": "1"}, "2"] and ["1", {"number": "2"}]. *)
Lemma parse_phones_mixed_lists_witness :
  parse_phones (VList [VDict [("number", VStr "1")]; VStr "2"])
  = Raised (PyError "AttributeError" "'str' object has no attribute 'get'")
  /\ parse_phones (VList [VStr "1"; VStr "2"])
     = Ok (VList [VStr "1"; VStr "2"]).
Proof.
  apply (parse_phones_mixed_lists [("number", VStr "1")] [] (VStr "2") []
           "1").
  discriminate.
Defined.

(** X6: normalizing twice is normalizing once, as long as no "number" is
    itself a mapping: the result of [parse_phones] on a list of structured
    entries is left unchanged by [parse_phones]. *)
Theorem parse_phones_idempotent (entries : list dict) :
  (forall e n, In e entries -> dict_get e "number" = Some n ->
               forall m, n <> VDict m) ->
  exists numbers,
    parse_phones (VList (map VDict entries)) = Ok (VList numbers)
    /\ parse_phones (VList numbers) = Ok (VList numbers).
Proof.
  intros N. exists (projected_numbers entries). split.
  - destruct entries as [|e entries]; [reflexivity|].
    unfold parse_phones. cbn [map].
    change (VDict e :: map VDict entries) with (map VDict (e :: entries)).
    now rewrite phone_numbers_dicts.
  - induction entries as [|e entries IH]; [reflexivity|].
    cbn [projected_numbers flat_map]. fold (projected_numbers entries).
    destruct (dict_get e "number") as [n|] eqn:G.
    + destruct (truthy n).
      * cbn [Datatypes.app]. unfold parse_phones.
        destruct n; try reflexivity.
        now destruct (N e (VDict d) (or_introl eq_refl) G d).
      * apply IH. intros e' n' I. apply N. now right.
    + apply IH. intros e' n' I. apply N. now right.
Qed.

(** The theorem at [{"number": "1"}, {"number": "2"}]. *)
Lemma parse_phones_idempotent_witness :
  exists numbers,
    parse_phones (VList [VDict [("number", VStr "1")];
                         VDict [("number", VStr "2")]]) = Ok (VList numbers)
    /\ parse_phones (VList numbers) = Ok (VList numbers).
Proof.
  apply (parse_phones_idempotent [[("number", VStr "1")];
                                  [("number", VStr "2")]]).
  intros e n [<-|[<-|[]]] [= <-] m; discriminate.
Defined.

(* ================================================================== *)
(** * The endpoint of an order *)
(* ================================================================== *)

Lemma str_of_int_injective (a b : Z) : str_of_int a = str_of_int b -> a = b.
Proof.
  unfold str_of_int. intros E.
  assert (forall z, Z.to_int z <> Decimal.Pos Decimal.Nil
                    /\ Z.to_int z <> Decimal.Neg Decimal.Nil) as NN.
  { intros z. split; intros C; pose proof (f_equal Z.of_int C) as C';
      rewrite DecimalZ.of_to in C'; simpl in C'; subst z; discriminate C. }
  apply (f_equal NilZero.int_of_string) in E.
  rewrite !NilZero.isi in E by apply NN.
  injection E as E. apply (f_equal Z.of_int) in E.
  now rewrite !DecimalZ.of_to in E.
Qed.

(** X7: [ORDER_GET.build] gives different orders different paths: the
    path determines the order id. *)
Theorem order_endpoint_determines_order (a b : Z) :
  E.ORDER_GET_build a = E.ORDER_GET_build b -> a = b.
Proof.
  unfold E.ORDER_GET_build. intros H.
  apply append_inv_head in H. now apply str_of_int_injective.
Qed.

(** The theorem at two equal paths. *)
Lemma order_endpoint_determines_order_witness :
  E.ORDER_GET_build 7 = E.ORDER_GET_build (3 + 4) /\ (7 = 3 + 4)%Z.
Proof.
  split; [reflexivity|].
  exact (order_endpoint_determines_order 7 (3 + 4) eq_refl).
Defined.

(* ================================================================== *)
(** * Further properties of the request pipeline *)
(* ================================================================== *)

Section PipelineMore.
Context `{PyBuiltins}.

Import RetailCRMService.

Lemma nth_update_same (l : list dict) (n : nat) (x : dict) :
  n < length l -> nth n (update n x l) [] = x.
Proof.
  revert n. induction l as [|y l IH]; intros [|n] L; simpl in *;
    try lia; [reflexivity|]. apply IH. lia.
Qed.

Lemma nth_update_other (l : list dict) (n h : nat) (x : dict) :
  h <> n -> nth n (update h x l) [] = nth n l [].
Proof.
  revert n h. induction l as [|y l IH]; intros [|n] [|h] N; simpl;
    try reflexivity; try congruence. apply IH. congruence.
Qed.

Lemma update_out_of_range (l : list dict) (h : nat) (x : dict) :
  length l <= h -> update h x l = l.
Proof.
  revert h. induction l as [|y l IH]; intros [|h] L; simpl in *;
    try reflexivity; try lia. f_equal. apply IH. lia.
Qed.

(** [_prepare_request_headers] on a dict the caller passes. *)
Lemma retail_prepare_headers_some (self : t) (h : ref) (method : string)
    (w : world) :
  _prepare_request_headers self (Some h) method w
  = (Ok (Some h),
     if String.eqb method HTTPMethod.POST
     then {| heap := update h (dict_set "Content-Type"
                                 (VStr "application/x-www-form-urlencoded")
                                 (deref w h)) (heap w);
             calls := calls w; logs := logs w |}
     else w).
Proof.
  unfold _prepare_request_headers. rewrite bind_ret.
  destruct (String.eqb method HTTPMethod.POST); reflexivity.
Qed.

(** The request the pipeline prepares when the caller passes headers. *)
Lemma retail_prepare_with_headers (self : t) (method endpoint : string)
    (params : option ref) (json_data : option dict) (h : ref) (w : world) :
  let pp := prepared_params self (option_map (deref w) params) in
  let heap1 := (heap w ++ [pp])%list in
  let heap2 := update h (dict_set "Content-Type"
                           (VStr "application/x-www-form-urlencoded")
                           (nth h heap1 [])) heap1 in
  prepare_request self method endpoint params json_data (Some h) w
  = (Ok {| req_method := method; req_url := api_url self ++ endpoint;
           req_params := nth (length (heap w)) heap2 [];
           req_data := json_data;
           req_headers := Some (nth h heap2 []) |},
     {| heap := heap2; calls := calls w;
        logs := (logs w ++ [(DEBUG, ("Making " ++ method
                                     ++ " request to CRM API")%string)])%list |}).
Proof.
  intros pp heap1 heap2. unfold prepare_request.
  cbn [Base._prepare_request_params Base._prepare_request_body
       Base._prepare_request_headers Base.api_url service].
  rewrite (bind_ok _ _ _ _ _ (retail_prepare_params_eq self params w)).
  unfold _prepare_request_body. rewrite bind_ret.
  rewrite (bind_ok _ _ _ _ _ (retail_prepare_headers_some self h _ _)).
  change (String.eqb HTTPMethod.POST HTTPMethod.POST) with true.
  cbv iota. rewrite bind_log, bind_load.
  unfold load_opt, bind, load, ret, deref. reflexivity.
Qed.

Lemma prepared_params_api_key (self : t) (given : option dict) :
  dict_get (prepared_params self given) "apiKey" = Some (VStr (api_key self)).
Proof. apply dict_get_set_same. Qed.

(** Whatever the caller passes, the prepared request carries the service's
    key. *)
Lemma retail_prepare_api_key (self : t) (method endpoint : string)
    (params : option ref) (json_data : option dict) (headers : option ref)
    (w w1 : world) (rq : request) :
  prepare_request self method endpoint params json_data headers w
  = (Ok rq, w1) ->
  dict_get (req_params rq) "apiKey" = Some (VStr (api_key self)).
Proof.
  destruct headers as [h|].
  - rewrite retail_prepare_with_headers. cbv zeta. intros [= <- _].
    cbn [req_params].
    destruct (Nat.eq_dec h (length (heap w))) as [->|N].
    + rewrite nth_update_same by (rewrite length_app; simpl; lia).
      rewrite nth_length_app, dict_get_set_other by discriminate.
      apply prepared_params_api_key.
    + rewrite nth_update_other by exact N.
      rewrite nth_length_app. apply prepared_params_api_key.
  - rewrite retail_prepare_no_headers. intros [= <- _].
    apply prepared_params_api_key.
Qed.

(** With no headers or with a dict that exists, the prepared request
    carries the form content type. *)
Lemma retail_prepare_content_type (self : t) (method endpoint : string)
    (params : option ref) (json_data : option dict) (headers : option ref)
    (w w1 : world) (rq : request) :
  match headers with Some h => h < length (heap w) | None => True end ->
  prepare_request self method endpoint params json_data headers w
  = (Ok rq, w1) ->
  exists sent,
    req_headers rq = Some sent
    /\ dict_get sent "Content-Type"
       = Some (VStr "application/x-www-form-urlencoded").
Proof.
  destruct headers as [h|]; intros V.
  - rewrite retail_prepare_with_headers. cbv zeta. intros [= <- _].
    cbn [req_headers]. eexists. split; [reflexivity|].
    rewrite nth_update_same by (rewrite length_app; simpl; lia).
    apply dict_get_set_same.
  - rewrite retail_prepare_no_headers. intros [= <- _].
    eexists. split; reflexivity.
Qed.

End PipelineMore.

(** X8: whatever its arguments and whatever the backend answers,
    [_make_request] issues exactly one outbound call; that call has the
    given method, the URL [api_url ++ endpoint], the given body unchanged,
    and the service's API key under "apiKey" in its query parameters. *)
Theorem make_request_issues_one_authenticated_call `{PyBuiltins}
    (self : RetailCRMService.t) (method endpoint : string)
    (params : option ref) (json_data : option dict) (headers : option ref)
    (w : world) :
  exists rq,
    calls (snd (RetailCRMService._make_request self method endpoint params
                  json_data headers w)) = (calls w ++ [rq])%list
    /\ req_method rq = method
    /\ req_url rq = RetailCRMService.api_url self ++ endpoint
    /\ req_data rq = json_data
    /\ dict_get (req_params rq) "apiKey"
       = Some (VStr (RetailCRMService.api_key self)).
Proof.
  destruct (retail_prepare_total self method endpoint params json_data
              headers w) as (rq & w1 & P & _ & Mth & U & D).
  exists rq. rewrite (retail_make_request _ _ _ _ _ _ _ _ _ P).
  repeat split; auto. exact (retail_prepare_api_key _ _ _ _ _ _ _ _ _ P).
Qed.

(** X9: the base pipeline calls [_prepare_request_headers] without the
    method, so the method takes its default: every call the pipeline
    issues, a GET included, carries the header
    Content-Type: application/x-www-form-urlencoded (the caller passing no
    headers or a dict that exists). *)
Theorem make_request_sends_form_content_type `{PyBuiltins}
    (self : RetailCRMService.t) (method endpoint : string)
    (params : option ref) (json_data : option dict) (headers : option ref)
    (w : world) :
  match headers with Some h => h < length (heap w) | None => True end ->
  exists rq sent,
    calls (snd (RetailCRMService._make_request self method endpoint params
                  json_data headers w)) = (calls w ++ [rq])%list
    /\ req_method rq = method
    /\ req_headers rq = Some sent
    /\ dict_get sent "Content-Type"
       = Some (VStr "application/x-www-form-urlencoded").
Proof.
  intros V.
  destruct (retail_prepare_total self method endpoint params json_data
              headers w) as (rq & w1 & P & _ & Mth & _).
  destruct (retail_prepare_content_type _ _ _ _ _ _ _ _ _ V P)
    as (sent & E & C).
  exists rq, sent. rewrite (retail_make_request _ _ _ _ _ _ _ _ _ P). auto.
Qed.

(** The theorem at a GET without headers. *)
Lemma make_request_sends_form_content_type_witness :
  exists rq sent,
    calls (snd (RetailCRMService._make_request (H := Fixtures.builtins)
                  (Fixtures.svc (Fixtures.backend_status 500 "internal"))
                  "GET" "/customers" None None None Fixtures.empty_world))
    = [rq]
    /\ req_method rq = "GET"
    /\ req_headers rq = Some sent
    /\ dict_get sent "Content-Type"
       = Some (VStr "application/x-www-form-urlencoded").
Proof.
  exact (make_request_sends_form_content_type (H := Fixtures.builtins)
           (Fixtures.svc (Fixtures.backend_status 500 "internal"))
           "GET" "/customers" None None None Fixtures.empty_world I).
Defined.

(** X10: unlike the query parameters, the headers are not copied.  Given
    a dict that exists, [_prepare_request_headers] returns that same
    object; for the method POST it has set "Content-Type" in it, in place,
    and left its other keys and every other object as they were; for any
    other method nothing changes at all. *)
Theorem prepare_headers_mutates_callers_dict (self : RetailCRMService.t)
    (h : ref) (method : string) (w : world) :
  h < length (heap w) ->
  exists w',
    RetailCRMService._prepare_request_headers self (Some h) method w
    = (Ok (Some h), w')
    /\ calls w' = calls w /\ logs w' = logs w
    /\ (forall p, p <> h -> deref w' p = deref w p)
    /\ (method = HTTPMethod.POST ->
        dict_get (deref w' h) "Content-Type"
        = Some (VStr "application/x-www-form-urlencoded")
        /\ forall k, k <> "Content-Type" ->
             dict_get (deref w' h) k = dict_get (deref w h) k)
    /\ (method <> HTTPMethod.POST -> w' = w).
Proof.
  intros V. eexists. split; [apply retail_prepare_headers_some|].
  destruct (String.eqb method HTTPMethod.POST) eqn:E.
  - apply String.eqb_eq in E. cbn [calls logs heap]. unfold deref.
    cbn [heap]. repeat split; auto.
    + intros p N. apply nth_update_other. congruence.
    + rewrite nth_update_same by exact V. apply dict_get_set_same.
    + intros k N. rewrite nth_update_same by exact V.
      apply dict_get_set_other. congruence.
    + congruence.
  - apply String.eqb_neq in E. repeat split; auto. congruence.
Qed.

(** The theorem at the caller's dict {"X-Trace": "1"} and the method
    POST. *)
Lemma prepare_headers_mutates_callers_dict_witness :
  let w := {| heap := [[("X-Trace", VStr "1")]]; calls := []; logs := [] |} in
  exists w',
    RetailCRMService._prepare_request_headers
      (Fixtures.svc (Fixtures.backend_status 500 "internal")) (Some 0)
      "POST" w = (Ok (Some 0), w')
    /\ dict_get (deref w' 0) "Content-Type"
       = Some (VStr "application/x-www-form-urlencoded")
    /\ dict_get (deref w' 0) "X-Trace" = Some (VStr "1").
Proof.
  intros w.
  destruct (prepare_headers_mutates_callers_dict
              (Fixtures.svc (Fixtures.backend_status 500 "internal")) 0
              "POST" w) as (w' & E & _ & _ & _ & P & _); [simpl; lia|].
  exists w'. destruct (P eq_refl) as [C K].
  split; [exact E|]. split; [exact C|]. apply (K "X-Trace"). discriminate.
Defined.

Section OutcomeFacts.
Context `{PyBuiltins}.

Lemma outcome_success (method endpoint : string) (r : response) (d : dict) :
  is_success (status_code r) = true -> json r = JsonValue (VDict d) ->
  success_indicator d = true ->
  fst (outcome method endpoint (Responded r)) = Ok (VDict d).
Proof. intros S J I. unfold outcome. now rewrite S, J, I. Qed.


End OutcomeFacts.

(** X11: [_make_request] returns a payload exactly when the backend
    answered the prepared request with a 2xx status and a JSON mapping
    whose "success" entry is truthy; the payload returned is that mapping,
    unchanged. *)
Theorem make_request_returns_validated_payload `{PyBuiltins}
    (self : RetailCRMService.t) (method endpoint : string)
    (params : option ref) (json_data : option dict) (headers : option ref)
    (w w1 : world) (rq : request) (v : value) :
  prepare_request self method endpoint params json_data headers w
  = (Ok rq, w1) ->
  fst (RetailCRMService._make_request self method endpoint params json_data
         headers w) = Ok v
  <-> exists r d,
        RetailCRMService.client self (calls w) rq = Responded r
        /\ is_success (status_code r) = true
        /\ json r = JsonValue (VDict d)
        /\ success_indicator d = true
        /\ v = VDict d.
Proof.
  intros P. rewrite (retail_make_request _ _ _ _ _ _ _ _ _ P). cbn [fst].
  split.
  - intros O. destruct (outcome_ok _ _ _ _ O) as (r & d & A & S & J & E & I).
    now exists r, d.
  - intros (r & d & A & S & J & I & ->). rewrite A.
    now apply outcome_success.
Qed.

(** The theorem at the test suite's answer
    {"success": true, "customers": []}. *)
Lemma make_request_returns_validated_payload_witness :
  fst (RetailCRMService._make_request (H := Fixtures.builtins)
         (Fixtures.svc (Fixtures.backend_json
                          (VDict [("success", VBool true);
                                  ("customers", VList [])])))
         "GET" "/customers" None None None Fixtures.empty_world)
  = Ok (VDict [("success", VBool true); ("customers", VList [])]).
Proof.
  apply (proj2 (make_request_returns_validated_payload
                  (H := Fixtures.builtins)
                  (Fixtures.svc (Fixtures.backend_json
                                   (VDict [("success", VBool true);
                                           ("customers", VList [])])))
                  "GET" "/customers" None None None Fixtures.empty_world
                  _ _ _ eq_refl)).
  do 2 eexists. repeat split; reflexivity.
Defined.



(** X13: three failures share the generic clause of [_make_request], each
    after the one call and with the message "Request error: " followed by
    the text of the cause: the transport raising an [Exception]
    (connection, timeout), whose class is lost; a 2xx body that does not
    decode as JSON; and a 2xx JSON body that is not a mapping, for which
    the cause is the [AttributeError] of calling [get] on it.  When the
    transport raises what is not an [Exception], the clause does not
    apply: the exception leaves [_make_request] as it is, after the one
    call. *)
Theorem make_request_generic_failures `{PyBuiltins}
    (self : RetailCRMService.t) (method endpoint : string)
    (params : option ref) (json_data : option dict) (headers : option ref)
    (w w1 : world) (rq : request) :
  prepare_request self method endpoint params json_data headers w
  = (Ok rq, w1) ->
  let run := RetailCRMService._make_request self method endpoint params
               json_data headers w in
  calls (snd run) = (calls w ++ [rq])%list
  /\ (forall cls msg,
        RetailCRMService.client self (calls w) rq = Failed cls msg ->
        fst run = if is_Exception (PyError cls msg)
                  then Raised (Exception ("Request error: " ++ msg))
                  else Raised (PyError cls msg))
  /\ (forall r msg,
        RetailCRMService.client self (calls w) rq = Responded r ->
        is_success (status_code r) = true -> json r = JsonInvalid msg ->
        fst run = Raised (Exception ("Request error: " ++ msg)))
  /\ (forall r v,
        RetailCRMService.client self (calls w) rq = Responded r ->
        is_success (status_code r) = true -> json r = JsonValue v ->
        (forall d, v <> VDict d) ->
        fst run = Raised (Exception ("Request error: '" ++ type_name v
                                     ++ "' object has no attribute 'get'"))).
Proof.
  intros P run. subst run.
  rewrite (retail_make_request _ _ _ _ _ _ _ _ _ P). cbn [fst snd calls].
  split; [reflexivity|]. split; [|split].
  - intros cls msg ->. unfold outcome.
    now destruct (is_Exception (PyError cls msg)).
  - intros r msg -> S J. unfold outcome. now rewrite S, J.
  - intros r v -> S J N. unfold outcome. rewrite S, J.
    destruct v; try reflexivity. now destruct (N d).
Qed.

(** The theorem at a backend whose 200 answer is the JSON list []. *)
Lemma make_request_generic_failures_witness :
  fst (RetailCRMService._make_request (H := Fixtures.builtins)
         (Fixtures.svc (Fixtures.backend_json (VList [])))
         "GET" "/customers" None None None Fixtures.empty_world)
  = Raised (Exception
              "Request error: 'list' object has no attribute 'get'").
Proof.
  destruct (make_request_generic_failures (H := Fixtures.builtins)
              (Fixtures.svc (Fixtures.backend_json (VList [])))
              "GET" "/customers" None None None Fixtures.empty_world
              _ _ eq_refl) as (_ & _ & _ & N).
  apply (N _ (VList []) eq_refl eq_refl eq_refl). discriminate.
Defined.

(* ================================================================== *)
(** * Further properties of the write operations *)
(* ================================================================== *)

Section WriteOperations.
Context `{PyBuiltins}.

(** [create_customer] once the backend has accepted its call. *)
Lemma create_customer_accepted (self : RetailCRMService.t)
    (customer_dto : CustomerAddSchema) (w : world) (body : string) (d : dict) :
  json_dumps (VDict (dump_CustomerAddSchema customer_dto)) = Ok body ->
  let rq := request_for self HTTPMethod.POST E.CUSTOMERS_CREATE None
              (Some [("customer", VStr body)]) in
  accepted (RetailCRMService.client self (calls w) rq) d ->
  let run := RetailCRMService.create_customer self customer_dto w in
  fst run = match kwargs "src.schemas.customers.CustomerResponseWithIdOnlySchema"
                   (normalized d "customer") with
            | Raised e => Raised e
            | Ok fields => new_CustomerResponseWithIdOnlySchema fields
            end
  /\ calls (snd run) = (calls w ++ [rq])%list
  /\ exists extra,
       logs (snd run) = (logs w ++ extra)%list
       /\ has_warning extra = match fst run with
                              | Ok resp => Z.eqb (customer_id resp) 0
                              | Raised _ => false
                              end.
Proof.
  intros J rq (r & C & S & P & I) run. subst run.
  unfold RetailCRMService.create_customer. cbv zeta.
  rewrite bind_log, J, bind_lift_ok.
  erewrite bind_run by apply retail_make_request_no_headers.
  cbn [option_map calls heap logs]. fold rq. rewrite C.
  unfold outcome. rewrite S, P, I. cbn [fst snd].
  erewrite bind_ok by apply get_or_self_dict.
  destruct (kwargs "src.schemas.customers.CustomerResponseWithIdOnlySchema"
                   (normalized d "customer")) as [fields|e].
  - rewrite bind_lift_ok.
    destruct (new_CustomerResponseWithIdOnlySchema fields) as [resp|e].
    + rewrite bind_lift_ok.
      destruct (Z.eqb (customer_id resp) 0) eqn:Z0; cbn [negb];
        rewrite bind_log; cbn [ret fst snd calls logs];
        (split; [reflexivity|]; split; [reflexivity|]);
        eexists; (split; [rewrite <- !app_assoc; reflexivity|]);
        rewrite Z0; reflexivity.
    + rewrite bind_lift_raised. cbn [fst snd calls logs].
      split; [reflexivity|]. split; [reflexivity|].
      eexists. split; [rewrite <- !app_assoc; reflexivity | reflexivity].
  - rewrite bind_lift_raised. cbn [fst snd calls logs].
    split; [reflexivity|]. split; [reflexivity|].
    eexists. split; [rewrite <- !app_assoc; reflexivity | reflexivity].
Qed.

(** [create_order] once the backend has accepted its call. *)
Lemma create_order_accepted (self : RetailCRMService.t)
    (order_dto : OrderCreateSchema) (w : world) (body : string) (d : dict) :
  json_dumps (VDict (dump_OrderCreateSchema order_dto)) = Ok body ->
  let rq := request_for self HTTPMethod.POST E.ORDER_CREATE None
              (Some [("order", VStr body)]) in
  accepted (RetailCRMService.client self (calls w) rq) d ->
  let run := RetailCRMService.create_order self order_dto w in
  fst run = match kwargs "src.schemas.orders.OrderResponseSchema"
                   (normalized d "order") with
            | Raised e => Raised e
            | Ok fields => new_OrderResponseSchema fields
            end
  /\ calls (snd run) = (calls w ++ [rq])%list
  /\ exists extra,
       logs (snd run) = (logs w ++ extra)%list
       /\ has_warning extra = match fst run with
                              | Ok resp => Z.eqb (order_id resp) 0
                              | Raised _ => false
                              end.
Proof.
  intros J rq (r & C & S & P & I) run. subst run.
  unfold RetailCRMService.create_order. cbv zeta.
  rewrite bind_log, J, bind_lift_ok.
  erewrite bind_run by apply retail_make_request_no_headers.
  cbn [option_map calls heap logs]. fold rq. rewrite C.
  unfold outcome. rewrite S, P, I. cbn [fst snd].
  erewrite bind_ok by apply get_or_self_dict.
  destruct (kwargs "src.schemas.orders.OrderResponseSchema"
                   (normalized d "order")) as [fields|e].
  - rewrite bind_lift_ok.
    destruct (new_OrderResponseSchema fields) as [resp|e].
    + rewrite bind_lift_ok.
      destruct (Z.eqb (order_id resp) 0) eqn:Z0; cbn [negb];
        rewrite bind_log; cbn [ret fst snd calls logs];
        (split; [reflexivity|]; split; [reflexivity|]);
        eexists; (split; [rewrite <- !app_assoc; reflexivity|]);
        rewrite Z0; reflexivity.
    + rewrite bind_lift_raised. cbn [fst snd calls logs].
      split; [reflexivity|]. split; [reflexivity|].
      eexists. split; [rewrite <- !app_assoc; reflexivity | reflexivity].
  - rewrite bind_lift_raised. cbn [fst snd calls logs].
    split; [reflexivity|]. split; [reflexivity|].
    eexists. split; [rewrite <- !app_assoc; reflexivity | reflexivity].
Qed.

End WriteOperations.

Section PaymentMore.
Context `{PyBuiltins}.

Lemma order_confirmed_true (o : client_outcome) :
  order_confirmed o = true ->
  exists d, accepted o d /\ truthy_opt (dict_get d "order") = true.
Proof.
  unfold order_confirmed, accepted. destruct o as [r|]; [|discriminate].
  intros C. apply andb_prop in C as [S C].
  destruct (json r) as [v|] eqn:J; [|discriminate].
  destruct v; try discriminate. apply andb_prop in C as [I T].
  exists d. split; [|exact T]. now exists r.
Qed.

Lemma outcome_success_logs (method endpoint : string) (r : response)
    (d : dict) :
  is_success (status_code r) = true -> json r = JsonValue (VDict d) ->
  success_indicator d = true ->
  snd (outcome method endpoint (Responded r))
  = [(DEBUG, "Successfully completed " ++ method ++ " request to "
             ++ endpoint)].
Proof. intros S J I. unfold outcome. now rewrite S, J, I. Qed.

(** The existence read of [create_payment], run by the pipeline. *)
Lemma payment_read_run (self : RetailCRMService.t) (order_id : Z)
    (w : world) (l : list (level * string)) :
  let read := order_read self order_id in
  let o := outcome HTTPMethod.GET (E.ORDER_GET_build order_id)
             (RetailCRMService.client self (calls w) read) in
  RetailCRMService._make_request self HTTPMethod.GET
    (E.ORDER_GET_build order_id) (Some (length (heap w))) None None
    {| heap := (heap w ++ [[("by", VStr "id")]])%list; calls := calls w;
       logs := l |}
  = (fst o,
     {| heap := (heap w ++ [[("by", VStr "id")];
                            prepared_params self (Some [("by", VStr "id")]);
                            default_headers])%list;
        calls := (calls w ++ [read])%list;
        logs := (l ++ (DEBUG, "Making GET request to CRM API")
                      :: snd o)%list |}).
Proof.
  intros read o. rewrite retail_make_request_no_headers.
  cbn [option_map calls heap logs]. unfold deref. cbn [heap].
  rewrite nth_length_app. subst o read. unfold order_read.
  f_equal. f_equal. now rewrite <- app_assoc.
Qed.

(** [create_payment] once the existence read has confirmed the order. *)
Lemma create_payment_confirmed (self : RetailCRMService.t)
    (payment_dto : PaymentCreateSchema) (w : world) :
  let order_id := payment_order_id payment_dto in
  let read := order_read self order_id in
  let run := RetailCRMService.create_payment self payment_dto w in
  order_confirmed (RetailCRMService.client self (calls w) read) = true ->
  (forall e, json_dumps (VDict (payment_data payment_dto)) = Raised e ->
             fst run = Raised e /\ calls (snd run) = (calls w ++ [read])%list)
  /\ (forall body,
        json_dumps (VDict (payment_data payment_dto)) = Ok body ->
        let write := payment_write self body in
        let answer :=
          RetailCRMService.client self (calls w ++ [read])%list write in
        calls (snd run) = (calls w ++ [read; write])%list
        /\ (forall e,
              fst (outcome HTTPMethod.POST E.PAYMENTS_CREATE answer)
              = Raised e -> fst run = Raised e)
        /\ (forall d,
              accepted answer d ->
              fst run = match kwargs "src.schemas.payments.PaymentResponseSchema"
                   (normalized d "payment") with
                        | Raised e => Raised e
                        | Ok fields => new_PaymentResponseSchema fields
                        end
              /\ exists extra,
                   logs (snd run) = (logs w ++ extra)%list
                   /\ has_warning extra
                      = match fst run with
                        | Ok resp => Z.eqb (payment_id resp) 0
                        | Raised _ => false
                        end)).
Proof.
  intros order_id read run OC. subst run.
  destruct (order_confirmed_true _ OC) as (d0 & (r0 & A0 & S0 & J0 & I0) & T0).
  unfold RetailCRMService.create_payment. cbv zeta.
  rewrite !bind_log, bind_alloc. cbn [heap calls logs].
  erewrite bind_run by apply payment_read_run.
  fold order_id. fold read. rewrite A0.
  rewrite (outcome_success _ _ _ _ S0 J0 I0),
    (outcome_success_logs _ _ _ _ S0 J0 I0).
  cbn [fst snd py_get]. rewrite bind_lift_ok.
  rewrite <- success_indicator_opt, I0, bind_lift_ok, T0. cbn [negb orb].
  rewrite bind_log.
  change (dict_set "order" (VDict [("id", VInt order_id)])
            (dump_PaymentCreateSchema payment_dto))
    with (payment_data payment_dto).
  split.
  - intros e ->. rewrite bind_lift_raised. split; reflexivity.
  - intros body ->. rewrite bind_lift_ok.
    erewrite bind_run by apply retail_make_request_no_headers.
    cbn [option_map calls heap logs]. fold (payment_write self body).
    set (write := payment_write self body).
    set (answer := RetailCRMService.client self (calls w ++ [read])%list
                     write).
    split; [|split].
    + destruct (fst (outcome HTTPMethod.POST E.PAYMENTS_CREATE answer))
        as [v|e].
      * rewrite calls_bind_quiet by (intros; quiet).
        pose proof (quiet_get_or_self v "payment") as Q. unfold quiet in Q.
        rewrite Q. cbn [snd calls]. now rewrite <- app_assoc.
      * cbn [snd calls]. now rewrite <- app_assoc.
    + intros e ->. reflexivity.
    + intros d (r & C & S & P & I). rewrite C. unfold outcome.
      rewrite S, P, I. cbn [fst snd].
      erewrite bind_ok by apply get_or_self_dict.
      destruct (kwargs "src.schemas.payments.PaymentResponseSchema"
                   (normalized d "payment")) as [fields|e].
      * rewrite bind_lift_ok.
        destruct (new_PaymentResponseSchema fields) as [resp|e].
        -- rewrite bind_lift_ok.
           destruct (Z.eqb (payment_id resp) 0) eqn:Z0; cbn [negb];
             rewrite bind_log; cbn [ret fst snd calls logs];
             (split; [reflexivity|]);
             eexists; (split; [rewrite <- !app_assoc; reflexivity|]);
             rewrite Z0; reflexivity.
        -- rewrite bind_lift_raised. cbn [fst snd calls logs].
           split; [reflexivity|].
           eexists. split; [rewrite <- !app_assoc; reflexivity | reflexivity].
      * rewrite bind_lift_raised. cbn [fst snd calls logs].
        split; [reflexivity|].
        eexists. split; [rewrite <- !app_assoc; reflexivity | reflexivity].
Qed.

End PaymentMore.

Section NormalizationFacts.

Lemma normalized_wrapped (d : dict) (resource : string) (x : value) :
  dict_get d resource = Some x -> truthy x = true ->
  normalized d resource = x.
Proof. unfold normalized. now intros -> ->. Qed.

Lemma normalized_fallback (d : dict) (resource : string) :
  truthy_opt (dict_get d resource) = false ->
  normalized d resource = VDict d.
Proof.
  unfold normalized. destruct (dict_get d resource) as [x|]; [|reflexivity].
  simpl. now intros ->.
Qed.

Lemma payment_data_order (p : PaymentCreateSchema) :
  dict_get (payment_data p) "order"
  = Some (VDict [("id", VInt (payment_order_id p))])
  /\ dict_get (payment_data p) "order_id" = None.
Proof.
  unfold payment_data. split; [apply dict_get_set_same|].
  rewrite dict_get_set_other by discriminate.
  unfold dump_PaymentCreateSchema.
  destruct (paid_at p), (comment p); reflexivity.
Qed.

End NormalizationFacts.

(** X14: when the existence read confirms the order and the backend
    accepts the write with a record that carries an id, wrapped under
    "payment" or at the top level of the payload, [create_payment] returns
    that id; it has issued the read and then the write, in this order and
    nothing else; the payload it serialized names the order as
    {"order": {"id": N}} and has no "order_id" entry. *)
Theorem create_payment_returns_assigned_id `{PyBuiltins}
    (self : RetailCRMService.t) (payment_dto : PaymentCreateSchema)
    (w : world) (body : string) (d fields : dict) (v : value) (n : Z) :
  let order_id := payment_order_id payment_dto in
  let read := order_read self order_id in
  let write := payment_write self body in
  order_confirmed (RetailCRMService.client self (calls w) read) = true ->
  json_dumps (VDict (payment_data payment_dto)) = Ok body ->
  accepted (RetailCRMService.client self (calls w ++ [read])%list write) d ->
  (dict_get d "payment" = Some (VDict fields) /\ fields <> []
   \/ truthy_opt (dict_get d "payment") = false /\ fields = d) ->
  dict_get fields "id" = Some v -> pydantic_int v = Some n ->
  let run := RetailCRMService.create_payment self payment_dto w in
  fst run = Ok {| payment_id := n |}
  /\ calls (snd run) = (calls w ++ [read; write])%list
  /\ dict_get (payment_data payment_dto) "order"
     = Some (VDict [("id", VInt order_id)])
  /\ dict_get (payment_data payment_dto) "order_id" = None.
Proof.
  intros order_id read write OC J A N G P run.
  destruct (create_payment_confirmed self payment_dto w OC) as [_ K].
  destruct (K body J) as (C & _ & R). destruct (R d A) as [F _].
  assert (normalized d "payment" = VDict fields) as Nz.
  { destruct N as [[W NE]|[W ->]].
    - apply normalized_wrapped; [exact W | now destruct fields].
    - now apply normalized_fallback. }
  split; [|split; [exact C | apply payment_data_order]].
  subst run. rewrite F, Nz. cbn [kwargs].
  unfold new_PaymentResponseSchema. rewrite G. cbn [required].
  now rewrite P.
Qed.

(** The theorem for a backend that answers every call with
    {"success": true, "order": {"id": 7}, "id": 55}: the read finds the
    order, the write returns the id at the top level. *)
Lemma create_payment_returns_assigned_id_witness :
  let self :=
    Fixtures.svc (Fixtures.backend_json
                    (VDict [("success", VBool true);
                            ("order", VDict [("id", VInt 7)]);
                            ("id", VInt 55)])) in
  let run := RetailCRMService.create_payment (H := Fixtures.builtins) self
               Fixtures.payment Fixtures.empty_world in
  fst run = Ok {| payment_id := 55 |}
  /\ calls (snd run) = [order_read self 7; payment_write self "{...}"].
Proof.
  intros self run.
  destruct (create_payment_returns_assigned_id (H := Fixtures.builtins)
              self Fixtures.payment Fixtures.empty_world "{...}"
              [("success", VBool true); ("order", VDict [("id", VInt 7)]);
               ("id", VInt 55)]
              [("success", VBool true); ("order", VDict [("id", VInt 7)]);
               ("id", VInt 55)]
              (VInt 55) 55 eq_refl eq_refl) as (F & C & _).
  - eexists. repeat split; reflexivity.
  - right. split; reflexivity.
  - reflexivity.
  - reflexivity.
  - split; [exact F | exact C].
Defined.

(** X15: the three write operations log their "response doesn't contain
    ID" warning exactly when the id they return is 0: whenever one of them
    returns a record, the records it has logged contain a WARNING if and
    only if the id of that record is 0. *)
Theorem missing_id_warning_means_zero_id `{PyBuiltins}
    (self : RetailCRMService.t) (w : world) :
  (forall (customer_dto : CustomerAddSchema) resp,
      let run := RetailCRMService.create_customer self customer_dto w in
      fst run = Ok resp ->
      exists extra,
        logs (snd run) = (logs w ++ extra)%list
        /\ has_warning extra = Z.eqb (customer_id resp) 0)
  /\ (forall (order_dto : OrderCreateSchema) resp,
        let run := RetailCRMService.create_order self order_dto w in
        fst run = Ok resp ->
        exists extra,
          logs (snd run) = (logs w ++ extra)%list
          /\ has_warning extra = Z.eqb (order_id resp) 0)
  /\ (forall (payment_dto : PaymentCreateSchema) resp,
        let run := RetailCRMService.create_payment self payment_dto w in
        fst run = Ok resp ->
        exists extra,
          logs (snd run) = (logs w ++ extra)%list
          /\ has_warning extra = Z.eqb (payment_id resp) 0).
Proof.
  split; [|split].
  - intros customer_dto resp run R.
    destruct (json_dumps (VDict (dump_CustomerAddSchema customer_dto)))
      as [body|e] eqn:J.
    + set (rq := request_for self HTTPMethod.POST E.CUSTOMERS_CREATE None
                   (Some [("customer", VStr body)])).
      destruct (fst (outcome HTTPMethod.POST E.CUSTOMERS_CREATE
                       (RetailCRMService.client self (calls w) rq)))
        as [v|e] eqn:O.
      * destruct (outcome_ok _ _ _ _ O) as (r & d & A & S & P & _ & I).
        assert (accepted (RetailCRMService.client self (calls w) rq) d) as Ac
          by (now exists r).
        destruct (create_customer_accepted self customer_dto w body d J Ac)
          as (_ & _ & extra & L & Wn).
        exists extra. split; [exact L|]. fold run in Wn. now rewrite R in Wn.
      * destruct (create_customer_propagates self customer_dto w body e J O)
          as [F _]. fold run in F. congruence.
    + subst run. unfold RetailCRMService.create_customer in R.
      cbv zeta in R. rewrite bind_log, J, bind_lift_raised in R.
      discriminate R.
  - intros order_dto resp run R.
    destruct (json_dumps (VDict (dump_OrderCreateSchema order_dto)))
      as [body|e] eqn:J.
    + set (rq := request_for self HTTPMethod.POST E.ORDER_CREATE None
                   (Some [("order", VStr body)])).
      destruct (fst (outcome HTTPMethod.POST E.ORDER_CREATE
                       (RetailCRMService.client self (calls w) rq)))
        as [v|e] eqn:O.
      * destruct (outcome_ok _ _ _ _ O) as (r & d & A & S & P & _ & I).
        assert (accepted (RetailCRMService.client self (calls w) rq) d) as Ac
          by (now exists r).
        destruct (create_order_accepted self order_dto w body d J Ac)
          as (_ & _ & extra & L & Wn).
        exists extra. split; [exact L|]. fold run in Wn. now rewrite R in Wn.
      * destruct (create_order_propagates self order_dto w body e J O)
          as [F _]. fold run in F. congruence.
    + subst run. unfold RetailCRMService.create_order in R.
      cbv zeta in R. rewrite bind_log, J, bind_lift_raised in R.
      discriminate R.
  - intros payment_dto resp run R.
    pose proof (create_payment_after_read self payment_dto w) as L.
    cbv zeta in L. fold run in L.
    destruct (fst (outcome HTTPMethod.GET
                     (E.ORDER_GET_build (payment_order_id payment_dto))
                     (RetailCRMService.client self (calls w)
                        (order_read self (payment_order_id payment_dto)))))
      as [v|e]; [|rewrite L in R; discriminate R].
    destruct L as (d0 & _ & _ & OC & L).
    destruct (truthy_opt (dict_get d0 "order"));
      [|rewrite L in R; discriminate R].
    destruct (create_payment_confirmed self payment_dto w OC) as [KR KO].
    fold run in KR, KO.
    destruct (json_dumps (VDict (payment_data payment_dto)))
      as [body|e] eqn:J; [|destruct (KR e eq_refl); congruence].
    destruct (KO body eq_refl) as (_ & KE & KA).
    destruct (fst (outcome HTTPMethod.POST E.PAYMENTS_CREATE
                     (RetailCRMService.client self
                        (calls w ++ [order_read self
                                       (payment_order_id payment_dto)])%list
                        (payment_write self body))))
      as [v'|e] eqn:O; [|specialize (KE e eq_refl); congruence].
    destruct (outcome_ok _ _ _ _ O) as (r & d & A & S & P & _ & I).
    destruct (KA d) as (_ & extra & Lg & Wn); [now exists r|].
    exists extra. split; [exact Lg|]. now rewrite R in Wn.
Qed.

(** The theorem for a backend that returns the customer id 0. *)
Lemma missing_id_warning_means_zero_id_witness :
  let run := RetailCRMService.create_customer (H := Fixtures.builtins)
               (Fixtures.svc (Fixtures.backend_json
                                (VDict [("success", VBool true);
                                        ("id", VInt 0)])))
               Fixtures.customer Fixtures.empty_world in
  exists extra,
    logs (snd run) = extra /\ has_warning extra = true.
Proof.
  intros run.
  destruct (proj1 (missing_id_warning_means_zero_id (H := Fixtures.builtins)
                     (Fixtures.svc (Fixtures.backend_json
                                      (VDict [("success", VBool true);
                                              ("id", VInt 0)])))
                     Fixtures.empty_world)
              Fixtures.customer {| customer_id := 0 |} eq_refl)
    as (extra & L & Wn).
  exists extra. split; [exact L | exact Wn].
Defined.

(** X16: which record [create_customer] validates.  Once the backend has
    accepted the call: a non-empty mapping under "customer" is the record,
    and an id at the top level of the payload is not looked at; without a
    truthy "customer" entry the whole payload is the record; a truthy
    "customer" entry that is not a mapping is a [TypeError], whatever the
    payload holds beside it. *)
Theorem create_customer_validates_wrapped_record_first `{PyBuiltins}
    (self : RetailCRMService.t) (customer_dto : CustomerAddSchema)
    (w : world) (body : string) (d : dict) :
  json_dumps (VDict (dump_CustomerAddSchema customer_dto)) = Ok body ->
  accepted (RetailCRMService.client self (calls w)
              (request_for self HTTPMethod.POST E.CUSTOMERS_CREATE None
                 (Some [("customer", VStr body)]))) d ->
  let run := RetailCRMService.create_customer self customer_dto w in
  (forall wrapped v n,
      dict_get d "customer" = Some (VDict wrapped) -> wrapped <> [] ->
      dict_get wrapped "id" = Some v -> pydantic_int v = Some n ->
      fst run = Ok {| customer_id := n |})
  /\ (forall wrapped,
        dict_get d "customer" = Some (VDict wrapped) -> wrapped <> [] ->
        dict_get wrapped "id" = None ->
        fst run = Raised (ValidationError "CustomerResponseWithIdOnlySchema"))
  /\ (forall v n,
        truthy_opt (dict_get d "customer") = false ->
        dict_get d "id" = Some v -> pydantic_int v = Some n ->
        fst run = Ok {| customer_id := n |})
  /\ (forall x,
        dict_get d "customer" = Some x -> truthy x = true ->
        (forall m, x <> VDict m) ->
        exists msg, fst run = Raised (PyError "TypeError" msg)).
Proof.
  intros J A run.
  destruct (create_customer_accepted self customer_dto w body d J A)
    as (F & _). fold run in F.
  split; [|split; [|split]].
  - intros wrapped v n G NE I P. rewrite F.
    rewrite (normalized_wrapped d "customer" (VDict wrapped) G)
      by now destruct wrapped.
    cbn [kwargs]. unfold new_CustomerResponseWithIdOnlySchema.
    rewrite I. cbn [required]. now rewrite P.
  - intros wrapped G NE I. rewrite F.
    rewrite (normalized_wrapped d "customer" (VDict wrapped) G)
      by now destruct wrapped.
    cbn [kwargs]. unfold new_CustomerResponseWithIdOnlySchema.
    now rewrite I.
  - intros v n T I P. rewrite F, (normalized_fallback d "customer" T).
    cbn [kwargs]. unfold new_CustomerResponseWithIdOnlySchema.
    rewrite I. cbn [required]. now rewrite P.
  - intros x G T N. rewrite F, (normalized_wrapped d "customer" x G T).
    destruct x; try (eexists; reflexivity). now destruct (N d0).
Qed.

(** The theorem for the payload
    {"success": true, "id": 1, "customer": {"id": 2}}: the id returned is
    the wrapped one. *)
Lemma create_customer_validates_wrapped_record_first_witness :
  fst (RetailCRMService.create_customer (H := Fixtures.builtins)
         (Fixtures.svc (Fixtures.backend_json
                          (VDict [("success", VBool true); ("id", VInt 1);
                                  ("customer", VDict [("id", VInt 2)])])))
         Fixtures.customer Fixtures.empty_world)
  = Ok {| customer_id := 2 |}.
Proof.
  destruct (create_customer_validates_wrapped_record_first
              (H := Fixtures.builtins)
              (Fixtures.svc (Fixtures.backend_json
                               (VDict [("success", VBool true); ("id", VInt 1);
                                       ("customer", VDict [("id", VInt 2)])])))
              Fixtures.customer Fixtures.empty_world "{...}"
              [("success", VBool true); ("id", VInt 1);
               ("customer", VDict [("id", VInt 2)])] eq_refl)
    as (Wr & _).
  - eexists. repeat split; reflexivity.
  - apply (Wr [("id", VInt 2)] (VInt 2) 2%Z); [reflexivity | discriminate | |];
      reflexivity.
Defined.

(* ================================================================== *)
(** * The list operations *)
(* ================================================================== *)

Section ListOperations.
Context `{PyBuiltins}.

Lemma customers_request_for (self : RetailCRMService.t)
    (f : CustomerFiltersSchema) :
  request_for self HTTPMethod.GET E.CUSTOMERS_LIST
    (Some (RetailCRMService.dict_update
             [("limit", VInt (filter_limit f)); ("page", VInt (filter_page f))]
             (_convert_filter_data_to_retail_crm_style (FilterCustomers f))))
    None
  = customers_request self f.
Proof.
  unfold request_for, customers_request. f_equal.
  destruct f as [[n|] [e|] [a|] [b|] l p]; reflexivity.
Qed.

Lemma customer_orders_request_for (self : RetailCRMService.t)
    (c : CustomerGetOrdersSchema) :
  request_for self HTTPMethod.GET E.ORDERS_LIST
    (Some (RetailCRMService.dict_update
             [("limit", VInt (orders_limit c)); ("page", VInt (orders_page c))]
             (_convert_filter_data_to_retail_crm_style
                (FilterCustomerOrders c))))
    None
  = customer_orders_request self c.
Proof. reflexivity. Qed.


Lemma get_or_dict (d : dict) (k : string) (default : value) (w : world) :
  RetailCRMService.get_or (VDict d) k default w
  = (Ok (dict_get_default d k default), w).
Proof. reflexivity. Qed.

(** [get_customers]: its one call, and its result by the backend's
    answer. *)
Lemma get_customers_run (self : RetailCRMService.t)
    (f : CustomerFiltersSchema) (w : world) :
  let rq := customers_request self f in
  let o := RetailCRMService.client self (calls w) rq in
  let run := RetailCRMService.get_customers self f w in
  calls (snd run) = (calls w ++ [rq])%list
  /\ (forall e, fst (outcome HTTPMethod.GET E.CUSTOMERS_LIST o) = Raised e ->
                fst run = Raised e)
  /\ (forall d, accepted o d ->
        fst run = listing "src.schemas.customers.CustomerGetSchema" new_CustomerGetSchema
                    new_CustomersListResponseSchema "customers" d).
Proof.
  intros rq o run. subst run.
  unfold RetailCRMService.get_customers. cbv zeta.
  rewrite bind_log, bind_alloc.
  erewrite bind_run by apply retail_make_request_no_headers.
  cbn [option_map calls heap logs]. unfold deref. cbn [heap].
  rewrite nth_length_app, customers_request_for. fold rq o.
  destruct (fst (outcome HTTPMethod.GET E.CUSTOMERS_LIST o)) as [v|e] eqn:O.
  - destruct (outcome_ok _ _ _ _ O) as (r & d & A & S & J & -> & I).
    rewrite (bind_ok _ _ _ _ _ (get_or_dict d "customers" (VList []) _)).
    assert (forall d', accepted o d' -> d' = d) as U.
    { intros d' (r' & A' & _ & J' & _). rewrite A in A'.
      injection A' as <-. congruence. }
    unfold listing.
    destruct (py_iter (dict_get_default d "customers" (VList [])))
      as [items|e] eqn:It.
    + rewrite bind_lift_ok.
      destruct (build_all "src.schemas.customers.CustomerGetSchema"
                  new_CustomerGetSchema items) as [cs|e] eqn:B.
      * rewrite bind_lift_ok, bind_log. cbn [py_get]. rewrite bind_lift_ok.
        unfold lift. cbn [fst snd calls].
        split; [reflexivity|]. split; [discriminate|].
        intros d' A'. rewrite (U d' A'), It, B. reflexivity.
      * rewrite bind_lift_raised. cbn [fst snd calls].
        split; [reflexivity|]. split; [discriminate|].
        intros d' A'. rewrite (U d' A'), It, B. reflexivity.
    + rewrite bind_lift_raised. cbn [fst snd calls].
      split; [reflexivity|]. split; [discriminate|].
      intros d' A'. rewrite (U d' A'), It. reflexivity.
  - cbn [fst snd calls]. split; [reflexivity|]. split; [congruence|].
    intros d (r & A & S & J & I). exfalso.
    unfold outcome in O. rewrite A, S, J, I in O. discriminate O.
Qed.

(** [get_customer_orders]: its one call, and its result by the backend's
    answer. *)
Lemma get_customer_orders_run (self : RetailCRMService.t)
    (c : CustomerGetOrdersSchema) (w : world) :
  let rq := customer_orders_request self c in
  let o := RetailCRMService.client self (calls w) rq in
  let run := RetailCRMService.get_customer_orders self c w in
  calls (snd run) = (calls w ++ [rq])%list
  /\ (forall e, fst (outcome HTTPMethod.GET E.ORDERS_LIST o) = Raised e ->
                fst run = Raised e)
  /\ (forall d, accepted o d ->
        fst run = listing "src.schemas.orders.OrderResponseSchema" new_OrderResponseSchema new_OrdersListResponse
                    "orders" d).
Proof.
  intros rq o run. subst run.
  unfold RetailCRMService.get_customer_orders. cbv zeta.
  rewrite bind_log, bind_alloc.
  erewrite bind_run by apply retail_make_request_no_headers.
  cbn [option_map calls heap logs]. unfold deref. cbn [heap].
  rewrite nth_length_app, customer_orders_request_for. fold rq o.
  destruct (fst (outcome HTTPMethod.GET E.ORDERS_LIST o)) as [v|e] eqn:O.
  - destruct (outcome_ok _ _ _ _ O) as (r & d & A & S & J & -> & I).
    rewrite (bind_ok _ _ _ _ _ (get_or_dict d "orders" (VList []) _)).
    assert (forall d', accepted o d' -> d' = d) as U.
    { intros d' (r' & A' & _ & J' & _). rewrite A in A'.
      injection A' as <-. congruence. }
    unfold listing.
    destruct (py_iter (dict_get_default d "orders" (VList [])))
      as [items|e] eqn:It.
    + rewrite bind_lift_ok.
      destruct (build_all "src.schemas.orders.OrderResponseSchema"
                  new_OrderResponseSchema items) as [cs|e] eqn:B.
      * rewrite bind_lift_ok, bind_log. cbn [py_get]. rewrite bind_lift_ok.
        unfold lift. cbn [fst snd calls].
        split; [reflexivity|]. split; [discriminate|].
        intros d' A'. rewrite (U d' A'), It, B. reflexivity.
      * rewrite bind_lift_raised. cbn [fst snd calls].
        split; [reflexivity|]. split; [discriminate|].
        intros d' A'. rewrite (U d' A'), It, B. reflexivity.
    + rewrite bind_lift_raised. cbn [fst snd calls].
      split; [reflexivity|]. split; [discriminate|].
      intros d' A'. rewrite (U d' A'), It. reflexivity.
  - cbn [fst snd calls]. split; [reflexivity|]. split; [congruence|].
    intros d (r & A & S & J & I). exfalso.
    unfold outcome in O. rewrite A, S, J, I in O. discriminate O.
Qed.

End ListOperations.

(* ================================================================== *)
(** * Error classification in every operation *)
(* ================================================================== *)

(** C6: when the backend answers an outbound call with a status outside
    200..299, the operation fails with the exception whose message is
    "CRM API error: HTTP ", the status code, ": " and the body of the
    response, after that one call and no other.  This holds for
    [_make_request] on any prepared request, and so for every operation at
    every call it makes: [create_customer], [create_order], the existence
    read and the write of [create_payment], [get_customers] and
    [get_customer_orders]. *)
Theorem non_2xx_raises_transport_error `{PyBuiltins}
    (self : RetailCRMService.t) (r : response) :
  is_success (status_code r) = false ->
  let msg := "CRM API error: HTTP " ++ str_of_int (status_code r) ++ ": "
             ++ text r in
  includes (str_of_int (status_code r)) msg /\ includes (text r) msg
  /\ (forall (method endpoint : string) (params : option ref)
              (json_data : option dict) (headers : option ref)
              (w w1 : world) (rq : request),
         prepare_request self method endpoint params json_data headers w
         = (Ok rq, w1) ->
         RetailCRMService.client self (calls w) rq = Responded r ->
         exists w2,
           RetailCRMService._make_request self method endpoint params
             json_data headers w = (Raised (Exception msg), w2)
           /\ calls w2 = (calls w ++ [rq])%list)
  /\ (forall (customer_dto : CustomerAddSchema) (w : world) (body : string),
         json_dumps (VDict (dump_CustomerAddSchema customer_dto)) = Ok body ->
         let rq := request_for self HTTPMethod.POST E.CUSTOMERS_CREATE None
                     (Some [("customer", VStr body)]) in
         RetailCRMService.client self (calls w) rq = Responded r ->
         let run := RetailCRMService.create_customer self customer_dto w in
         fst run = Raised (Exception msg)
         /\ calls (snd run) = (calls w ++ [rq])%list)
  /\ (forall (order_dto : OrderCreateSchema) (w : world) (body : string),
         json_dumps (VDict (dump_OrderCreateSchema order_dto)) = Ok body ->
         let rq := request_for self HTTPMethod.POST E.ORDER_CREATE None
                     (Some [("order", VStr body)]) in
         RetailCRMService.client self (calls w) rq = Responded r ->
         let run := RetailCRMService.create_order self order_dto w in
         fst run = Raised (Exception msg)
         /\ calls (snd run) = (calls w ++ [rq])%list)
  /\ (forall (payment_dto : PaymentCreateSchema) (w : world),
         let rq := order_read self (payment_order_id payment_dto) in
         RetailCRMService.client self (calls w) rq = Responded r ->
         let run := RetailCRMService.create_payment self payment_dto w in
         fst run = Raised (Exception msg)
         /\ calls (snd run) = (calls w ++ [rq])%list)
  /\ (forall (payment_dto : PaymentCreateSchema) (w : world) (body : string),
         let read := order_read self (payment_order_id payment_dto) in
         let write := payment_write self body in
         order_confirmed (RetailCRMService.client self (calls w) read)
         = true ->
         json_dumps (VDict (payment_data payment_dto)) = Ok body ->
         RetailCRMService.client self (calls w ++ [read])%list write
         = Responded r ->
         let run := RetailCRMService.create_payment self payment_dto w in
         fst run = Raised (Exception msg)
         /\ calls (snd run) = (calls w ++ [read; write])%list)
  /\ (forall (filter_dto : CustomerFiltersSchema) (w : world),
         let rq := customers_request self filter_dto in
         RetailCRMService.client self (calls w) rq = Responded r ->
         let run := RetailCRMService.get_customers self filter_dto w in
         fst run = Raised (Exception msg)
         /\ calls (snd run) = (calls w ++ [rq])%list)
  /\ (forall (customer_data : CustomerGetOrdersSchema) (w : world),
         let rq := customer_orders_request self customer_data in
         RetailCRMService.client self (calls w) rq = Responded r ->
         let run := RetailCRMService.get_customer_orders self customer_data
                      w in
         fst run = Raised (Exception msg)
         /\ calls (snd run) = (calls w ++ [rq])%list).
Proof.
  intros S msg.
  split; [apply transport_message_includes|].
  split; [apply transport_message_includes|].
  split; [|split; [|split; [|split; [|split; [|split]]]]].
  - intros method endpoint params json_data headers w w1 rq P C.
    rewrite (retail_make_request _ _ _ _ _ _ _ _ _ P), C.
    rewrite (outcome_non_2xx _ _ _ S).
    eexists. split; reflexivity.
  - intros customer_dto w body J rq C.
    apply (create_customer_propagates self customer_dto w body _ J).
    fold rq. rewrite C. now apply outcome_non_2xx.
  - intros order_dto w body J rq C.
    apply (create_order_propagates self order_dto w body _ J).
    fold rq. rewrite C. now apply outcome_non_2xx.
  - intros payment_dto w rq C.
    apply (create_payment_propagates self payment_dto w).
    fold rq. rewrite C. now apply outcome_non_2xx.
  - intros payment_dto w body read write OC D C run.
    destruct (create_payment_confirmed self payment_dto w OC) as [_ K].
    destruct (K body D) as (Cs & F & _). fold read write in Cs, F.
    split; [|exact Cs]. apply F. rewrite C. now apply outcome_non_2xx.
  - intros filter_dto w rq C run.
    destruct (get_customers_run self filter_dto w) as (Cs & F & _).
    fold rq in Cs, F. split; [|exact Cs].
    apply F. rewrite C. now apply outcome_non_2xx.
  - intros customer_data w rq C run.
    destruct (get_customer_orders_run self customer_data w) as (Cs & F & _).
    fold rq in Cs, F. split; [|exact Cs].
    apply F. rewrite C. now apply outcome_non_2xx.
Qed.

(** The theorem at the test suite's input: status 500, body "internal". *)
Lemma non_2xx_raises_transport_error_witness :
  exists w2,
    RetailCRMService._make_request (H := Fixtures.builtins)
      (Fixtures.svc (Fixtures.backend_status 500 "internal"))
      "GET" "/customers" None None None Fixtures.empty_world
    = (Raised (Exception "CRM API error: HTTP 500: internal"), w2)
    /\ length (calls w2) = 1.
Proof.
  destruct (non_2xx_raises_transport_error (H := Fixtures.builtins)
              (Fixtures.svc (Fixtures.backend_status 500 "internal"))
              {| status_code := 500; text := "internal";
                 json := JsonInvalid "Expecting value" |} eq_refl)
    as (_ & _ & M & _).
  destruct (M "GET" "/customers" None None None Fixtures.empty_world
              _ _ eq_refl eq_refl) as (w2 & E & C).
  exists w2. split; [exact E|]. rewrite C. reflexivity.
Defined.

(** C5 as stated fails: the error raised for a 2xx answer whose success
    indicator is false and the error raised for a status 500 are of the
    same class, the bare [Exception]. *)
Lemma semantic_and_transport_errors_share_class :
  let e_sem := Exception "Request error: RetailCRM API error: bad" in
  let e_tr := Exception "CRM API error: HTTP 500: internal" in
  fst (RetailCRMService._make_request (H := Fixtures.builtins)
         (Fixtures.svc (Fixtures.backend_json
                          (VDict [("success", VBool false);
                                  ("errorMsg", VStr "bad")])))
         "GET" "/customers" None None None Fixtures.empty_world)
  = Raised e_sem
  /\ fst (RetailCRMService._make_request (H := Fixtures.builtins)
            (Fixtures.svc (Fixtures.backend_status 500 "internal"))
            "GET" "/customers" None None None Fixtures.empty_world)
     = Raised e_tr
  /\ exn_class e_sem = exn_class e_tr.
Proof.
  cbv zeta. split; [vm_compute; reflexivity|].
  split; [vm_compute; reflexivity | reflexivity].
Qed.

(** C5, as the code has it: when the backend answers an outbound call
    with a 2xx status and a payload whose success indicator is false (or
    falsy, or missing), the operation fails after that one call with a
    bare [Exception], the class it also raises for a non-2xx status; its
    message is "Request error: RetailCRM API error: " followed by the
    backend's error text, and differs from the message of every non-2xx
    failure, so the two can be told apart by message only.  This holds
    for [_make_request] on any prepared request, and so for every
    operation at every call it makes: [create_customer], [create_order],
    the existence read and the write of [create_payment], [get_customers]
    and [get_customer_orders]. *)
Theorem false_success_raises_request_error `{PyBuiltins}
    (self : RetailCRMService.t) (r : response) (d : dict) :
  is_success (status_code r) = true ->
  json r = JsonValue (VDict d) ->
  success_indicator d = false ->
  let msg := "Request error: RetailCRM API error: " ++ backend_message d in
  includes (backend_message d) msg
  /\ (forall s, dict_get d "errorMsg" = Some (VStr s) ->
                backend_message d = s)
  /\ (forall code body,
         exn_class (Exception msg)
         = exn_class (Exception (transport_message code body))
         /\ msg <> transport_message code body)
  /\ (forall (method endpoint : string) (params : option ref)
              (json_data : option dict) (headers : option ref)
              (w w1 : world) (rq : request),
         prepare_request self method endpoint params json_data headers w
         = (Ok rq, w1) ->
         RetailCRMService.client self (calls w) rq = Responded r ->
         exists w2,
           RetailCRMService._make_request self method endpoint params
             json_data headers w = (Raised (Exception msg), w2)
           /\ calls w2 = (calls w ++ [rq])%list)
  /\ (forall (customer_dto : CustomerAddSchema) (w : world) (body : string),
         json_dumps (VDict (dump_CustomerAddSchema customer_dto)) = Ok body ->
         let rq := request_for self HTTPMethod.POST E.CUSTOMERS_CREATE None
                     (Some [("customer", VStr body)]) in
         RetailCRMService.client self (calls w) rq = Responded r ->
         let run := RetailCRMService.create_customer self customer_dto w in
         fst run = Raised (Exception msg)
         /\ calls (snd run) = (calls w ++ [rq])%list)
  /\ (forall (order_dto : OrderCreateSchema) (w : world) (body : string),
         json_dumps (VDict (dump_OrderCreateSchema order_dto)) = Ok body ->
         let rq := request_for self HTTPMethod.POST E.ORDER_CREATE None
                     (Some [("order", VStr body)]) in
         RetailCRMService.client self (calls w) rq = Responded r ->
         let run := RetailCRMService.create_order self order_dto w in
         fst run = Raised (Exception msg)
         /\ calls (snd run) = (calls w ++ [rq])%list)
  /\ (forall (payment_dto : PaymentCreateSchema) (w : world),
         let rq := order_read self (payment_order_id payment_dto) in
         RetailCRMService.client self (calls w) rq = Responded r ->
         let run := RetailCRMService.create_payment self payment_dto w in
         fst run = Raised (Exception msg)
         /\ calls (snd run) = (calls w ++ [rq])%list)
  /\ (forall (payment_dto : PaymentCreateSchema) (w : world) (body : string),
         let read := order_read self (payment_order_id payment_dto) in
         let write := payment_write self body in
         order_confirmed (RetailCRMService.client self (calls w) read)
         = true ->
         json_dumps (VDict (payment_data payment_dto)) = Ok body ->
         RetailCRMService.client self (calls w ++ [read])%list write
         = Responded r ->
         let run := RetailCRMService.create_payment self payment_dto w in
         fst run = Raised (Exception msg)
         /\ calls (snd run) = (calls w ++ [read; write])%list)
  /\ (forall (filter_dto : CustomerFiltersSchema) (w : world),
         let rq := customers_request self filter_dto in
         RetailCRMService.client self (calls w) rq = Responded r ->
         let run := RetailCRMService.get_customers self filter_dto w in
         fst run = Raised (Exception msg)
         /\ calls (snd run) = (calls w ++ [rq])%list)
  /\ (forall (customer_data : CustomerGetOrdersSchema) (w : world),
         let rq := customer_orders_request self customer_data in
         RetailCRMService.client self (calls w) rq = Responded r ->
         let run := RetailCRMService.get_customer_orders self customer_data
                      w in
         fst run = Raised (Exception msg)
         /\ calls (snd run) = (calls w ++ [rq])%list).
Proof.
  intros S J I msg.
  split; [|split; [|split; [|split; [|split; [|split; [|split;
    [|split; [|split]]]]]]]].
  - exists "Request error: RetailCRM API error: ", "".
    subst msg. f_equal. clear. induction (backend_message d); simpl; congruence.
  - intros s E. unfold backend_message, dict_get_default. now rewrite E.
  - intros code body. split; [reflexivity|]. discriminate.
  - intros method endpoint params json_data headers w w1 rq P C.
    rewrite (retail_make_request _ _ _ _ _ _ _ _ _ P), C.
    rewrite (outcome_false_success _ _ _ _ S J I).
    eexists. split; reflexivity.
  - intros customer_dto w body D rq C.
    apply (create_customer_propagates self customer_dto w body _ D).
    fold rq. rewrite C. now apply outcome_false_success.
  - intros order_dto w body D rq C.
    apply (create_order_propagates self order_dto w body _ D).
    fold rq. rewrite C. now apply outcome_false_success.
  - intros payment_dto w rq C.
    apply (create_payment_propagates self payment_dto w).
    fold rq. rewrite C. now apply outcome_false_success.
  - intros payment_dto w body read write OC D C run.
    destruct (create_payment_confirmed self payment_dto w OC) as [_ K].
    destruct (K body D) as (Cs & F & _). fold read write in Cs, F.
    split; [|exact Cs]. apply F. rewrite C. now apply outcome_false_success.
  - intros filter_dto w rq C run.
    destruct (get_customers_run self filter_dto w) as (Cs & F & _).
    fold rq in Cs, F. split; [|exact Cs].
    apply F. rewrite C. now apply outcome_false_success.
  - intros customer_data w rq C run.
    destruct (get_customer_orders_run self customer_data w) as (Cs & F & _).
    fold rq in Cs, F. split; [|exact Cs].
    apply F. rewrite C. now apply outcome_false_success.
Qed.

(** The theorem at the test suite's payload
    {"success": false, "errorMsg": "bad"}. *)
Lemma false_success_raises_request_error_witness :
  exists w2,
    RetailCRMService._make_request (H := Fixtures.builtins)
      (Fixtures.svc (Fixtures.backend_json
                       (VDict [("success", VBool false);
                               ("errorMsg", VStr "bad")])))
      "GET" "/customers" None None None Fixtures.empty_world
    = (Raised (Exception "Request error: RetailCRM API error: bad"), w2)
    /\ length (calls w2) = 1.
Proof.
  destruct (false_success_raises_request_error (H := Fixtures.builtins)
              (Fixtures.svc (Fixtures.backend_json
                               (VDict [("success", VBool false);
                                       ("errorMsg", VStr "bad")])))
              {| status_code := 200; text := "<json>";
                 json := JsonValue (VDict [("success", VBool false);
                                           ("errorMsg", VStr "bad")]) |}
              [("success", VBool false); ("errorMsg", VStr "bad")]
              eq_refl eq_refl eq_refl)
    as (_ & _ & _ & M & _).
  destruct (M "GET" "/customers" None None None Fixtures.empty_world
              _ _ eq_refl eq_refl) as (w2 & E & C).
  exists w2. split; [exact E|]. rewrite C. reflexivity.
Defined.

Section BuildAll.
Context {A : Type} `{PyBuiltins}.
Variable callee : string.
Variable new : dict -> result A.

Lemma build_all_ok (items : list value) (built : list A) :
  build_all callee new items = Ok built ->
  Forall2 (fun item a => exists fields,
               item = VDict fields /\ new fields = Ok a) items built.
Proof.
  revert built. induction items as [|item rest IH]; intros built; simpl.
  - intros [= <-]. constructor.
  - destruct (kwargs callee item) as [fields|e] eqn:K; [|discriminate].
    destruct (new fields) as [a|e] eqn:N; [|discriminate].
    destruct (build_all callee new rest) as [others|e]; [|discriminate].
    intros [= <-]. constructor; [|now apply IH].
    exists fields. split; [|exact N].
    destruct item; try discriminate. now injection K as ->.
Qed.

Lemma build_all_fails (items : list value) (item : value) :
  In item items ->
  (forall fields, item = VDict fields -> exists e, new fields = Raised e) ->
  exists e, build_all callee new items = Raised e.
Proof.
  intros I Bad. induction items as [|x rest IH]; [destruct I|].
  simpl. destruct (kwargs callee x) as [fields|e] eqn:K; [|now exists e].
  destruct (new fields) as [a|e] eqn:N; [|now exists e].
  destruct I as [->|I].
  - destruct item; try discriminate. injection K as ->.
    destruct (Bad fields eq_refl) as [e E]. congruence.
  - destruct (IH I) as [e ->]. now exists e.
Qed.

End BuildAll.

Section ListTheorems.
Context `{PyBuiltins}.

(** X17: [get_customers] issues exactly one call, whatever the backend
    answers: a GET to the customers endpoint with no body, whose query
    holds the limit and the page at the top level, each filter that is
    set under "filter[<field>]" and none for a filter that is not set,
    the API key, and nothing else. *)
Theorem get_customers_issues_one_filtered_read (self : RetailCRMService.t)
    (f : CustomerFiltersSchema) (w : world) :
  exists rq,
    calls (snd (RetailCRMService.get_customers self f w))
    = (calls w ++ [rq])%list
    /\ req_method rq = "GET"
    /\ req_url rq = RetailCRMService.api_url self ++ "/customers"
    /\ req_data rq = None
    /\ dict_get (req_params rq) "limit" = Some (VInt (filter_limit f))
    /\ dict_get (req_params rq) "page" = Some (VInt (filter_page f))
    /\ dict_get (req_params rq) "apiKey"
       = Some (VStr (RetailCRMService.api_key self))
    /\ dict_get (req_params rq) "filter[name]" = opt_str (filter_name f)
    /\ dict_get (req_params rq) "filter[email]" = opt_str (filter_email f)
    /\ dict_get (req_params rq) "filter[created_at_from]"
       = opt_str (created_at_from f)
    /\ dict_get (req_params rq) "filter[created_at_to]"
       = opt_str (created_at_to f)
    /\ (forall k, In k (keys (req_params rq)) ->
          In k ["limit"; "page"; "filter[name]"; "filter[email]";
                "filter[created_at_from]"; "filter[created_at_to]";
                "apiKey"]).
Proof.
  exists (customers_request self f).
  split; [apply (get_customers_run self f w)|].
  destruct f as [[n|] [e|] [a|] [b|] l p];
    repeat (split; [reflexivity|]); intros k; simpl; tauto.
Qed.

(** X18: [get_customers] on an accepted payload without a usable
    "customers" entry.  A payload with no "customers" key gives the empty
    list; a payload whose "customers" is null is not read as empty: the
    operation raises [TypeError]; a "pagination" that is neither missing,
    null nor a mapping fails the response model. *)
Theorem get_customers_missing_and_null_lists (self : RetailCRMService.t)
    (f : CustomerFiltersSchema) (w : world) (d : dict) :
  accepted (RetailCRMService.client self (calls w) (customers_request self f))
    d ->
  let run := RetailCRMService.get_customers self f w in
  (dict_get d "customers" = None ->
   (dict_get d "pagination" = None \/ dict_get d "pagination" = Some VNone ->
    fst run = Ok {| customers := []; customers_pagination := None |})
   /\ (forall p, dict_get d "pagination" = Some (VDict p) ->
         fst run = Ok {| customers := []; customers_pagination := Some p |})
   /\ (forall x, dict_get d "pagination" = Some x -> x <> VNone ->
         (forall p, x <> VDict p) ->
         fst run = Raised (ValidationError "CustomersListResponseSchema")))
  /\ (dict_get d "customers" = Some VNone ->
      fst run = Raised (PyError "TypeError"
                          "'NoneType' object is not iterable")).
Proof.
  intros Acc run.
  destruct (get_customers_run self f w) as (_ & _ & R).
  specialize (R d Acc). fold run in R. rewrite R. unfold listing.
  split.
  - intros C. unfold dict_get_default. rewrite C. cbn [py_iter build_all].
    split; [|split].
    + now intros [-> | ->].
    + now intros p ->.
    + intros x -> N1 N2. destruct x; try reflexivity;
        [now destruct N1 | now destruct (N2 d0)].
  - intros C. unfold dict_get_default. now rewrite C.
Qed.

(** X19: [get_customers] builds its list all or nothing.  On an accepted
    payload whose "customers" is a list, a result holds one customer per
    item, in the order of the items, each the validated form of its item,
    which is a mapping; a single item that is not a mapping, or that the
    customer model rejects, fails the whole operation. *)
Theorem get_customers_all_or_nothing (self : RetailCRMService.t)
    (f : CustomerFiltersSchema) (w : world) (d : dict) (items : list value) :
  accepted (RetailCRMService.client self (calls w) (customers_request self f))
    d ->
  dict_get d "customers" = Some (VList items) ->
  let run := RetailCRMService.get_customers self f w in
  (forall resp, fst run = Ok resp ->
     Forall2 (fun item c => exists fields,
                  item = VDict fields /\ new_CustomerGetSchema fields = Ok c)
       items (customers resp))
  /\ (forall item, In item items ->
        (forall fields, item = VDict fields ->
                        exists e, new_CustomerGetSchema fields = Raised e) ->
        exists e, fst run = Raised e).
Proof.
  intros Acc C run.
  destruct (get_customers_run self f w) as (_ & _ & R).
  specialize (R d Acc). fold run in R. rewrite R. unfold listing.
  unfold dict_get_default. rewrite C. cbn [py_iter].
  split.
  - intros resp E.
    destruct (build_all "src.schemas.customers.CustomerGetSchema"
                  new_CustomerGetSchema items) as [cs|e] eqn:B;
      [|discriminate].
    unfold new_CustomersListResponseSchema in E.
    destruct (coerce_pagination (or_none (dict_get d "pagination")));
      [|discriminate].
    injection E as <-. exact (build_all_ok _ _ _ _ B).
  - intros item I Bad.
    destruct (build_all_fails "src.schemas.customers.CustomerGetSchema"
                new_CustomerGetSchema items item I Bad)
      as [e ->].
    now exists e.
Qed.

(** X20: [get_customer_orders] issues exactly one call, whatever the
    backend answers: a GET to the orders endpoint whose query is the
    limit, the page, the customer id under "filter[customerId]" and the
    API key. *)
Theorem get_customer_orders_issues_one_read (self : RetailCRMService.t)
    (c : CustomerGetOrdersSchema) (w : world) :
  calls (snd (RetailCRMService.get_customer_orders self c w))
  = (calls w
     ++ [{| req_method := "GET";
            req_url := RetailCRMService.api_url self ++ "/orders";
            req_params :=
              [("limit", VInt (orders_limit c));
               ("page", VInt (orders_page c));
               ("filter[customerId]", VInt (orders_customer_id c));
               ("apiKey", VStr (RetailCRMService.api_key self))];
            req_data := None;
            req_headers :=
              Some [("Content-Type",
                     VStr "application/x-www-form-urlencoded")] |}])%list.
Proof. apply (get_customer_orders_run self c w). Qed.

(** X21: the orders [get_customer_orders] returns.  On an accepted
    payload with no "orders" key the list is empty; when "orders" is a
    list, a result holds one order per item, in the order of the items,
    each the validated form of its item, and a single item that is not a
    mapping or that the order model rejects fails the whole operation. *)
Theorem get_customer_orders_all_or_nothing (self : RetailCRMService.t)
    (c : CustomerGetOrdersSchema) (w : world) (d : dict) :
  accepted (RetailCRMService.client self (calls w)
              (customer_orders_request self c)) d ->
  let run := RetailCRMService.get_customer_orders self c w in
  (dict_get d "orders" = None ->
   forall resp, fst run = Ok resp -> orders resp = [])
  /\ (forall items, dict_get d "orders" = Some (VList items) ->
        (forall resp, fst run = Ok resp ->
           Forall2 (fun item o => exists fields,
                        item = VDict fields
                        /\ new_OrderResponseSchema fields = Ok o)
             items (orders resp))
        /\ (forall item, In item items ->
              (forall fields, item = VDict fields ->
                 exists e, new_OrderResponseSchema fields = Raised e) ->
              exists e, fst run = Raised e)).
Proof.
  intros Acc run.
  destruct (get_customer_orders_run self c w) as (_ & _ & R).
  specialize (R d Acc). fold run in R. rewrite R. unfold listing.
  unfold dict_get_default. split.
  - intros C resp. rewrite C. cbn [py_iter build_all].
    unfold new_OrdersListResponse.
    destruct (coerce_pagination (or_none (dict_get d "pagination")));
      [|discriminate].
    now intros [= <-].
  - intros items C. rewrite C. cbn [py_iter]. split.
    + intros resp E.
      destruct (build_all "src.schemas.orders.OrderResponseSchema"
                  new_OrderResponseSchema items) as [os|e] eqn:B;
        [|discriminate].
      unfold new_OrdersListResponse in E.
      destruct (coerce_pagination (or_none (dict_get d "pagination")));
        [|discriminate].
      injection E as <-. exact (build_all_ok _ _ _ _ B).
    + intros item I Bad.
      destruct (build_all_fails "src.schemas.orders.OrderResponseSchema"
                new_OrderResponseSchema items item I Bad)
        as [e ->].
      now exists e.
Qed.

End ListTheorems.

(** The theorem for the payload {"success": true}: no customers, no
    pagination. *)
Lemma get_customers_missing_and_null_lists_witness :
  fst (RetailCRMService.get_customers (H := Fixtures.builtins)
         (Fixtures.svc (Fixtures.backend_json
                          (VDict [("success", VBool true)])))
         Fixtures.john_filters Fixtures.empty_world)
  = Ok {| customers := []; customers_pagination := None |}.
Proof.
  assert (accepted
            (RetailCRMService.client
               (Fixtures.svc (Fixtures.backend_json
                                (VDict [("success", VBool true)])))
               (calls Fixtures.empty_world)
               (customers_request
                  (Fixtures.svc (Fixtures.backend_json
                                   (VDict [("success", VBool true)])))
                  Fixtures.john_filters))
            [("success", VBool true)]) as Acc
    by (eexists; repeat split; reflexivity).
  destruct (get_customers_missing_and_null_lists (H := Fixtures.builtins)
              _ _ _ _ Acc) as [Missing _].
  destruct (Missing eq_refl) as [Empty _].
  apply Empty. left. reflexivity.
Defined.

(** The theorem for a list of two items, the second of which is a
    number. *)
Lemma get_customers_all_or_nothing_witness :
  exists e,
    fst (RetailCRMService.get_customers (H := Fixtures.builtins)
           (Fixtures.svc
              (Fixtures.backend_json
                 (VDict [("success", VBool true);
                         ("customers",
                          VList [VDict [("id", VInt 1);
                                        ("firstName", VStr "Ann")];
                                 VInt 5])])))
           Fixtures.john_filters Fixtures.empty_world)
    = Raised e.
Proof.
  assert (accepted
            (RetailCRMService.client
               (Fixtures.svc
                  (Fixtures.backend_json
                     (VDict [("success", VBool true);
                             ("customers",
                              VList [VDict [("id", VInt 1);
                                            ("firstName", VStr "Ann")];
                                     VInt 5])])))
               (calls Fixtures.empty_world)
               (customers_request
                  (Fixtures.svc
                     (Fixtures.backend_json
                        (VDict [("success", VBool true);
                                ("customers",
                                 VList [VDict [("id", VInt 1);
                                               ("firstName", VStr "Ann")];
                                        VInt 5])])))
                  Fixtures.john_filters))
            [("success", VBool true);
             ("customers",
              VList [VDict [("id", VInt 1); ("firstName", VStr "Ann")];
                     VInt 5])]) as Acc
    by (eexists; repeat split; reflexivity).
  destruct (get_customers_all_or_nothing (H := Fixtures.builtins)
              _ _ _ _ _ Acc eq_refl) as [_ Fails].
  apply (Fails (VInt 5)); [right; left; reflexivity | discriminate].
Defined.

(** The theorem for the payload {"success": true}: no orders. *)
Lemma get_customer_orders_all_or_nothing_witness :
  match fst (RetailCRMService.get_customer_orders (H := Fixtures.builtins)
               (Fixtures.svc (Fixtures.backend_json
                                (VDict [("success", VBool true)])))
               {| orders_customer_id := 5; orders_limit := 20;
                  orders_page := 1 |} Fixtures.empty_world) with
  | Ok resp => orders resp = []
  | Raised _ => False
  end.
Proof.
  assert (accepted
            (RetailCRMService.client
               (Fixtures.svc (Fixtures.backend_json
                                (VDict [("success", VBool true)])))
               (calls Fixtures.empty_world)
               (customer_orders_request
                  (Fixtures.svc (Fixtures.backend_json
                                   (VDict [("success", VBool true)])))
                  {| orders_customer_id := 5; orders_limit := 20;
                     orders_page := 1 |}))
            [("success", VBool true)]) as Acc
    by (eexists; repeat split; reflexivity).
  destruct (get_customer_orders_all_or_nothing (H := Fixtures.builtins)
              _ _ _ _ Acc) as [Missing _].
  exact (Missing eq_refl {| orders := []; orders_pagination := None |}
           eq_refl).
Defined.

(* ================================================================== *)
(** * The routes *)
(* ================================================================== *)

Section RouteFacts.
Context `{PyBuiltins}.
Variable status_text : Z -> string -> string.

Lemma guarded_log {A} (hl : option string) (el : string) (l : level)
    (s : string) (k : unit -> M A) (w : world) :
  Api.guarded status_text hl el (bind (log l s) k) w
  = Api.guarded status_text hl el (k tt)
      {| heap := heap w; calls := calls w;
         logs := (logs w ++ [(l, s)])%list |}.
Proof. reflexivity. Qed.

Lemma guarded_bind_raised {A B} (hl : option string) (el : string)
    (m : M A) (k : A -> M B) (w : world) (msg : string) :
  fst (m w) = Raised (Exception msg) ->
  let reply := Api.guarded status_text hl el (bind m k) w in
  fst reply = Api.HTTPException 500 msg
  /\ calls (snd reply) = calls (snd (m w)).
Proof.
  intros E reply. subst reply. unfold Api.guarded, bind.
  destruct (m w) as [[a|e] w']; cbn [fst] in E; [discriminate|].
  injection E as ->. split; reflexivity.
Qed.

Lemma guarded_lift_raised {A B} (hl : option string) (el : string)
    (e : exn) (k : A -> M B) (w : world) :
  String.eqb (exn_class e) "HTTPException" = false ->
  is_Exception e = true ->
  let reply := Api.guarded status_text hl el (bind (lift (Raised e)) k) w in
  fst reply = Api.HTTPException 500 (Api.exn_str status_text e)
  /\ calls (snd reply) = calls w.
Proof.
  intros C Ex reply. subst reply. unfold Api.guarded, bind, lift.
  rewrite C, Ex. split; reflexivity.
Qed.

Lemma guarded_lift_ok {A B} (hl : option string) (el : string)
    (a : A) (k : A -> M B) (w : world) :
  Api.guarded status_text hl el (bind (lift (Ok a)) k) w
  = Api.guarded status_text hl el (k a) w.
Proof. reflexivity. Qed.

End RouteFacts.

(** Closes the first half of a goal on a route whose service operation
    fails with the message [msg], of which [R] is the proof, and turns
    the calls of the route into those of the operation. *)
Ltac route_failure status_text msg R :=
  match goal with
  | |- context [Api.guarded _ ?hl ?el (bind ?m ?k) ?w0] =>
      let F := fresh "F" in
      let C := fresh "C" in
      destruct (guarded_bind_raised status_text hl el m k w0 msg R)
        as [F C];
      split; [exact F | rewrite C]
  end.

(** X22: POST /payments/ for an order the backend does not know.  When
    the backend accepts the existence read but the payload has no truthy
    "order" record, the route answers with status 500 and the detail
    "Order with id N not found"; the read is the only outbound call it
    has made. *)
Theorem payment_route_reports_missing_order `{PyBuiltins}
    (status_text : Z -> string -> string) (service : RetailCRMService.t)
    (payment : PaymentCreateSchema) (w : world) (d : dict) :
  let order_id := payment_order_id payment in
  let read := order_read service order_id in
  accepted (RetailCRMService.client service (calls w) read) d ->
  truthy_opt (dict_get d "order") = false ->
  let reply := Api.create_payment status_text payment service w in
  fst reply
  = Api.HTTPException 500 ("Order with id " ++ str_of_int order_id
                           ++ " not found")
  /\ calls (snd reply) = (calls w ++ [read])%list.
Proof.
  intros order_id read (r & A & S & J & I) T reply. subst reply.
  unfold Api.create_payment. rewrite guarded_log.
  set (w' := {| heap := heap w; calls := calls w; logs := _ |}).
  pose proof (create_payment_after_read service payment w') as L.
  cbv zeta in L. change (calls w') with (calls w) in L.
  fold order_id in L. fold read in L. rewrite A in L.
  unfold outcome in L. rewrite S, J, I in L. cbn [fst snd] in L.
  destruct L as (d0 & [= <-] & _ & _ & L). rewrite T in L.
  match goal with
  | |- context [Api.guarded _ ?hl ?el (bind ?m ?k) ?w0] =>
      destruct (guarded_bind_raised status_text hl el m k w0
                  ("Order with id " ++ str_of_int order_id ++ " not found"))
        as [F C]; [now rewrite L|]
  end.
  split; [exact F|]. rewrite C, L. reflexivity.
Qed.

(** The theorem for a backend that answers {"success": true}. *)
Lemma payment_route_reports_missing_order_witness :
  fst (Api.create_payment (H := Fixtures.builtins)
         (fun _ body => body) Fixtures.payment
         (Fixtures.svc (Fixtures.backend_json
                          (VDict [("success", VBool true)])))
         Fixtures.empty_world)
  = Api.HTTPException 500 "Order with id 7 not found".
Proof.
  assert (accepted
            (RetailCRMService.client
               (Fixtures.svc (Fixtures.backend_json
                                (VDict [("success", VBool true)])))
               (calls Fixtures.empty_world)
               (order_read
                  (Fixtures.svc (Fixtures.backend_json
                                   (VDict [("success", VBool true)])))
                  (payment_order_id Fixtures.payment)))
            [("success", VBool true)]) as Acc
    by (eexists; repeat split; reflexivity).
  exact (proj1 (payment_route_reports_missing_order (H := Fixtures.builtins)
                  (fun _ body => body) _ _ _ _ Acc eq_refl)).
Defined.

(** X23: a backend status outside 200..299 reaches the client of every
    route as status 500 whose detail is "CRM API error: HTTP ", the
    backend's status code, ": " and the backend's body; the route has made
    that one outbound call. *)
Theorem routes_report_backend_status_as_500 `{PyBuiltins}
    (status_text : Z -> string -> string) (service : RetailCRMService.t)
    (r : response) :
  is_success (status_code r) = false ->
  let detail := "CRM API error: HTTP " ++ str_of_int (status_code r) ++ ": "
                ++ text r in
  (forall (customer : CustomerAddSchema) (w : world) (body : string),
      json_dumps (VDict (dump_CustomerAddSchema customer)) = Ok body ->
      let rq := request_for service HTTPMethod.POST E.CUSTOMERS_CREATE None
                  (Some [("customer", VStr body)]) in
      RetailCRMService.client service (calls w) rq = Responded r ->
      let reply := Api.create_customer status_text customer service w in
      fst reply = Api.HTTPException 500 detail
      /\ calls (snd reply) = (calls w ++ [rq])%list)
  /\ (forall (order : OrderCreateSchema) (w : world) (body : string),
        json_dumps (VDict (dump_OrderCreateSchema order)) = Ok body ->
        let rq := request_for service HTTPMethod.POST E.ORDER_CREATE None
                    (Some [("order", VStr body)]) in
        RetailCRMService.client service (calls w) rq = Responded r ->
        let reply := Api.create_order status_text order service w in
        fst reply = Api.HTTPException 500 detail
        /\ calls (snd reply) = (calls w ++ [rq])%list)
  /\ (forall (payment : PaymentCreateSchema) (w : world),
        let rq := order_read service (payment_order_id payment) in
        RetailCRMService.client service (calls w) rq = Responded r ->
        let reply := Api.create_payment status_text payment service w in
        fst reply = Api.HTTPException 500 detail
        /\ calls (snd reply) = (calls w ++ [rq])%list)
  /\ (forall (customer_id limit page : Z) (w : world),
        let rq := customer_orders_request service
                    {| orders_customer_id := customer_id;
                       orders_limit := limit; orders_page := page |} in
        RetailCRMService.client service (calls w) rq = Responded r ->
        let reply := Api.get_customer_orders status_text customer_id limit
                       page service w in
        fst reply = Api.HTTPException 500 detail
        /\ calls (snd reply) = (calls w ++ [rq])%list)
  /\ (forall (name email from_date to_date : option string) (limit page : Z)
             (f : CustomerFiltersSchema) (w : world),
        new_CustomerFiltersSchema name email from_date to_date limit page
        = Ok f ->
        let rq := customers_request service f in
        RetailCRMService.client service (calls w) rq = Responded r ->
        let reply := Api.get_customers status_text name email from_date
                       to_date limit page service w in
        fst reply = Api.HTTPException 500 detail
        /\ calls (snd reply) = (calls w ++ [rq])%list).
Proof.
  intros S detail.
  assert (forall method endpoint,
             fst (outcome method endpoint (Responded r))
             = Raised (Exception detail)) as O
    by (intros; now apply outcome_non_2xx).
  split; [|split; [|split; [|split]]].
  - intros customer w body J rq A reply. subst reply.
    unfold Api.create_customer. rewrite guarded_log.
    match goal with
    | |- context [Api.guarded _ _ _ _ ?w0] =>
        destruct (create_customer_propagates service customer w0 body
                    (Exception detail) J) as [F C];
          [cbn [calls]; fold rq; rewrite A; apply O|]
    end.
    route_failure status_text detail F. exact C.
  - intros order w body J rq A reply. subst reply.
    unfold Api.create_order. cbv zeta. rewrite guarded_log.
    match goal with
    | |- context [Api.guarded _ _ _ _ ?w0] =>
        destruct (create_order_propagates service order w0 body
                    (Exception detail) J) as [F C];
          [cbn [calls]; fold rq; rewrite A; apply O|]
    end.
    route_failure status_text detail F. exact C.
  - intros payment w rq A reply. subst reply.
    unfold Api.create_payment. rewrite guarded_log.
    match goal with
    | |- context [Api.guarded _ _ _ _ ?w0] =>
        destruct (create_payment_propagates service payment w0
                    (Exception detail)) as [F C];
          [cbn [calls]; fold rq; rewrite A; apply O|]
    end.
    route_failure status_text detail F. exact C.
  - intros customer_id limit page w rq A reply. subst reply.
    unfold Api.get_customer_orders. rewrite guarded_log. cbv beta zeta.
    match goal with
    | |- context [Api.guarded _ _ _
                    (bind (RetailCRMService.get_customer_orders _ ?c) _)
                    ?w0] =>
        destruct (get_customer_orders_run service c w0) as (C & F & _)
    end.
    cbn [calls] in C, F. fold rq in C, F. rewrite A in F.
    specialize (F _ (O _ _)).
    route_failure status_text detail F. exact C.
  - intros name email from_date to_date limit page f w E rq A reply.
    subst reply. unfold Api.get_customers. rewrite E, guarded_lift_ok.
    rewrite guarded_log.
    match goal with
    | |- context [Api.guarded _ _ _ _ ?w0] =>
        destruct (get_customers_run service f w0) as (C & F & _)
    end.
    cbn [calls] in C, F. fold rq in C, F. rewrite A in F.
    specialize (F _ (O _ _)).
    route_failure status_text detail F. exact C.
Qed.

(** The theorem for POST /customers/ on a backend that answers 404. *)
Lemma routes_report_backend_status_as_500_witness :
  fst (Api.create_customer (H := Fixtures.builtins) (fun _ body => body)
         Fixtures.customer
         (Fixtures.svc (Fixtures.backend_status 404 "Not Found"))
         Fixtures.empty_world)
  = Api.HTTPException 500 "CRM API error: HTTP 404: Not Found".
Proof.
  destruct (routes_report_backend_status_as_500 (H := Fixtures.builtins)
              (fun _ body => body)
              (Fixtures.svc (Fixtures.backend_status 404 "Not Found"))
              {| status_code := 404; text := "Not Found";
                 json := JsonInvalid "Expecting value" |} eq_refl)
    as [Customers _].
  exact (proj1 (Customers Fixtures.customer Fixtures.empty_world "{...}"
                  eq_refl eq_refl)).
Defined.

(** X24: GET /customers/ with an email filter that is not an email
    address.  The filter model is built inside the [try] of the route, so
    the request is not rejected as invalid: the route answers with status
    500, and it has made no outbound call. *)
Theorem customers_route_invalid_email_is_500 `{PyBuiltins}
    (status_text : Z -> string -> string) (service : RetailCRMService.t)
    (name from_date to_date : option string) (email : string)
    (limit page : Z) (w : world) :
  pydantic_email (VStr email) = None ->
  let reply := Api.get_customers status_text name (Some email) from_date
                 to_date limit page service w in
  (exists detail, fst reply = Api.HTTPException 500 detail)
  /\ calls (snd reply) = calls w.
Proof.
  intros E reply. subst reply. unfold Api.get_customers.
  unfold new_CustomerFiltersSchema. rewrite E. cbn [option_map validated].
  match goal with
  | |- context [Api.guarded _ ?hl ?el (bind (lift (Raised ?e)) ?k) ?w0] =>
      destruct (guarded_lift_raised status_text hl el e k w0 eq_refl
                  eq_refl) as [F C]
  end.
  split; [eexists; exact F | exact C].
Qed.

(** The theorem for the email filter "not-an-email" and a validator that
    wants an "@". *)
Lemma customers_route_invalid_email_is_500_witness :
  calls (snd (Api.get_customers (H := Fixtures.strict_builtins)
                (fun _ body => body) None (Some "not-an-email") None None
                20 1 (Fixtures.svc (Fixtures.backend_json VNone))
                Fixtures.empty_world))
  = [].
Proof.
  exact (proj2 (customers_route_invalid_email_is_500
                  (H := Fixtures.strict_builtins) (fun _ body => body)
                  (Fixtures.svc (Fixtures.backend_json VNone))
                  None None None "not-an-email" 20 1 Fixtures.empty_world
                  eq_refl)).
Defined.

(* ================================================================== *)
(** * Failures before and after the write *)
(* ================================================================== *)

(** X25: when [json.dumps] raises on the payload of a write operation,
    the operation fails with that error and the write is not sent:
    [create_customer] and [create_order] have made no outbound call,
    [create_payment], whose existence read confirmed the order, has made
    the read and nothing else. *)
Theorem serialization_failure_sends_no_write `{PyBuiltins}
    (self : RetailCRMService.t) (w : world) (e : exn) :
  (forall customer_dto : CustomerAddSchema,
      json_dumps (VDict (dump_CustomerAddSchema customer_dto)) = Raised e ->
      let run := RetailCRMService.create_customer self customer_dto w in
      fst run = Raised e /\ calls (snd run) = calls w)
  /\ (forall order_dto : OrderCreateSchema,
        json_dumps (VDict (dump_OrderCreateSchema order_dto)) = Raised e ->
        let run := RetailCRMService.create_order self order_dto w in
        fst run = Raised e /\ calls (snd run) = calls w)
  /\ (forall payment_dto : PaymentCreateSchema,
        let read := order_read self (payment_order_id payment_dto) in
        order_confirmed (RetailCRMService.client self (calls w) read) = true ->
        json_dumps
          (VDict (dict_set "order"
                    (VDict [("id", VInt (payment_order_id payment_dto))])
                    (dump_PaymentCreateSchema payment_dto))) = Raised e ->
        let run := RetailCRMService.create_payment self payment_dto w in
        fst run = Raised e /\ calls (snd run) = (calls w ++ [read])%list).
Proof.
  split; [|split].
  - intros customer_dto J run. subst run.
    unfold RetailCRMService.create_customer. cbv zeta.
    rewrite bind_log, J, bind_lift_raised. split; reflexivity.
  - intros order_dto J run. subst run.
    unfold RetailCRMService.create_order. cbv zeta.
    rewrite bind_log, J, bind_lift_raised. split; reflexivity.
  - intros payment_dto read OC J run.
    destruct (create_payment_confirmed self payment_dto w OC) as [K _].
    exact (K e J).
Qed.

(** The theorem for a customer with a birthday and an encoder that has no
    encoding for a datetime. *)
Lemma serialization_failure_sends_no_write_witness :
  let run := RetailCRMService.create_customer
               (H := Fixtures.standard_json_builtins)
               (Fixtures.svc (Fixtures.backend_json
                                (VDict [("success", VBool true);
                                        ("id", VInt 1)])))
               Fixtures.customer_with_birthday Fixtures.empty_world in
  fst run = Raised (PyError "TypeError"
                      "Object of type datetime is not JSON serializable")
  /\ calls (snd run) = [].
Proof.
  exact (proj1 (serialization_failure_sends_no_write
                  (H := Fixtures.standard_json_builtins)
                  (Fixtures.svc (Fixtures.backend_json
                                   (VDict [("success", VBool true);
                                           ("id", VInt 1)])))
                  Fixtures.empty_world _)
           Fixtures.customer_with_birthday eq_refl).
Defined.

(** X26: [create_order] returns nothing for an order record that is not
    complete.  When the backend has accepted the write and the record the
    operation validates lacks the id, the number, the customer, the
    items, the total (under "totalSumm" and under "total_amount") or the
    creation date (under "createdAt" and under "created_at"), the
    operation raises, although the call that creates the order has been
    made. *)
Theorem create_order_rejects_incomplete_record `{PyBuiltins}
    (self : RetailCRMService.t) (order_dto : OrderCreateSchema) (w : world)
    (body : string) (d fields : dict) :
  json_dumps (VDict (dump_OrderCreateSchema order_dto)) = Ok body ->
  let rq := request_for self HTTPMethod.POST E.ORDER_CREATE None
              (Some [("order", VStr body)]) in
  accepted (RetailCRMService.client self (calls w) rq) d ->
  (dict_get d "order" = Some (VDict fields) /\ fields <> []
   \/ truthy_opt (dict_get d "order") = false /\ fields = d) ->
  (dict_get fields "id" = None \/ dict_get fields "number" = None
   \/ dict_get fields "customer" = None \/ dict_get fields "items" = None
   \/ (dict_get fields "totalSumm" = None
       /\ dict_get fields "total_amount" = None)
   \/ (dict_get fields "createdAt" = None
       /\ dict_get fields "created_at" = None)) ->
  let run := RetailCRMService.create_order self order_dto w in
  (exists e, fst run = Raised e)
  /\ calls (snd run) = (calls w ++ [rq])%list.
Proof.
  intros J rq Acc N Missing run.
  destruct (create_order_accepted self order_dto w body d J Acc)
    as (F & C & _). fold run in F, C. split; [|exact C].
  assert (normalized d "order" = VDict fields) as Nz.
  { destruct N as [[W NE]|[W ->]].
    - apply normalized_wrapped; [exact W | now destruct fields].
    - now apply normalized_fallback. }
  rewrite F, Nz. cbn [kwargs]. unfold new_OrderResponseSchema.
  destruct (match dict_get fields "customer" with
            | Some c => coerce_CustomerGetSchema c
            | None => Ok None
            end) as [cust|e] eqn:Cu; [|now exists e].
  exists (ValidationError "OrderResponseSchema").
  destruct Missing as [M|[M|[M|[M|[[M1 M2]|[M1 M2]]]]]].
  - now rewrite M.
  - rewrite M. cbn [required].
    now destruct (required pydantic_int (dict_get fields "id")).
  - rewrite M in Cu. injection Cu as <-.
    destruct (required pydantic_int (dict_get fields "id")); [|reflexivity].
    now destruct (required pydantic_str (dict_get fields "number")).
  - rewrite M. cbn [required].
    destruct (required pydantic_int (dict_get fields "id")); [|reflexivity].
    destruct (required pydantic_str (dict_get fields "number"));
      [|reflexivity].
    now destruct cust.
  - unfold get_field at 1. rewrite M1, M2. cbn [required].
    destruct (required pydantic_int (dict_get fields "id")); [|reflexivity].
    destruct (required pydantic_str (dict_get fields "number"));
      [|reflexivity].
    destruct cust; [|reflexivity].
    now destruct (required (pydantic_list coerce_OrderItemGetSchema)
                    (dict_get fields "items")).
  - unfold get_field at 2. rewrite M1, M2. cbn [required].
    destruct (required pydantic_int (dict_get fields "id")); [|reflexivity].
    destruct (required pydantic_str (dict_get fields "number"));
      [|reflexivity].
    destruct cust; [|reflexivity].
    destruct (required (pydantic_list coerce_OrderItemGetSchema)
                (dict_get fields "items")); [|reflexivity].
    now destruct (required pydantic_float
                    (get_field fields "totalSumm" "total_amount")).
Qed.

(** The theorem for the answer {"success": true, "id": 12}, which names
    the order that was created and nothing more. *)
Lemma create_order_rejects_incomplete_record_witness :
  exists e,
    fst (RetailCRMService.create_order (H := Fixtures.builtins)
           (Fixtures.svc (Fixtures.backend_json
                            (VDict [("success", VBool true);
                                    ("id", VInt 12)])))
           Fixtures.empty_order Fixtures.empty_world)
    = Raised e.
Proof.
  assert (accepted
            (RetailCRMService.client
               (Fixtures.svc (Fixtures.backend_json
                                (VDict [("success", VBool true);
                                        ("id", VInt 12)])))
               (calls Fixtures.empty_world)
               (request_for
                  (Fixtures.svc (Fixtures.backend_json
                                   (VDict [("success", VBool true);
                                           ("id", VInt 12)])))
                  HTTPMethod.POST E.ORDER_CREATE None
                  (Some [("order", VStr "{...}")])))
            [("success", VBool true); ("id", VInt 12)]) as Acc
    by (eexists; repeat split; reflexivity).
  refine (proj1 (create_order_rejects_incomplete_record
                   (H := Fixtures.builtins) _ Fixtures.empty_order
                   Fixtures.empty_world "{...}" _
                   [("success", VBool true); ("id", VInt 12)]
                   eq_refl Acc _ _)).
  - right. split; reflexivity.
  - right. left. reflexivity.
Defined.
